(** * Thread/conversation aggregation engine of Tebbi-Analyst
    (src/utils/thread_analytics.py), shallow embedding.

    Python values coming out of [json.loads] (history items, thread records,
    messages) are modelled by [PyVal].  Strings are Rocq strings whose
    characters are read as code points 0..255 (the Latin-1 part of Python's
    [str]); JSON numbers are modelled as integers.  A Python [dict] is an
    association list in insertion order.  Exceptions are the [Err] branch of
    a small error monad. *)

From Stdlib Require Import String Ascii List ZArith Bool Lia Arith Permutation Sorted.
Import ListNotations.
Open Scope list_scope.
#[export] Set Warnings "-register-all".

(** ** Python values *)

Inductive PyVal : Type :=
| VNone
| VBool (b : bool)
| VInt (z : Z)
| VStr (s : string)
| VList (l : list PyVal)
| VDict (d : list (string * PyVal)).

Inductive exn : Type :=
| AttributeError
| TypeError
| ValueError
| OSError
| GenericException.

Inductive result (A : Type) : Type :=
| Ok (a : A)
| Err (e : exn).
Arguments Ok {A} a.
Arguments Err {A} e.

Definition bind {A B} (m : result A) (k : A -> result B) : result B :=
  match m with
  | Ok a => k a
  | Err e => Err e
  end.

Notation "x <- m ;; k" := (bind m (fun x => k))
  (at level 61, m at next level, right associativity).

(** A Python [for] loop threading an accumulator; an exception aborts it. *)
Fixpoint fold_m {A B} (f : A -> B -> result A) (l : list B) (a : A) : result A :=
  match l with
  | [] => Ok a
  | x :: xs => a' <- f a x ;; fold_m f xs a'
  end.

(** Truthiness ([bool(v)]). *)
Definition truthy (v : PyVal) : bool :=
  match v with
  | VNone => false
  | VBool b => b
  | VInt z => negb (Z.eqb z 0)
  | VStr s => negb (String.eqb s EmptyString)
  | VList l => match l with [] => false | _ => true end
  | VDict d => match d with [] => false | _ => true end
  end.

Fixpoint dget (d : list (string * PyVal)) (k : string) (default : PyVal) : PyVal :=
  match d with
  | [] => default
  | (k', v) :: r => if String.eqb k k' then v else dget r k default
  end.

Fixpoint dget_opt (d : list (string * PyVal)) (k : string) : option PyVal :=
  match d with
  | [] => None
  | (k', v) :: r => if String.eqb k k' then Some v else dget_opt r k
  end.

(** [v.get(k, default)]: only a dict has [.get]. *)
Definition py_get (v : PyVal) (k : string) (default : PyVal) : result PyVal :=
  match v with
  | VDict d => Ok (dget d k default)
  | _ => Err AttributeError
  end.

Definition is_dict (v : PyVal) : bool :=
  match v with VDict _ => true | _ => false end.

(** Numeric view of [bool] and [int] ([True == 1]). *)
Definition num_of (v : PyVal) : option Z :=
  match v with
  | VBool b => Some (if b then 1%Z else 0%Z)
  | VInt z => Some z
  | _ => None
  end.

(** [a == b]. *)
Fixpoint py_eq (a b : PyVal) : bool :=
  match a, b with
  | VNone, VNone => true
  | VStr s, VStr t => String.eqb s t
  | VList l1, VList l2 =>
      (fix go (l1 l2 : list PyVal) : bool :=
         match l1, l2 with
         | [], [] => true
         | x :: xs, y :: ys => py_eq x y && go xs ys
         | _, _ => false
         end) l1 l2
  | VDict d1, VDict d2 =>
      Nat.eqb (length d1) (length d2) &&
      (fix go (d : list (string * PyVal)) : bool :=
         match d with
         | [] => true
         | (k, v) :: r =>
             match dget_opt d2 k with
             | Some v' => py_eq v v' && go r
             | None => false
             end
         end) d1
  | _, _ =>
      match num_of a, num_of b with
      | Some x, Some y => Z.eqb x y
      | _, _ => false
      end
  end.

(** [a < b]; ordering between unrelated types, [None] or dicts raises. *)
Fixpoint py_lt (a b : PyVal) : result bool :=
  match a, b with
  | VStr s, VStr t => Ok (String.ltb s t)
  | VList l1, VList l2 =>
      (fix go (l1 l2 : list PyVal) : result bool :=
         match l1, l2 with
         | [], [] => Ok false
         | [], _ :: _ => Ok true
         | _ :: _, [] => Ok false
         | x :: xs, y :: ys => if py_eq x y then go xs ys else py_lt x y
         end) l1 l2
  | _, _ =>
      match num_of a, num_of b with
      | Some x, Some y => Ok (Z.ltb x y)
      | _, _ => Err TypeError
      end
  end.

(** Hashable values: lists and dicts are not. *)
Definition hashable (v : PyVal) : bool :=
  match v with VList _ | VDict _ => false | _ => true end.

(** [x in s] for a Python [set] (or the keys of a dict). *)
Definition set_mem (x : PyVal) (s : list PyVal) : result bool :=
  if hashable x then Ok (existsb (py_eq x) s) else Err TypeError.

(** [x in l] for a Python [list]. *)
Definition list_mem (x : PyVal) (l : list PyVal) : bool := existsb (py_eq x) l.

(** ** Strings *)

Definition chr (n : nat) : ascii := ascii_of_nat n.

(** [str.isspace] on code points 0..255. *)
Definition is_space (c : ascii) : bool :=
  let n := nat_of_ascii c in
  ((9 <=? n) && (n <=? 13)) || ((28 <=? n) && (n <=? 32)) ||
  Nat.eqb n 133 || Nat.eqb n 160.

Fixpoint lstrip (s : string) : string :=
  match s with
  | EmptyString => EmptyString
  | String c r => if is_space c then lstrip r else s
  end.

Fixpoint rev_str (s : string) (acc : string) : string :=
  match s with
  | EmptyString => acc
  | String c r => rev_str r (String c acc)
  end.

Definition rstrip (s : string) : string :=
  rev_str (lstrip (rev_str s EmptyString)) EmptyString.

(** [s.strip()]. *)
Definition strip (s : string) : string := rstrip (lstrip s).

(** [c.lower()] on code points 0..255. *)
Definition lower_char (c : ascii) : ascii :=
  let n := nat_of_ascii c in
  if ((65 <=? n) && (n <=? 90)) || ((192 <=? n) && (n <=? 222) && negb (Nat.eqb n 215))
  then chr (n + 32) else c.

Fixpoint lower (s : string) : string :=
  match s with
  | EmptyString => EmptyString
  | String c r => String (lower_char c) (lower r)
  end.

(** [sub in s]. *)
Fixpoint str_contains (sub s : string) : bool :=
  String.prefix sub s ||
  match s with
  | EmptyString => false
  | String _ r => str_contains sub r
  end.

Fixpoint join (sep : string) (l : list string) : string :=
  match l with
  | [] => EmptyString
  | [x] => x
  | x :: r => (x ++ sep ++ join sep r)%string
  end.

Fixpoint digits_aux (fuel : nat) (n : N) (acc : string) : string :=
  match fuel with
  | O => acc
  | S f =>
      let acc' := String (chr (48 + N.to_nat (N.modulo n 10))) acc in
      if N.ltb n 10 then acc' else digits_aux f (N.div n 10) acc'
  end.

(** [str(n)] for an integer. *)
Definition z_to_string (z : Z) : string :=
  match z with
  | Z0 => "0"%string
  | Zpos p => digits_aux (Pos.size_nat p) (Npos p) EmptyString
  | Zneg p => String "-"%char (digits_aux (Pos.size_nat p) (Npos p) EmptyString)
  end.

Fixpoint str_has (c : nat) (s : string) : bool :=
  match s with
  | EmptyString => false
  | String a r => Nat.eqb (nat_of_ascii a) c || str_has c r
  end.

Definition hex_digit (n : nat) : ascii :=
  if n <? 10 then chr (48 + n) else chr (87 + n).

(** [repr(s)] of a string: quote choice and escapes of CPython, for code
    points 0..255. *)
Definition repr_str (s : string) : string :=
  let q := if str_has 39 s && negb (str_has 34 s) then 34 else 39 in
  let esc (c : ascii) : string :=
    let n := nat_of_ascii c in
    if Nat.eqb n 92 then "\\"%string
    else if Nat.eqb n q then String (chr 92) (String c EmptyString)
    else if Nat.eqb n 10 then "\n"%string
    else if Nat.eqb n 13 then "\r"%string
    else if Nat.eqb n 9 then "\t"%string
    else if (n <? 32) || ((127 <=? n) && (n <=? 160)) || Nat.eqb n 173
    then String (chr 92) (String "x"%char (String (hex_digit (n / 16))
                                       (String (hex_digit (n mod 16)) EmptyString)))
    else String c EmptyString in
  let fix go (s : string) : string :=
    match s with
    | EmptyString => EmptyString
    | String c r => (esc c ++ go r)%string
    end in
  String (chr q) ((go s ++ String (chr q) EmptyString)%string).

(** [repr(v)] and [str(v)]. *)
Fixpoint py_repr (v : PyVal) : string :=
  match v with
  | VNone => "None"%string
  | VBool true => "True"%string
  | VBool false => "False"%string
  | VInt z => z_to_string z
  | VStr s => repr_str s
  | VList l => ("[" ++ join ", " (map py_repr l) ++ "]")%string
  | VDict d =>
      ("{" ++ join ", " (map (fun kv => repr_str (fst kv) ++ ": " ++ py_repr (snd kv)) d)
       ++ "}")%string
  end.

Definition py_str (v : PyVal) : string :=
  match v with
  | VStr s => s
  | _ => py_repr v
  end.

(** ** Message Extractor *)

(** A normalised message: [{'timestamp': ..., 'role': ..., 'content': ...}]. *)
Record Message : Type := {
  m_timestamp : PyVal;
  m_role : string;
  m_content : string
}.

Definition valid_types : list PyVal :=
  [VStr "human"; VStr "ai"; VStr "user"; VStr "assistant"].

Definition user_types : list PyVal := [VStr "human"; VStr "user"].

(** [ThreadAnalytics._process_message(msg, timestamp)]. *)
Definition _process_message (msg : PyVal) (timestamp : PyVal) : option Message :=
  match msg with
  | VDict d =>
      let msg_type := dget d "type" (dget d "role" (VStr "unknown")) in
      let content := dget d "content" (dget d "text" (dget d "message" (VStr ""))) in
      (* Handle various content formats *)
      let content :=
        match content with
        | VList items => VStr (join " " (map py_str (filter truthy items)))
        | VDict _ => VStr (py_str content)
        | _ => content
        end in
      (* Validate message *)
      if negb (truthy content)
         || String.eqb (strip (py_str content)) EmptyString
         || negb (list_mem msg_type valid_types)
      then None
      else
        let role := if list_mem msg_type user_types then "User"%string else "AI"%string in
        Some {| m_timestamp := timestamp;
                m_role := role;
                m_content := strip (py_str content) |}
  | _ => None
  end.

Definition message_keywords : list string :=
  ["message"; "chat"; "conversation"; "dialog"]%string.

(** [ThreadAnalytics._extract_messages_from_value(value)] on a dict. *)
Definition _extract_messages_from_value (value : list (string * PyVal)) : list PyVal :=
  (* Direct messages *)
  let direct_messages := dget value "messages" (VList []) in
  let messages :=
    match direct_messages with
    | VList l => l
    | _ => if truthy direct_messages then [direct_messages] else []
    end in
  (* Search in other potential message keys *)
  match messages with
  | [] =>
      flat_map (fun kv =>
        if existsb (fun kw => str_contains kw (lower (fst kv))) message_keywords then
          match snd kv with
          | VList l => l
          | VDict _ => [snd kv]
          | _ => []
          end
        else []) value
  | _ => messages
  end.

(** [conversation.sort(key=lambda x: x.get('timestamp', ''))]: CPython's
    sort is stable; a stable insertion sort performs the same permutation,
    and raises [TypeError] as soon as two keys are not comparable. *)
Fixpoint insert_by_timestamp (m : Message) (l : list Message) : result (list Message) :=
  match l with
  | [] => Ok [m]
  | x :: xs =>
      lt <- py_lt (m_timestamp m) (m_timestamp x) ;;
      if lt then Ok (m :: x :: xs)
      else (r <- insert_by_timestamp m xs ;; Ok (x :: r))
  end.

Definition sort_by_timestamp (l : list Message) : result (list Message) :=
  fold_m (fun acc m => insert_by_timestamp m acc) l [].

Definition collect_messages (created_at : PyVal) (msgs : list PyVal) : list Message :=
  flat_map (fun msg =>
    match _process_message msg created_at with
    | Some m => [m]
    | None => []
    end) msgs.

(** Body of the loop of [extract_conversation_from_history] for one dict
    history item: the messages it contributes, before sorting. *)
Definition item_messages (item : list (string * PyVal)) : list Message :=
  let values := dget item "values" (VDict []) in
  let created_at := dget item "created_at" (VStr "") in
  (* Normalize values to list for processing *)
  let values_list :=
    match values with
    | VDict _ => [values]
    | VList l => l
    | _ => []
    end in
  flat_map (fun value =>
    match value with
    | VDict v => collect_messages created_at (_extract_messages_from_value v)
    | _ => []
    end) values_list.

(** Outcome of the [for item in history_data] loop: it either leaves the
    loop (by [break] or exhaustion) with the accumulated conversation, or
    leaves the function by [return []]. *)
Inductive loop_exit : Type :=
| LoopDone (conversation : list Message)
| LoopReturn (r : list Message).

(** The loop: a non-dict item returns [[]]; the body ends in an
    unconditional [break], so at most the first item is processed. *)
Definition conversation_loop (history_data : list PyVal) : loop_exit :=
  match history_data with
  | [] => LoopDone []
  | item :: _ =>
      match item with
      | VDict d => LoopDone (item_messages d)  (* ...; break *)
      | _ => LoopReturn []
      end
  end.

(** [ThreadAnalytics.extract_conversation_from_history(history_data)]. *)
Definition extract_conversation_from_history (history_data : list PyVal)
  : result (list Message) :=
  match history_data with
  | [] => Ok []
  | _ =>
      match conversation_loop history_data with
      | LoopReturn r => Ok r
      | LoopDone conversation => sort_by_timestamp conversation
      end
  end.

(** ** Tool-Call Analyzer *)

(** One entry of [tool_calls_detail]. *)
Record ToolDetail : Type := {
  td_function_name : PyVal;
  td_call_id : PyVal;
  td_arguments : PyVal;
  td_timestamp : PyVal;
  td_message_type : PyVal;
  td_message_id : PyVal
}.

(** [tool_stats] together with the local [processed_call_ids] set. *)
Record ToolState : Type := {
  create_lead : nat;
  send_html_email : nat;
  total_tool_calls : nat;
  tool_calls_detail : list ToolDetail;
  processed_call_ids : list PyVal
}.

Definition initial_tool_state : ToolState :=
  {| create_lead := 0; send_html_email := 0; total_tool_calls := 0;
     tool_calls_detail := []; processed_call_ids := [] |}.

(** The guarded block shared by both tool-call shapes:
    [if function_name and call_id and call_id not in processed_call_ids:
       processed_call_ids.add(call_id); ...]. *)
Definition record_call (function_name call_id : PyVal) (arguments : unit -> PyVal)
    (item message : list (string * PyVal)) (st : ToolState) : result ToolState :=
  if truthy function_name && truthy call_id then
    seen <- set_mem call_id (processed_call_ids st) ;;
    if seen then Ok st
    else
      let is_lead := py_eq function_name (VStr "create_lead") in
      let is_mail := negb is_lead && py_eq function_name (VStr "send_html_email") in
      let tool_detail :=
        {| td_function_name := function_name;
           td_call_id := call_id;
           td_arguments := arguments tt;
           td_timestamp := dget item "created_at" (VStr "");
           td_message_type := dget message "type" (VStr "");
           td_message_id := dget message "id" (VStr "") |} in
      Ok {| create_lead := create_lead st + (if is_lead then 1 else 0);
            send_html_email := send_html_email st + (if is_mail then 1 else 0);
            total_tool_calls := total_tool_calls st + 1;
            tool_calls_detail := tool_calls_detail st ++ [tool_detail];
            processed_call_ids := processed_call_ids st ++ [call_id] |}
  else Ok st.

(** An entry of [additional_kwargs['tool_calls']]. *)
Definition kwargs_tool_call (item message : list (string * PyVal))
    (st : ToolState) (tool_call : PyVal) : result ToolState :=
  match tool_call with
  | VDict tc =>
      let function_info := dget tc "function" (VDict []) in
      function_name <- py_get function_info "name" (VStr "") ;;
      let call_id := dget tc "id" (VStr "") in
      record_call function_name call_id
        (fun _ => match function_info with
                  | VDict fi => dget fi "arguments" (VStr "")
                  | _ => VStr ""
                  end) item message st
  | _ => Ok st
  end.

(** An entry of the fallback [message['tool_calls']] list. *)
Definition direct_tool_call (item message : list (string * PyVal))
    (st : ToolState) (tool_call : PyVal) : result ToolState :=
  match tool_call with
  | VDict tc =>
      let function_name := dget tc "name" (VStr "") in
      let call_id := dget tc "id" (VStr "") in
      record_call function_name call_id
        (fun _ => VStr (py_str (dget tc "args" (VDict [])))) item message st
  | _ => Ok st
  end.

(** Body of [for message in messages]. *)
Definition analyze_message (item : list (string * PyVal))
    (st : ToolState) (message : PyVal) : result ToolState :=
  match message with
  | VDict md =>
      let additional_kwargs := dget md "additional_kwargs" (VDict []) in
      tool_calls <- py_get additional_kwargs "tool_calls" (VList []) ;;
      match tool_calls with
      | VList ((_ :: _) as l) => fold_m (kwargs_tool_call item md) l st
      | _ =>
          match dget md "tool_calls" (VList []) with
          | VList l => fold_m (direct_tool_call item md) l st
          | _ => Ok st
          end
      end
  | _ => Ok st
  end.

(** Body of [for item in history_data]: [item.get] and [values.get] are
    called without any type check. *)
Definition analyze_item (st : ToolState) (item : PyVal) : result ToolState :=
  values <- py_get item "values" (VDict []) ;;
  messages <- py_get values "messages" (VList []) ;;
  match item, messages with
  | VDict it, VList l => fold_m (analyze_message it) l st
  | _, _ => Ok st
  end.

(** The statistics returned to the caller. *)
Record ToolCallStats : Type := {
  stats_create_lead : nat;
  stats_send_html_email : nat;
  stats_total_tool_calls : nat;
  stats_tool_calls_detail : list ToolDetail
}.

Definition to_stats (st : ToolState) : ToolCallStats :=
  {| stats_create_lead := create_lead st;
     stats_send_html_email := send_html_email st;
     stats_total_tool_calls := total_tool_calls st;
     stats_tool_calls_detail := tool_calls_detail st |}.

(** [ThreadAnalytics.analyze_tool_calling_stats(history_data)]. *)
Definition analyze_tool_calling_stats (history_data : list PyVal) : result ToolCallStats :=
  match history_data with
  | [] => Ok (to_stats initial_tool_state)
  | _ => st <- fold_m analyze_item history_data initial_tool_state ;; Ok (to_stats st)
  end.

(** ** Thread Fetcher *)

Section Fetcher.

(** [self.fetch_threads(limit, offset)]: one POST to the search endpoint; a
    failed request or a non-list body yields [[]]. *)
Variable fetch_threads : Z -> Z -> list PyVal.

(** [datetime.fromisoformat(s.replace('Z', '+00:00')).date()], as a day
    number; [None] when it raises [ValueError]. *)
Variable iso_date : string -> option Z.

(** [datetime.strptime(s, '%Y-%m-%d').date()], as a day number; [None] when
    it raises [ValueError]. *)
Variable strptime_date : string -> option Z.

(** An optional [str] argument ([None] or a string) used as a condition. *)
Definition opt_truthy (o : option string) : bool :=
  match o with
  | Some s => negb (String.eqb s EmptyString)
  | None => false
  end.

(** The [try] block of [_filter_threads_by_date] for one thread with a
    truthy [updated_at]: [true] when the thread is appended. *)
Definition in_date_window (date_from date_to : option string) (updated_at : PyVal) : bool :=
  match updated_at with
  | VStr s =>
      match iso_date s with
      | None => false
      | Some thread_date =>
          let from_ok :=
            match date_from with
            | Some f =>
                if opt_truthy date_from then
                  match strptime_date f with
                  | Some from_date => negb (Z.ltb thread_date from_date)
                  | None => false
                  end
                else true
            | None => true
            end in
          let to_ok :=
            match date_to with
            | Some t =>
                if opt_truthy date_to then
                  match strptime_date t with
                  | Some to_date => negb (Z.ltb to_date thread_date)
                  | None => false
                  end
                else true
            | None => true
            end in
          from_ok && to_ok
      end
  | _ => false  (* no [.replace]: AttributeError, caught *)
  end.

(** [ThreadAnalytics._filter_threads_by_date(threads, date_from, date_to)]. *)
Definition _filter_threads_by_date (threads : list PyVal) (date_from date_to : option string)
  : result (list PyVal) :=
  if negb (opt_truthy date_from) && negb (opt_truthy date_to) then Ok threads
  else
    fold_m (fun filtered_threads thread =>
      updated_at <- py_get thread "updated_at" (VStr "") ;;
      if negb (truthy updated_at) then Ok filtered_threads
      else if in_date_window date_from date_to updated_at
      then Ok (filtered_threads ++ [thread])
      else Ok filtered_threads) threads [].

Definition page_limit : Z := 1000.

(** The [while True] loop of [fetch_all_threads], run for at most [fuel]
    iterations; [None] when the fuel runs out. *)
Fixpoint fetch_loop (date_from date_to : option string) (fuel : nat) (offset : Z)
    (all_threads : list PyVal) : option (result (list PyVal)) :=
  match fuel with
  | O => None
  | S fuel' =>
      match fetch_threads page_limit offset with
      | [] => Some (Ok all_threads)  (* break *)
      | threads =>
          (* Filter by date if specified *)
          let filtered :=
            if opt_truthy date_from || opt_truthy date_to
            then _filter_threads_by_date threads date_from date_to
            else Ok threads in
          match filtered with
          | Err e => Some (Err e)
          | Ok threads' =>
              fetch_loop date_from date_to fuel' (offset + page_limit)
                (all_threads ++ threads')
          end
      end
  end.

(** [ThreadAnalytics.fetch_all_threads(date_from, date_to)]. *)
Definition fetch_all_threads (date_from date_to : option string) (fuel : nat)
  : option (result (list PyVal)) :=
  fetch_loop date_from date_to fuel 0 [].

(** The raw page at index [i] of the pagination. *)
Definition raw_page (i : nat) : list PyVal :=
  fetch_threads page_limit (Z.of_nat i * page_limit).

(** The page at index [i] after the date filter of [fetch_all_threads]. *)
Definition filtered_page (date_from date_to : option string) (i : nat) : result (list PyVal) :=
  if opt_truthy date_from || opt_truthy date_to
  then _filter_threads_by_date (raw_page i) date_from date_to
  else Ok (raw_page i).

(** Concatenation, in fetch order, of the filtered pages [0 .. k-1]. *)
Fixpoint filtered_pages (date_from date_to : option string) (k : nat) : result (list PyVal) :=
  match k with
  | O => Ok []
  | S k' =>
      prev <- filtered_pages date_from date_to k' ;;
      page <- filtered_page date_from date_to k' ;;
      Ok (prev ++ page)
  end.

End Fetcher.

(** ** Engine construction *)

(** What [getattr(st.secrets, "THREAD_API_URL", None)] meets: a value, a
    secrets file without that key ([AttributeError], so [getattr] returns
    its default [None]), or no usable secrets at all (another exception). *)
Inductive SecretsLookup : Type :=
| SecretValue (v : PyVal)
| SecretKeyMissing
| SecretsUnavailable.

Record Engine : Type := {
  base_url : PyVal;
  output_base_dir : string;
  max_workers : Z
}.

(** [ThreadAnalytics.__init__(base_url, output_base_dir, max_workers)];
    [makedirs_ok] is whether [_ensure_directory_structure] succeeds. *)
Definition ThreadAnalytics_init (secrets : SecretsLookup) (base_url_arg : option string)
    (output_base_dir_arg : string) (max_workers_arg : Z) (makedirs_ok : bool)
  : result Engine :=
  secrets_url <-
    match secrets with
    | SecretValue v => Ok v
    | SecretKeyMissing => Ok VNone
    | SecretsUnavailable =>
        (* except Exception: secrets_url = None; raise Exception(...) *)
        Err GenericException
    end ;;
  if makedirs_ok then
    Ok {| base_url := secrets_url;
          output_base_dir := output_base_dir_arg;
          max_workers := max_workers_arg |}
  else Err OSError.

(** ** Aggregation Engine *)

(** Dicts keyed by Python values, in insertion order. *)
Fixpoint assoc_lookup {A} (k : PyVal) (d : list (PyVal * A)) : option A :=
  match d with
  | [] => None
  | (k', v) :: r => if py_eq k k' then Some v else assoc_lookup k r
  end.

(** [d[k] = v] (the key is assumed hashable, checked by the caller). *)
Fixpoint assoc_set {A} (k : PyVal) (v : A) (d : list (PyVal * A)) : list (PyVal * A) :=
  match d with
  | [] => [(k, v)]
  | (k', v') :: r => if py_eq k k' then (k', v) :: r else (k', v') :: assoc_set k v r
  end.

(** [d[k].append(x)] on a [defaultdict(list)]. *)
Definition append_at (k x : PyVal) (d : list (PyVal * list PyVal)) : list (PyVal * list PyVal) :=
  match assoc_lookup k d with
  | Some l => assoc_set k (l ++ [x]) d
  | None => d ++ [(k, [x])]
  end.

(** [s.add(x)] on a [set]. *)
Definition set_add (x : PyVal) (s : list PyVal) : list PyVal :=
  if list_mem x s then s else s ++ [x].

(** Per-thread conversation statistics (the counters of the dict built by
    [_get_thread_conversation_data]; the text previews are left out). *)
Record ConvData : Type := {
  cd_total_messages : nat;
  cd_user_messages : nat;
  cd_ai_messages : nat
}.

Record UserStat : Type := {
  thread_count : nat;
  thread_ids : list PyVal;
  user_info : PyVal;
  us_total_messages : nat;
  us_total_user_messages : nat
}.

Record UsersState : Type := {
  user_threads : list (PyVal * list PyVal);
  user_details : list (PyVal * PyVal);
  thread_conversations : list (PyVal * ConvData);
  total_users_set : list PyVal
}.

Record UserStats : Type := {
  total_users : nat;
  threads_per_user : list (PyVal * UserStat)
}.

Record ToolTotals : Type := {
  tt_create_lead : nat;
  tt_send_html_email : nat;
  tt_total_tool_calls : nat;
  threads_with_create_lead : nat;
  threads_with_send_html_email : nat;
  threads_with_any_tool : nat;
  tool_calls_by_thread : list (PyVal * ToolCallStats);
  detailed_calls : list (PyVal * ToolDetail)
}.

(** The parts of the report built from the threads; [summary] fields that
    are pure arithmetic on these (averages, peak day) are left out. *)
Record Report : Type := {
  summary_total_threads : nat;
  summary_total_users : nat;
  summary_total_messages : nat;
  summary_user_messages : nat;
  report_threads_by_date : list (string * nat);
  report_user_stats : UserStats;
  report_tool_calling_stats : option ToolTotals
}.

Section Engine.

(** [self.get_thread_history(thread_id)]: one GET on the history endpoint;
    a failed request or a non-list body yields [[]]. *)
Variable get_thread_history : PyVal -> list PyVal.

(** [datetime.fromisoformat(s.replace('Z', '+00:00')).strftime('%Y-%m-%d')];
    [None] when it raises [ValueError]. *)
Variable iso_day : string -> option string.

Fixpoint insert_date (kv : string * nat) (l : list (string * nat)) : list (string * nat) :=
  match l with
  | [] => [kv]
  | x :: r => if String.ltb (fst kv) (fst x) then kv :: x :: r else x :: insert_date kv r
  end.

(** [ThreadAnalytics.analyze_threads_by_date(threads)]. *)
Definition analyze_threads_by_date (threads : list PyVal) : result (list (string * nat)) :=
  by_date <-
    fold_m (fun acc thread =>
      updated_at <- py_get thread "updated_at" VNone ;;
      if truthy updated_at then
        match updated_at with
        | VStr s =>
            match iso_day s with
            | Some date_str =>
                let n := match assoc_lookup (VStr date_str) acc with
                         | Some n => n | None => 0 end in
                Ok (assoc_set (VStr date_str) (S n) acc)
            | None => Ok acc
            end
        | _ => Ok acc
        end
      else Ok acc) threads [] ;;
  Ok (fold_right insert_date []
        (map (fun kv => (py_str (fst kv), snd kv)) by_date)).

(** The loop of [get_user_metadata] over the history items. *)
Fixpoint find_user_metadata (items : list PyVal) : result PyVal :=
  match items with
  | [] => Ok (VDict [])
  | item :: rest =>
      metadata <- py_get item "metadata" (VDict []) ;;
      username <- py_get metadata "username" VNone ;;
      email <- py_get metadata "email" VNone ;;
      if truthy username || truthy email then
        match metadata with
        | VDict m =>
            Ok (VDict [("username", dget m "username" (VStr ""));
                       ("email", dget m "email" (VStr ""));
                       ("name", dget m "name" (VStr ""));
                       ("phoneNumber", dget m "phoneNumber" (VStr ""));
                       ("user_id", dget m "user_id" (VStr ""))]%string)
        | _ => Ok (VDict [])
        end
      else find_user_metadata rest
  end.

(** [ThreadAnalytics.get_user_metadata(thread_id)]. *)
Definition get_user_metadata (thread_id : PyVal) : result PyVal :=
  find_user_metadata (get_thread_history thread_id).

Definition count_role (r : string) (conv : list Message) : nat :=
  length (filter (fun m => String.eqb (m_role m) r) conv).

(** [ThreadAnalytics._get_thread_conversation_data(thread, thread_id)]. *)
Definition _get_thread_conversation_data (thread_id : PyVal) : result ConvData :=
  conversation <- extract_conversation_from_history (get_thread_history thread_id) ;;
  Ok {| cd_total_messages := length conversation;
        cd_user_messages := count_role "User" conversation;
        cd_ai_messages := count_role "AI" conversation |}.

(** Body of the loop of [analyze_users_comprehensive]. *)
Definition analyze_user_thread (s : UsersState) (thread : PyVal) : result UsersState :=
  metadata <- py_get thread "metadata" (VDict []) ;;
  user_id <- py_get metadata "user_id" VNone ;;
  thread_id <- py_get thread "thread_id" VNone ;;
  if negb (truthy user_id) || negb (truthy thread_id) then Ok s  (* continue *)
  else if negb (hashable user_id) then Err TypeError
  else
    let user_threads' := append_at user_id thread_id (user_threads s) in
    let total_users' := set_add user_id (total_users_set s) in
    user_details' <-
      match assoc_lookup user_id (user_details s) with
      | Some _ => Ok (user_details s)
      | None =>
          user_metadata <- get_user_metadata thread_id ;;
          Ok (user_details s ++
              [(user_id,
                if truthy user_metadata then user_metadata
                else VDict [("username", VStr ""); ("email", VStr "");
                            ("name", VStr ""); ("phoneNumber", VStr "");
                            ("userId", user_id)]%string)])
      end ;;
    conversation_data <- _get_thread_conversation_data thread_id ;;
    if negb (hashable thread_id) then Err TypeError
    else
      Ok {| user_threads := user_threads';
            user_details := user_details';
            thread_conversations :=
              assoc_set thread_id conversation_data (thread_conversations s);
            total_users_set := total_users' |}.

Definition conv_total (tc : list (PyVal * ConvData)) (tid : PyVal) : nat :=
  match assoc_lookup tid tc with Some c => cd_total_messages c | None => 0 end.

Definition conv_user (tc : list (PyVal * ConvData)) (tid : PyVal) : nat :=
  match assoc_lookup tid tc with Some c => cd_user_messages c | None => 0 end.

Definition sum_nat (l : list nat) : nat := fold_right Nat.add 0 l.

(** [ThreadAnalytics._build_user_statistics(...)]. *)
Definition _build_user_statistics (s : UsersState) : UserStats :=
  {| total_users := length (total_users_set s);
     threads_per_user :=
       map (fun ut =>
         let tids := snd ut in
         (fst ut,
          {| thread_count := length tids;
             thread_ids := tids;
             user_info := match assoc_lookup (fst ut) (user_details s) with
                          | Some v => v | None => VDict [] end;
             us_total_messages := sum_nat (map (conv_total (thread_conversations s)) tids);
             us_total_user_messages := sum_nat (map (conv_user (thread_conversations s)) tids)
          |})) (user_threads s) |}.

Definition empty_users_state : UsersState :=
  {| user_threads := []; user_details := []; thread_conversations := [];
     total_users_set := [] |}.

(** [ThreadAnalytics.analyze_users_comprehensive(threads)]. *)
Definition analyze_users_comprehensive (threads : list PyVal) : result UserStats :=
  s <- fold_m analyze_user_thread threads empty_users_state ;;
  Ok (_build_user_statistics s).

(** Body of the loop of [analyze_tool_calling_for_all_threads]; the
    [tool_calls_by_date] buckets, which never raise, are left out. *)
Definition analyze_thread_tools (t : ToolTotals) (thread : PyVal) : result ToolTotals :=
  thread_id <- py_get thread "thread_id" (VStr "") ;;
  if negb (truthy thread_id) then Ok t
  else
    thread_tool_stats <- analyze_tool_calling_stats (get_thread_history thread_id) ;;
    if negb (hashable thread_id) then Err TypeError
    else
      let cl := stats_create_lead thread_tool_stats in
      let se := stats_send_html_email thread_tool_stats in
      let tot := stats_total_tool_calls thread_tool_stats in
      Ok {| tt_create_lead := tt_create_lead t + cl;
            tt_send_html_email := tt_send_html_email t + se;
            tt_total_tool_calls := tt_total_tool_calls t + tot;
            threads_with_create_lead :=
              threads_with_create_lead t + (if 0 <? cl then 1 else 0);
            threads_with_send_html_email :=
              threads_with_send_html_email t + (if 0 <? se then 1 else 0);
            threads_with_any_tool := threads_with_any_tool t + (if 0 <? tot then 1 else 0);
            tool_calls_by_thread :=
              assoc_set thread_id thread_tool_stats (tool_calls_by_thread t);
            detailed_calls :=
              detailed_calls t ++
              map (fun d => (thread_id, d)) (stats_tool_calls_detail thread_tool_stats) |}.

Definition empty_tool_totals : ToolTotals :=
  {| tt_create_lead := 0; tt_send_html_email := 0; tt_total_tool_calls := 0;
     threads_with_create_lead := 0; threads_with_send_html_email := 0;
     threads_with_any_tool := 0; tool_calls_by_thread := []; detailed_calls := [] |}.

(** [ThreadAnalytics.analyze_tool_calling_for_all_threads(threads)]. *)
Definition analyze_tool_calling_for_all_threads (threads : list PyVal) : result ToolTotals :=
  fold_m analyze_thread_tools threads empty_tool_totals.

(** [ThreadAnalytics.generate_report(threads, include_tool_analysis)]. *)
Definition generate_report (threads : list PyVal) (include_tool_analysis : bool)
  : result Report :=
  let total_threads := length threads in
  threads_by_date <- analyze_threads_by_date threads ;;
  user_stats <- analyze_users_comprehensive threads ;;
  let total_messages := sum_nat (map (fun u => us_total_messages (snd u))
                                     (threads_per_user user_stats)) in
  let total_user_messages := sum_nat (map (fun u => us_total_user_messages (snd u))
                                          (threads_per_user user_stats)) in
  tool_calling_stats <-
    (if include_tool_analysis then
       t <- analyze_tool_calling_for_all_threads threads ;; Ok (Some t)
     else Ok None) ;;
  Ok {| summary_total_threads := total_threads;
        summary_total_users := total_users user_stats;
        summary_total_messages := total_messages;
        summary_user_messages := total_user_messages;
        report_threads_by_date := threads_by_date;
        report_user_stats := user_stats;
        report_tool_calling_stats := tool_calling_stats |}.

(** Sum over all users of [UserStats.thread_count]. *)
Definition sum_thread_counts (r : Report) : nat :=
  sum_nat (map (fun u => thread_count (snd u)) (threads_per_user (report_user_stats r))).

End Engine.

(** ** Further functions of the engine and of the dashboard *)

(** [l[:n]] for an integer [n]; a negative [n] drops [-n] elements at the end. *)
Definition py_slice_to {A} (n : Z) (l : list A) : list A :=
  if (0 <=? n)%Z then firstn (Z.to_nat n) l
  else firstn (length l - Z.to_nat (- n)) l.

(** [l[n:]] for an integer [n]; a negative [n] keeps the last [-n] elements. *)
Definition py_slice_from {A} (n : Z) (l : list A) : list A :=
  if (0 <=? n)%Z then skipn (Z.to_nat n) l
  else skipn (length l - Z.to_nat (- n)) l.

(** Insertion into a list already in the order of
    [sorted(..., key=key, reverse=True)]: the new element goes after every
    element whose key is not smaller, so that, as in Python, elements with
    equal keys keep their original order. *)
Fixpoint insert_desc {A} (key : A -> Z) (x : A) (l : list A) : list A :=
  match l with
  | [] => [x]
  | y :: r => if (key y <? key x)%Z then x :: y :: r else y :: insert_desc key x r
  end.

(** [sorted(l, key=key, reverse=True)] (also [l.sort(key=key, reverse=True)]). *)
Definition sort_desc {A} (key : A -> Z) (l : list A) : list A :=
  fold_left (fun acc x => insert_desc key x acc) l [].

(** One entry of the list returned by [get_top_users]. *)
Record TopUser : Type := {
  tu_user_id : PyVal;
  tu_thread_count : nat;
  tu_thread_ids : list PyVal;
  tu_user_info : PyVal
}.

Definition top_user_entry (u : PyVal * UserStat) : TopUser :=
  {| tu_user_id := fst u;
     tu_thread_count := thread_count (snd u);
     tu_thread_ids := thread_ids (snd u);
     tu_user_info := user_info (snd u) |}.

(** [ThreadAnalytics.get_top_users(threads_per_user, top_n)]; the entries of
    [threads_per_user] are the items of the dict, in insertion order. *)
Definition get_top_users (users : list (PyVal * UserStat)) (top_n : Z) : list TopUser :=
  map top_user_entry
    (py_slice_to top_n (sort_desc (fun u => Z.of_nat (thread_count (snd u))) users)).

(** [max(items, key=lambda x: x[1])]: the first item with the largest count. *)
Definition max_by_count (first : string * nat) (rest : list (string * nat)) : string * nat :=
  fold_left (fun best x => if snd best <? snd x then x else best) rest first.

(** [(peak_day, peak_threads)] as computed by [generate_report] from
    [threads_by_date]. *)
Definition peak_of (threads_by_date : list (string * nat)) : string * nat :=
  match threads_by_date with
  | [] => (""%string, 0)
  | x :: r => max_by_count x r
  end.

(** The lines written by [ThreadAnalytics._write_wrapped_content(f, content)],
    each followed by ["\n"] in the file. *)
Definition indent : string := "    "%string.

(** [s.split(sep)] for a one-character separator. *)
Fixpoint split_on (sep : ascii) (s : string) : list string :=
  match s with
  | EmptyString => [EmptyString]
  | String c r =>
      if Ascii.eqb c sep then EmptyString :: split_on sep r
      else match split_on sep r with
           | w :: ws => String c w :: ws
           | [] => [String c EmptyString]
           end
  end.

(** Body of [for word in words], on the lines written so far and
    [current_line]. *)
Definition wrap_step (st : list string * string) (word : string) : list string * string :=
  let '(out, current_line) := st in
  if String.length (current_line ++ word) <=? 70
  then (out, (current_line ++ word ++ " ")%string)
  else (out ++ [rstrip current_line], (indent ++ word ++ " ")%string).

(** The [for word in words] loop for one long line: the lines written
    inside the loop, and [current_line] at its end. *)
Definition wrap_loop (words : list string) : list string * string :=
  fold_left wrap_step words ([], indent).

(** The [else] branch, for a line longer than 70 characters. *)
Definition wrap_line (line : string) : list string :=
  let '(out, current_line) := wrap_loop (split_on " " line) in
  if String.eqb (strip current_line) EmptyString then out
  else out ++ [rstrip current_line].

Definition _write_wrapped_content (content : string) : list string :=
  flat_map (fun line =>
    if String.length line <=? 70 then [(indent ++ line)%string]
    else wrap_line line) (split_on (ascii_of_nat 10) content).

(** Records of conversations, as built by [_process_single_thread] and by
    the dashboard's [get_conversations_for_threads]. *)
Record ConvRecord : Type := {
  cr_thread_id : PyVal;
  cr_created_at : PyVal;
  cr_updated_at : PyVal;
  cr_message_count : nat;
  cr_conversation : list Message;
  cr_metadata : PyVal
}.

Section Conversations.

(** [self.get_thread_history(thread_id)]. *)
Variable get_thread_history : PyVal -> list PyVal.

(** [ThreadAnalytics._process_single_thread(thread)]. *)
Definition _process_single_thread (thread : PyVal) : result (option ConvRecord) :=
  match thread with
  | VDict d =>
      let thread_id := dget d "thread_id" VNone in
      if negb (truthy thread_id) then Ok None
      else
        let history_data := get_thread_history thread_id in
        match history_data with
        | [] => Ok None
        | _ =>
            conversation <- extract_conversation_from_history history_data ;;
            match conversation with
            | [] => Ok None
            | _ =>
                Ok (Some {| cr_thread_id := thread_id;
                            cr_created_at := dget d "created_at" (VStr "");
                            cr_updated_at := dget d "updated_at" (VStr "");
                            cr_message_count := length conversation;
                            cr_conversation := conversation;
                            cr_metadata := dget d "metadata" (VDict []) |})
            end
        end
  | _ => Err AttributeError  (* [thread.get] *)
  end.

(** The [for future in as_completed(...)] loop of [process_threads_parallel],
    with the futures taken in their completion order [completed]: a result
    is appended when it is a record; [None] and a raised exception (printed,
    then [continue]) add nothing. *)
Definition collect_completed (completed : list PyVal) : list ConvRecord :=
  flat_map (fun thread =>
    match _process_single_thread thread with
    | Ok (Some r) => [r]
    | Ok None => []
    | Err _ => []
    end) completed.

(** [ThreadAnalytics.process_threads_parallel(threads)] may return
    [results]: one future is submitted per thread and the futures complete
    in any order. *)
Definition process_threads_parallel (threads : list PyVal) (results : list ConvRecord) : Prop :=
  exists completed, Permutation threads completed /\ results = collect_completed completed.

End Conversations.

(** The class [ThreadAnalytics] of src/thread_analytics.py, the one the
    dashboard imports ([from thread_analytics import ThreadAnalytics]). Its
    [extract_conversation_from_history] visits every history item and does
    not sort; the search for messages in a value and the validation of each
    message are written there inline with the same code as
    [_extract_messages_from_value] and [_process_message] above, which are
    reused here. *)
Module RootAnalytics.

(** Body of [for value in values_to_process]. *)
Definition value_messages (created_at : PyVal) (value : PyVal) : list Message :=
  match value with
  | VDict v => collect_messages created_at (_extract_messages_from_value v)
  | _ => []  (* continue *)
  end.

(** Body of [for item in history_data]. *)
Definition item_conversation (item : PyVal) : list Message :=
  match item with
  | VDict d =>
      let values := dget d "values" (VDict []) in
      let created_at := dget d "created_at" (VStr "") in
      if negb (truthy values) then []  (* continue *)
      else
        (* values may be a dict or a list *)
        let values_to_process :=
          match values with
          | VDict _ => [values]
          | VList l => l
          | _ => []  (* continue *)
          end in
        flat_map (value_messages created_at) values_to_process
  | _ => []  (* continue *)
  end.

(** [ThreadAnalytics.extract_conversation_from_history(history_data)]. *)
Definition extract_conversation_from_history (history_data : list PyVal) : list Message :=
  match history_data with
  | [] => []
  | _ => flat_map item_conversation history_data
  end.

End RootAnalytics.

Module StreamlitApp.

Section Dashboard.

(** [self.get_thread_history(thread_id)]. *)
Variable get_thread_history : PyVal -> list PyVal.

(** Whether [ThreadAnalytics()] returns: its constructor creates the
    directory [reports] when it is missing, and [os.makedirs] may raise. *)
Variable analytics_init_ok : bool.

(** The exception raised by slicing a dict, [d[:n]]: [TypeError] (an
    unhashable slice) before Python 3.12, [KeyError] since. *)
Variable dict_slice_error : exn.

(** [v[:n]]. *)
Definition py_slice_prefix (n : nat) (v : PyVal) : result PyVal :=
  match v with
  | VStr s => Ok (VStr (substring 0 n s))
  | VList l => Ok (VList (firstn n l))
  | VDict _ => Err dict_slice_error
  | _ => Err TypeError  (* None, bool and int are not subscriptable *)
  end.

(** The key [msg_key] of the deduplication loop of
    [display_conversations_browser]. *)
Definition message_key (msg : Message) : result string :=
  let role := lower (m_role msg) in
  let content := strip (m_content msg) in
  let timestamp := m_timestamp msg in
  let content_start :=
    if 50 <? String.length content then substring 0 50 content else content in
  let content_end :=
    if 100 <? String.length content
    then substring (String.length content - 50) 50 content else EmptyString in
  timestamp_key <- (if truthy timestamp then py_slice_prefix 19 timestamp else Ok (VStr "")) ;;
  Ok (role ++ "|" ++ content_start ++ "|" ++ content_end ++ "|" ++ py_str timestamp_key)%string.

(** Body of [for msg in conversation], with [(seen_messages, unique_messages)]. *)
Definition dedup_step (acc : list string * list Message) (msg : Message)
  : result (list string * list Message) :=
  let '(seen_messages, unique_messages) := acc in
  if String.eqb (strip (m_content msg)) EmptyString then Ok acc  (* continue *)
  else
    msg_key <- message_key msg ;;
    if existsb (String.eqb msg_key) seen_messages then Ok acc
    else Ok (seen_messages ++ [msg_key], unique_messages ++ [msg]).

(** The messages [display_conversations_browser] displays for the selected
    conversation. *)
Definition unique_messages (conversation : list Message) : result (list Message) :=
  acc <- fold_m dedup_step conversation ([], []) ;; Ok (snd acc).

(** Body of [for i, thread in enumerate(threads[:max_conversations])] in
    [get_conversations_for_threads] of the dashboard. *)
Definition conversation_step (conversations : list ConvRecord) (thread : PyVal)
  : result (list ConvRecord) :=
  match thread with
  | VDict d =>
      let thread_id := dget d "thread_id" VNone in
      if negb (truthy thread_id) then Ok conversations  (* continue *)
      else
        (* status_text: f"... {thread_id[:16]}..." *)
        _ <- py_slice_prefix 16 thread_id ;;
        let history_data := get_thread_history thread_id in
        if truthy (VList history_data) then
          let conversation := RootAnalytics.extract_conversation_from_history history_data in
          match conversation with
          | [] => Ok conversations
          | _ =>
              Ok (conversations ++
                  [{| cr_thread_id := thread_id;
                      cr_created_at := dget d "created_at" (VStr "");
                      cr_updated_at := dget d "updated_at" (VStr "");
                      cr_message_count := length conversation;
                      cr_conversation := conversation;
                      cr_metadata := dget d "metadata" (VDict []) |}])
          end
        else Ok conversations
  | _ => Err AttributeError  (* [thread.get] *)
  end.

(** [get_conversations_for_threads(threads, max_conversations)] of
    src/streamlit_app.py: any exception is caught by the outer [try], which
    returns [[]]. *)
Definition get_conversations_for_threads (threads : list PyVal) (max_conversations : nat)
  : list ConvRecord :=
  if negb analytics_init_ok then [] else
  match fold_m conversation_step (firstn max_conversations threads) [] with
  | Ok conversations => conversations
  | Err _ => []
  end.

End Dashboard.

End StreamlitApp.

Section Cleanup.

(** [os.path.isdir(path)]. *)
Variable isdir : string -> bool.

(** [datetime.strptime(item, '%Y-%m-%d')], as a day number; [None] when it
    raises [ValueError]. *)
Variable strptime_day : string -> option Z.

(** Whether [shutil.rmtree(path)] returns without raising. *)
Variable rmtree_ok : string -> bool.

Fixpoint ends_with_slash (s : string) : bool :=
  match s with
  | EmptyString => false
  | String c EmptyString => Ascii.eqb c "/"%char
  | String _ r => ends_with_slash r
  end.

(** [os.path.join(base_dir, item)] for a name [item] listed by
    [os.listdir] (it holds no ["/"]). *)
Definition path_join (base_dir item : string) : string :=
  if String.eqb base_dir EmptyString then item
  else if ends_with_slash base_dir then (base_dir ++ item)%string
  else (base_dir ++ "/" ++ item)%string.

(** [s.count(c)]. *)
Fixpoint count_char (c : ascii) (s : string) : nat :=
  match s with
  | EmptyString => 0
  | String a r => (if Ascii.eqb a c then 1 else 0) + count_char c r
  end.

(** The [date_dirs] collected from [os.listdir(base_dir)] = [listing]. *)
Definition date_dirs_of (base_dir : string) (listing : list string) : list (Z * string) :=
  flat_map (fun item =>
    let item_path := path_join base_dir item in
    if isdir item_path && Nat.eqb (String.length item) 10
       && Nat.eqb (count_char "-"%char item) 2 then
      match strptime_day item with
      | Some date_obj => [(date_obj, item_path)]
      | None => []  (* except ValueError: continue *)
      end
    else []) listing.

(** [os.path.basename(path)]: what follows the last ["/"]. *)
Definition basename (path : string) : string :=
  last (split_on "/"%char path) EmptyString.

(** What one run of [cleanup_output_files] does to an existing [base_dir]. *)
Record CleanupOutcome : Type := {
  rmtree_called : list string;   (* the paths passed to [shutil.rmtree] *)
  cleaned_count : nat;
  remaining : list string        (* [remaining_dirs]: the names printed as remaining *)
}.

(** [cleanup_output_files(keep_latest, base_dir)]; [None] when [base_dir]
    does not exist. *)
Definition cleanup_output_files (keep_latest : Z) (base_dir_exists : bool)
    (base_dir : string) (listing : list string) : option CleanupOutcome :=
  if negb base_dir_exists then None
  else
    let date_dirs := sort_desc (fun x : Z * string => fst x) (date_dirs_of base_dir listing) in
    let dirs_to_remove :=
      if (keep_latest <? Z.of_nat (length date_dirs))%Z
      then py_slice_from keep_latest date_dirs else [] in
    Some {| rmtree_called := map snd dirs_to_remove;
            cleaned_count := length (filter rmtree_ok (map snd dirs_to_remove));
            remaining := map (fun d => basename (snd d)) (py_slice_to keep_latest date_dirs) |}.

End Cleanup.

(** * Properties *)

(** ** Lemmas on Python values *)

Section PyVal_induction.
Variable P : PyVal -> Prop.
Hypothesis HNone : P VNone.
Hypothesis HBool : forall b, P (VBool b).
Hypothesis HInt : forall z, P (VInt z).
Hypothesis HStr : forall s, P (VStr s).
Hypothesis HList : forall l, Forall P l -> P (VList l).
Hypothesis HDict : forall d, Forall (fun kv => P (snd kv)) d -> P (VDict d).

Fixpoint PyVal_ind' (v : PyVal) : P v :=
  match v with
  | VNone => HNone
  | VBool b => HBool b
  | VInt z => HInt z
  | VStr s => HStr s
  | VList l =>
      HList l ((fix go (l : list PyVal) : Forall P l :=
                  match l with
                  | [] => Forall_nil _
                  | x :: r => Forall_cons _ (PyVal_ind' x) (go r)
                  end) l)
  | VDict d =>
      HDict d ((fix go (d : list (string * PyVal)) : Forall (fun kv => P (snd kv)) d :=
                  match d with
                  | [] => Forall_nil _
                  | kv :: r => Forall_cons _ (PyVal_ind' (snd kv)) (go r)
                  end) d)
  end.
End PyVal_induction.

Lemma string_compare_refl (s : string) : String.compare s s = Eq.
Proof.
  pose proof (String.compare_antisym s s) as H.
  destruct (String.compare s s); simpl in H; congruence.
Qed.

Lemma py_lt_irrefl (v : PyVal) : py_lt v v <> Ok true.
Proof.
  induction v as [| b | z | s | l H | d H] using PyVal_ind'; simpl; try discriminate.
  - destruct b; simpl; discriminate.
  - rewrite Z.ltb_irrefl; discriminate.
  - unfold String.ltb. rewrite string_compare_refl. discriminate.
  - induction H as [| x r Hx Hr IH]; simpl; [discriminate|].
    destruct (py_eq x x); assumption.
Qed.

Lemma py_eq_VStr (v : PyVal) (s : string) : py_eq v (VStr s) = true -> v = VStr s.
Proof.
  destruct v; simpl; try discriminate.
  intros H. apply String.eqb_eq in H. now subst.
Qed.

Lemma py_eq_refl_hashable (v : PyVal) : hashable v = true -> py_eq v v = true.
Proof.
  destruct v; simpl; try discriminate; intros _.
  - reflexivity.
  - destruct b; apply Z.eqb_refl.
  - apply Z.eqb_refl.
  - apply String.eqb_refl.
Qed.

Lemma py_eq_sym_hashable (x y : PyVal) :
  hashable x = true -> hashable y = true -> py_eq x y = py_eq y x.
Proof.
  destruct x, y; cbn -[Z.eqb String.eqb]; try discriminate; intros _ _;
    try reflexivity; try apply Z.eqb_sym; try apply String.eqb_sym.
Qed.

(** ** Loops *)

Lemma fold_m_app {A B} (f : A -> B -> result A) (l1 l2 : list B) (a : A) :
  fold_m f (l1 ++ l2) a = (a' <- fold_m f l1 a ;; fold_m f l2 a').
Proof.
  revert a; induction l1 as [| x r IH]; intros a; simpl; [reflexivity|].
  destruct (f a x); simpl; [apply IH | reflexivity].
Qed.

Lemma fold_m_invariant {A B} (P : A -> Prop) (f : A -> B -> result A) :
  (forall a b a', P a -> f a b = Ok a' -> P a') ->
  forall l a a', P a -> fold_m f l a = Ok a' -> P a'.
Proof.
  intros Hf l; induction l as [| x r IH]; intros a a' Ha H; simpl in H.
  - inversion H; subst; assumption.
  - destruct (f a x) as [a1|e] eqn:E; simpl in H; [|discriminate].
    apply (IH a1); [apply (Hf a x); assumption | assumption].
Qed.

(** A loop whose steps only grow a set of seen keys, and which changes
    nothing once all keys it would add are already present. *)
Section Absorb.
Context {A B : Type} (ids : A -> list PyVal) (f : A -> B -> result A).
Hypothesis f_grows : forall a b a', f a b = Ok a' -> incl (ids a) (ids a').
Hypothesis f_absorbs : forall a b a' s, f a b = Ok a' -> incl (ids a') (ids s) -> f s b = Ok s.

Lemma fold_m_grows (l : list B) : forall a a', fold_m f l a = Ok a' -> incl (ids a) (ids a').
Proof.
  induction l as [| x r IH]; intros a a' H; simpl in H.
  - inversion H; subst; apply incl_refl.
  - destruct (f a x) as [a1|e] eqn:E; simpl in H; [|discriminate].
    eapply incl_tran; [apply (f_grows a x a1 E) | apply (IH a1 a' H)].
Qed.

Lemma fold_m_absorbs (l : list B) :
  forall a a' s, fold_m f l a = Ok a' -> incl (ids a') (ids s) -> fold_m f l s = Ok s.
Proof.
  induction l as [| x r IH]; intros a a' s H Hs; simpl in *; [reflexivity|].
  destruct (f a x) as [a1|e] eqn:E; simpl in H; [|discriminate].
  assert (Hs1 : incl (ids a1) (ids s))
    by (eapply incl_tran; [apply (fold_m_grows r a1 a' H) | exact Hs]).
  rewrite (f_absorbs a x a1 s E Hs1); simpl.
  apply (IH a1 a' s H Hs).
Qed.
End Absorb.

(** ** Message Extractor and Conversation Builder *)

Definition human_hi : PyVal := VDict [("type", VStr "human"); ("content", VStr "hi")]%string.

Definition hi_message : Message :=
  {| m_timestamp := VStr "2024-01-01T00:00:00"; m_role := "User"; m_content := "hi" |}%string.

(** A history item whose [values.messages] repeats the same event. *)
Definition repeated_item : PyVal :=
  VDict [("values", VDict [("messages", VList [human_hi; human_hi])]);
         ("created_at", VStr "2024-01-01T00:00:00")]%string.

Definition empty_item : PyVal :=
  VDict [("values", VDict [("messages", VList [])]);
         ("created_at", VStr "2024-01-01T00:00:00")]%string.

Definition hi_item : PyVal :=
  VDict [("values", VDict [("messages", VList [human_hi])]);
         ("created_at", VStr "2024-01-01T00:00:00")]%string.

(** Deduplication key of the spec: role, first 50 characters, last 50
    characters when the content is longer than 100, and the timestamp cut
    to whole seconds (its first 19 characters). *)
Definition dedup_key (m : Message) : string * string * string * string :=
  let c := m_content m in
  let n := String.length c in
  (m_role m, substring 0 50 c,
   (if 100 <? n then substring (n - 50) 50 c else EmptyString),
   substring 0 19 (py_str (m_timestamp m))).

(** C1 (counterexample): [extract_conversation_from_history] has no
    key-based deduplication step: an item repeating one event yields two
    messages with the same deduplication key. *)
Lemma extract_keeps_duplicate_messages :
  extract_conversation_from_history [repeated_item] = Ok [hi_message; hi_message] /\
  dedup_key hi_message = dedup_key hi_message.
Proof. split; reflexivity. Qed.

(** C2 (counterexample): the loop of [extract_conversation_from_history]
    ends in an unconditional [break]: when the first history item is a dict,
    every later item is ignored; a message held only by the second item does
    not appear in the conversation. *)
Lemma extract_ignores_items_after_first :
  (forall d rest,
     extract_conversation_from_history (VDict d :: rest) =
     extract_conversation_from_history [VDict d]) /\
  extract_conversation_from_history [empty_item; hi_item] = Ok [] /\
  extract_conversation_from_history [hi_item] = Ok [hi_message].
Proof.
  split; [| split; reflexivity].
  intros d rest. destruct rest; reflexivity.
Qed.

(** C3 (code_bug): [analyze_tool_calling_stats] calls [.get] on history
    items and on [values] without checking their type: a list-valued
    [values] or a non-dict item raises [AttributeError], which also aborts
    [analyze_tool_calling_for_all_threads]; and
    [extract_conversation_from_history] returns [[]] at a non-dict item
    instead of skipping it. *)
Lemma tool_analysis_raises_on_non_mapping :
  analyze_tool_calling_stats [VDict [("values", VList [VDict [("messages", VList [])]])]%string]
    = Err AttributeError /\
  analyze_tool_calling_stats [VStr "item"; hi_item] = Err AttributeError /\
  analyze_tool_calling_for_all_threads
    (fun _ => [VDict [("values", VList [])]%string])
    [VDict [("thread_id", VStr "t1")]%string] = Err AttributeError /\
  extract_conversation_from_history [VInt 1; hi_item] = Ok [].
Proof. repeat split; reflexivity. Qed.

(** The role source of a candidate: [type], or [role] when [type] is
    absent, or ["unknown"]. *)
Definition candidate_type (d : list (string * PyVal)) : PyVal :=
  dget d "type" (dget d "role" (VStr "unknown")).

(** The content of a candidate: [content], or [text], or [message] (each
    only when the previous key is absent); a list is joined with spaces over
    its truthy items, a dict is stringified. *)
Definition candidate_content (d : list (string * PyVal)) : PyVal :=
  let c := dget d "content" (dget d "text" (dget d "message" (VStr ""))) in
  match c with
  | VList items => VStr (join " " (map py_str (filter truthy items)))
  | VDict _ => VStr (py_str c)
  | _ => c
  end.

Lemma list_mem_strs (v : PyVal) (l : list string) :
  list_mem v (map VStr l) = true <-> exists r, v = VStr r /\ In r l.
Proof.
  unfold list_mem. rewrite existsb_exists. split.
  - intros [x [Hx He]]. apply in_map_iff in Hx. destruct Hx as [r [<- Hr]].
    apply py_eq_VStr in He. exists r. auto.
  - intros [r [-> Hr]]. exists (VStr r). split; [apply in_map; exact Hr|].
    simpl. apply String.eqb_refl.
Qed.

Lemma process_message_dict (d : list (string * PyVal)) (ts : PyVal) :
  _process_message (VDict d) ts =
  if negb (truthy (candidate_content d))
     || String.eqb (strip (py_str (candidate_content d))) EmptyString
     || negb (list_mem (candidate_type d) valid_types)
  then None
  else Some {| m_timestamp := ts;
               m_role := if list_mem (candidate_type d) user_types
                         then "User"%string else "AI"%string;
               m_content := strip (py_str (candidate_content d)) |}.
Proof. reflexivity. Qed.

(** C4 (counterexample): the role is not lowercased: a candidate of type
    ["Human"] with content ["hi"] yields no message. *)
Lemma process_message_role_case_sensitive :
  lower "Human" = "human"%string /\ strip "hi" = "hi"%string /\
  _process_message (VDict [("type", VStr "Human"); ("content", VStr "hi")]%string)
    (VStr "2024-01-01T00:00:00") = None.
Proof. repeat split; reflexivity. Qed.

(** C4 (amended): [_process_message] yields a message exactly when the
    candidate is a dict, its content (from [content], else [text], else
    [message], taken only when the earlier key is absent; lists joined with
    spaces, dicts stringified) is truthy and non-empty after [strip], and
    its type (from [type], else [role]) is exactly, case-sensitively, one of
    human, user, ai, assistant; human and user give [User], ai and
    assistant give [AI]. Every other candidate yields [None] and nothing is
    raised. *)
Theorem process_message_accepts_exactly (msg ts : PyVal) (m : Message) :
  _process_message msg ts = Some m <->
  exists d r,
    msg = VDict d /\
    candidate_type d = VStr r /\
    In r ["human"; "user"; "ai"; "assistant"]%string /\
    truthy (candidate_content d) = true /\
    strip (py_str (candidate_content d)) <> EmptyString /\
    m = {| m_timestamp := ts;
           m_role := if String.eqb r "human" || String.eqb r "user"
                     then "User"%string else "AI"%string;
           m_content := strip (py_str (candidate_content d)) |}.
Proof.
  split.
  - intros H. destruct msg; try discriminate.
    rewrite process_message_dict in H.
    destruct (truthy (candidate_content d)) eqn:Ht; [|discriminate].
    destruct (String.eqb (strip (py_str (candidate_content d))) EmptyString) eqn:Hs;
      [discriminate|].
    destruct (list_mem (candidate_type d) valid_types) eqn:Hv; [|discriminate].
    simpl in H. inversion H; subst m; clear H.
    assert (Hv' : list_mem (candidate_type d)
                    (map VStr ["human"; "ai"; "user"; "assistant"]%string) = true)
      by exact Hv.
    apply list_mem_strs in Hv'. destruct Hv' as [r [Hr Hin]].
    exists d, r. repeat split; try assumption.
    + simpl in Hin. simpl. tauto.
    + apply String.eqb_neq. exact Hs.
    + rewrite Hr. simpl. rewrite orb_false_r. reflexivity.
  - intros [d [r [-> [Hr [Hin [Ht [Hs ->]]]]]]].
    rewrite process_message_dict.
    rewrite Ht. apply String.eqb_neq in Hs. rewrite Hs.
    assert (Hv : list_mem (candidate_type d)
                   (map VStr ["human"; "ai"; "user"; "assistant"]%string) = true).
    { apply list_mem_strs. exists r. split; [exact Hr|]. simpl in *. tauto. }
    change valid_types with (map VStr ["human"; "ai"; "user"; "assistant"]%string).
    rewrite Hv. simpl. rewrite Hr. simpl. rewrite orb_false_r. reflexivity.
Qed.

Lemma process_message_accepts_exactly_witness :
  _process_message (VDict [("role", VStr "assistant"); ("text", VStr " ok ")]%string) VNone
    = Some {| m_timestamp := VNone; m_role := "AI"; m_content := "ok" |}%string /\
  exists d r,
    VDict [("role", VStr "assistant"); ("text", VStr " ok ")]%string = VDict d /\
    candidate_type d = VStr r /\
    In r ["human"; "user"; "ai"; "assistant"]%string /\
    truthy (candidate_content d) = true /\
    strip (py_str (candidate_content d)) <> EmptyString /\
    {| m_timestamp := VNone; m_role := "AI"; m_content := "ok" |}%string =
    {| m_timestamp := VNone;
       m_role := if String.eqb r "human" || String.eqb r "user"
                 then "User"%string else "AI"%string;
       m_content := strip (py_str (candidate_content d)) |}.
Proof.
  split; [reflexivity|].
  apply (proj1 (process_message_accepts_exactly _ VNone _)). reflexivity.
Defined.

Lemma process_message_timestamp (msg ts : PyVal) (m : Message) :
  _process_message msg ts = Some m -> m_timestamp m = ts.
Proof.
  destruct msg; try discriminate. rewrite process_message_dict.
  destruct (_ || _ || _); [discriminate|]. intros H; inversion H; reflexivity.
Qed.

Lemma item_messages_timestamp (d : list (string * PyVal)) (m : Message) :
  In m (item_messages d) -> m_timestamp m = dget d "created_at" (VStr "").
Proof.
  unfold item_messages. intros H. apply in_flat_map in H.
  destruct H as [value [_ Hv]]. destruct value; try contradiction.
  unfold collect_messages in Hv. apply in_flat_map in Hv.
  destruct Hv as [msg [_ Hm]].
  destruct (_process_message msg _) as [m'|] eqn:E; [|contradiction].
  destruct Hm as [<-|[]]. apply (process_message_timestamp msg _ _ E).
Qed.

Lemma insert_same_timestamp (k : PyVal) (m : Message) (acc r : list Message) :
  (forall x, In x acc -> m_timestamp x = k) -> m_timestamp m = k ->
  insert_by_timestamp m acc = Ok r ->
  r = acc ++ [m] /\ (acc <> [] -> py_lt k k = Ok false).
Proof.
  revert r; induction acc as [| x xs IH]; intros r Hacc Hm H; simpl in H.
  - inversion H; subst. split; [reflexivity | congruence].
  - rewrite Hm, (Hacc x (or_introl eq_refl)) in H.
    destruct (py_lt k k) as [[|]|e] eqn:Hk; simpl in H.
    + exfalso; exact (py_lt_irrefl k Hk).
    + destruct (insert_by_timestamp m xs) as [r'|e] eqn:Hi; simpl in H; [|discriminate].
      inversion H; subst r.
      assert (Hxs : forall y, In y xs -> m_timestamp y = k) by (intros y Hy; apply Hacc; now right).
      destruct (IH r' Hxs Hm eq_refl) as [-> _].
      split; [reflexivity | intros _; reflexivity].
    + discriminate.
Qed.

Lemma sort_same_timestamp (k : PyVal) (l acc r : list Message) :
  (forall x, In x acc -> m_timestamp x = k) ->
  (forall x, In x l -> m_timestamp x = k) ->
  (2 <= length acc -> py_lt k k = Ok false) ->
  fold_m (fun acc m => insert_by_timestamp m acc) l acc = Ok r ->
  r = acc ++ l /\ (2 <= length r -> py_lt k k = Ok false).
Proof.
  revert acc; induction l as [| m ms IH]; intros acc Hacc Hl Hk H; simpl in H.
  - inversion H; subst. rewrite app_nil_r. auto.
  - destruct (insert_by_timestamp m acc) as [acc'|e] eqn:Hi; simpl in H; [|discriminate].
    assert (Hm : m_timestamp m = k) by (apply Hl; now left).
    destruct (insert_same_timestamp k m acc acc' Hacc Hm Hi) as [-> Hne].
    assert (Hacc' : forall x, In x (acc ++ [m]) -> m_timestamp x = k).
    { intros x Hx. apply in_app_or in Hx. destruct Hx as [Hx|[<-|[]]]; auto. }
    assert (Hk' : 2 <= length (acc ++ [m]) -> py_lt k k = Ok false).
    { intros Hlen. apply Hne. intros ->. simpl in Hlen. lia. }
    pose proof (IH (acc ++ [m]) Hacc' (fun x Hx => Hl x (or_intror Hx)) Hk' H) as [Hr1 Hr].
    rewrite <- app_assoc in Hr1. split; [exact Hr1 | exact Hr].
Qed.

(** [a <= b] as guaranteed between neighbours by a successful Python sort:
    [not (b < a)]. *)
Definition ts_le (a b : PyVal) : bool :=
  match py_lt b a with
  | Ok lt => negb lt
  | Err _ => false
  end.

Lemma ts_le_str (a b : string) : ts_le (VStr a) (VStr b) = String.leb a b.
Proof.
  unfold ts_le. simpl. unfold String.ltb, String.leb.
  rewrite (String.compare_antisym a b).
  destruct (String.compare b a); reflexivity.
Qed.

(** The messages found by the loop of [extract_conversation_from_history],
    in discovery order, before sorting. *)
Definition pre_sort_messages (history_data : list PyVal) : list Message :=
  match conversation_loop history_data with
  | LoopDone c => c
  | LoopReturn r => r
  end.

(** C7: a conversation returned by [extract_conversation_from_history] is
    ordered by timestamp ([ts_le] is lexicographic order on strings, see
    [ts_le_str]), and it keeps the discovery order of the messages, so
    messages with equal timestamps keep their insertion order. *)
Theorem conversation_sorted_by_timestamp (history_data : list PyVal) (conv : list Message) :
  extract_conversation_from_history history_data = Ok conv ->
  (forall i m1 m2, nth_error conv i = Some m1 -> nth_error conv (S i) = Some m2 ->
     ts_le (m_timestamp m1) (m_timestamp m2) = true) /\
  conv = pre_sort_messages history_data.
Proof.
  intros H. destruct history_data as [| item rest].
  - inversion H; subst. split; [intros [|i] ? ? E; discriminate | reflexivity].
  - unfold extract_conversation_from_history, pre_sort_messages in *.
    simpl in *. destruct item; try (inversion H; subst;
      split; [intros [|i] ? ? E; discriminate | reflexivity]).
    set (k := dget d "created_at" (VStr "")).
    destruct (sort_same_timestamp k (item_messages d) [] conv
                (fun x Hx => match Hx with end)
                (fun x Hx => item_messages_timestamp d x Hx)
                (fun Hl => ltac:(simpl in Hl; lia)) H) as [Hc Hk].
    simpl in Hc. subst conv. split; [|reflexivity].
    intros i m1 m2 H1 H2.
    change (nth_error (item_messages d) (S i) = Some m2) in H2.
    rewrite (item_messages_timestamp d m1 (nth_error_In _ _ H1)).
    rewrite (item_messages_timestamp d m2 (nth_error_In _ _ H2)).
    fold k. unfold ts_le.
    assert (Hlen : S i < length (item_messages d))
      by (apply nth_error_Some; congruence).
    rewrite Hk by lia. reflexivity.
Qed.

Lemma insert_equal_timestamp (k : PyVal) (m : Message) (acc : list Message) :
  py_lt k k = Ok false -> (forall x, In x acc -> m_timestamp x = k) -> m_timestamp m = k ->
  insert_by_timestamp m acc = Ok (acc ++ [m]).
Proof.
  intros Hk Hacc Hm. revert Hacc; induction acc as [| x xs IH]; intros Hacc; simpl;
    [reflexivity|].
  rewrite Hm, (Hacc x (or_introl eq_refl)), Hk. simpl.
  rewrite IH by (intros y Hy; apply Hacc; now right). reflexivity.
Qed.

Lemma sort_equal_timestamp (k : PyVal) (l acc : list Message) :
  py_lt k k = Ok false -> (forall x, In x acc -> m_timestamp x = k) ->
  (forall x, In x l -> m_timestamp x = k) ->
  fold_m (fun acc m => insert_by_timestamp m acc) l acc = Ok (acc ++ l).
Proof.
  intros Hk. revert acc; induction l as [| m ms IH]; intros acc Hacc Hl; simpl.
  - rewrite app_nil_r. reflexivity.
  - rewrite (insert_equal_timestamp k m acc Hk Hacc (Hl m (or_introl eq_refl))). simpl.
    rewrite IH.
    + rewrite <- app_assoc. reflexivity.
    + intros x Hx. apply in_app_or in Hx.
      destruct Hx as [Hx|[<-|[]]]; [apply Hacc; exact Hx | apply Hl; now left].
    + intros x Hx. apply Hl. now right.
Qed.

Lemma py_lt_str_refl (s : string) : py_lt (VStr s) (VStr s) = Ok false.
Proof. simpl. unfold String.ltb. rewrite string_compare_refl. reflexivity. Qed.

(** C1: [extract_conversation_from_history] avoids duplicates between
    snapshots by reading the first history item (the latest snapshot) only:
    when it is a dict whose [created_at] is a string, the conversation is
    exactly the messages extracted from that item, in extraction order (so
    an event repeated inside that snapshot is kept every time), all stamped
    with that [created_at], whatever the later items hold. *)
Theorem extract_reads_first_snapshot_only (d : list (string * PyVal)) (rest : list PyVal)
    (s : string) :
  dget d "created_at" (VStr "") = VStr s ->
  extract_conversation_from_history (VDict d :: rest) = Ok (item_messages d) /\
  Forall (fun m => m_timestamp m = VStr s) (item_messages d).
Proof.
  intros Hs.
  assert (Ht : forall x, In x (item_messages d) -> m_timestamp x = VStr s)
    by (intros x Hx; rewrite (item_messages_timestamp d x Hx); exact Hs).
  split; [|apply Forall_forall; exact Ht].
  unfold extract_conversation_from_history, conversation_loop, sort_by_timestamp.
  apply (sort_equal_timestamp (VStr s) (item_messages d) [] (py_lt_str_refl s)
           (fun x Hx => match Hx with end) Ht).
Qed.

(** C2: for a non-empty list of history items, only the first item is
    processed: the result is the one for that item alone; if it is not a
    dict the result is [[]]; if it is a dict the result, when the sort does
    not raise, is exactly the messages extracted from that item, in
    extraction order. *)
Theorem extract_processes_first_item_only (item : PyVal) (rest : list PyVal) :
  extract_conversation_from_history (item :: rest) = extract_conversation_from_history [item] /\
  (is_dict item = false -> extract_conversation_from_history (item :: rest) = Ok []) /\
  (forall d conv, item = VDict d ->
     extract_conversation_from_history (item :: rest) = Ok conv -> conv = item_messages d).
Proof.
  split; [reflexivity|]. split.
  - destruct item; simpl; try discriminate; reflexivity.
  - intros d conv -> H. unfold extract_conversation_from_history, conversation_loop in H.
    destruct (sort_same_timestamp (dget d "created_at" (VStr "")) (item_messages d) [] conv
                (fun x Hx => match Hx with end)
                (fun x Hx => item_messages_timestamp d x Hx)
                (fun Hl => ltac:(simpl in Hl; lia)) H) as [Hc _].
    exact Hc.
Qed.

(** Three events of one snapshot, in the order the agent produced them. *)
Definition exchange_item : PyVal :=
  VDict [("values", VDict [("messages",
            VList [human_hi;
                   VDict [("type", VStr "ai"); ("content", VStr "hello")];
                   VDict [("role", VStr "user"); ("text", VStr " bye ")]])]);
         ("created_at", VStr "2024-01-02T00:00:00")]%string.

Definition exchange_messages : list Message :=
  [{| m_timestamp := VStr "2024-01-02T00:00:00"; m_role := "User"; m_content := "hi" |};
   {| m_timestamp := VStr "2024-01-02T00:00:00"; m_role := "AI"; m_content := "hello" |};
   {| m_timestamp := VStr "2024-01-02T00:00:00"; m_role := "User"; m_content := "bye" |}]%string.

Lemma conversation_sorted_by_timestamp_witness :
  extract_conversation_from_history [exchange_item; hi_item] = Ok exchange_messages /\
  (forall i m1 m2, nth_error exchange_messages i = Some m1 ->
     nth_error exchange_messages (S i) = Some m2 ->
     ts_le (m_timestamp m1) (m_timestamp m2) = true) /\
  exchange_messages = pre_sort_messages [exchange_item; hi_item].
Proof.
  assert (H : extract_conversation_from_history [exchange_item; hi_item] = Ok exchange_messages)
    by (vm_compute; reflexivity).
  split; [exact H|].
  apply (conversation_sorted_by_timestamp [exchange_item; hi_item] exchange_messages). exact H.
Defined.

Lemma extract_reads_first_snapshot_only_witness :
  dget [("values", VDict [("messages", VList [human_hi; human_hi])]);
        ("created_at", VStr "2024-01-01T00:00:00")]%string "created_at" (VStr "")
    = VStr "2024-01-01T00:00:00"%string /\
  item_messages [("values", VDict [("messages", VList [human_hi; human_hi])]);
                 ("created_at", VStr "2024-01-01T00:00:00")]%string = [hi_message; hi_message] /\
  (extract_conversation_from_history [repeated_item; exchange_item] = Ok [hi_message; hi_message] /\
   Forall (fun m => m_timestamp m = VStr "2024-01-01T00:00:00"%string) [hi_message; hi_message]).
Proof.
  split; [reflexivity|]. split; [vm_compute; reflexivity|].
  exact (extract_reads_first_snapshot_only
           [("values", VDict [("messages", VList [human_hi; human_hi])]);
            ("created_at", VStr "2024-01-01T00:00:00")]%string [exchange_item]
           "2024-01-01T00:00:00"%string eq_refl).
Defined.

Lemma extract_processes_first_item_only_witness :
  extract_conversation_from_history [exchange_item; hi_item] =
    extract_conversation_from_history [exchange_item] /\
  (is_dict exchange_item = false ->
     extract_conversation_from_history [exchange_item; hi_item] = Ok []) /\
  (forall d conv, exchange_item = VDict d ->
     extract_conversation_from_history [exchange_item; hi_item] = Ok conv ->
     conv = item_messages d).
Proof. exact (extract_processes_first_item_only exchange_item [hi_item]). Defined.

(** ** Tool-Call Analyzer *)

Definition count_named (n : string) (l : list ToolDetail) : nat :=
  length (filter (fun d => py_eq (td_function_name d) (VStr n)) l).

(** Pairwise distinct under Python's [==]. *)
Fixpoint distinct_ids (l : list PyVal) : Prop :=
  match l with
  | [] => True
  | x :: r => existsb (py_eq x) r = false /\ distinct_ids r
  end.

Definition tool_inv (st : ToolState) : Prop :=
  total_tool_calls st = length (tool_calls_detail st) /\
  create_lead st = count_named "create_lead" (tool_calls_detail st) /\
  send_html_email st = count_named "send_html_email" (tool_calls_detail st) /\
  map td_call_id (tool_calls_detail st) = processed_call_ids st /\
  distinct_ids (processed_call_ids st) /\
  forallb hashable (processed_call_ids st) = true.

Lemma distinct_ids_snoc (l : list PyVal) (c : PyVal) :
  distinct_ids l -> forallb hashable l = true -> hashable c = true ->
  existsb (py_eq c) l = false -> distinct_ids (l ++ [c]).
Proof.
  induction l as [| x r IH]; intros Hd Hh Hc He; simpl in *.
  - auto.
  - apply andb_true_iff in Hh as [Hx Hr]. apply orb_false_iff in He as [Hcx Hcr].
    destruct Hd as [Hxr Hdr]. split; [| apply IH; assumption].
    rewrite existsb_app, Hxr. simpl.
    rewrite (py_eq_sym_hashable x c Hx Hc), Hcx. reflexivity.
Qed.

Lemma count_named_snoc (n : string) (l : list ToolDetail) (d : ToolDetail) :
  count_named n (l ++ [d]) =
  count_named n l + (if py_eq (td_function_name d) (VStr n) then 1 else 0).
Proof.
  unfold count_named. rewrite filter_app, length_app. simpl.
  destruct (py_eq _ _); reflexivity.
Qed.

Lemma record_call_inv (f c : PyVal) (args : unit -> PyVal) (it md : list (string * PyVal))
    (st st' : ToolState) :
  tool_inv st -> record_call f c args it md st = Ok st' -> tool_inv st'.
Proof.
  intros [Ht [Hc [Hs [Hm [Hd Hh]]]]] H. unfold record_call in H.
  destruct (truthy f && truthy c); [| inversion H; subst; repeat split; assumption].
  unfold set_mem in H. destruct (hashable c) eqn:Hhc; [|discriminate]. simpl in H.
  destruct (existsb (py_eq c) (processed_call_ids st)) eqn:He;
    [inversion H; subst; repeat split; assumption|].
  inversion H; subst st'; clear H. unfold tool_inv.
  cbn [tool_calls_detail processed_call_ids total_tool_calls create_lead send_html_email].
  repeat split.
  - rewrite length_app, Ht. simpl. lia.
  - rewrite count_named_snoc, Hc. reflexivity.
  - rewrite count_named_snoc, Hs. simpl.
    destruct (py_eq f (VStr "send_html_email")) eqn:Ef.
    + apply py_eq_VStr in Ef. subst f. reflexivity.
    + rewrite andb_false_r. reflexivity.
  - rewrite map_app, Hm. reflexivity.
  - apply distinct_ids_snoc; assumption.
  - rewrite forallb_app, Hh. simpl. rewrite Hhc. reflexivity.
Qed.

Lemma kwargs_tool_call_inv it md st tc st' :
  tool_inv st -> kwargs_tool_call it md st tc = Ok st' -> tool_inv st'.
Proof.
  intros Hi H. destruct tc; simpl in H; try (inversion H; subst; exact Hi).
  destruct (py_get _ _ _) as [f|e]; simpl in H; [|discriminate].
  eapply record_call_inv; eauto.
Qed.

Lemma direct_tool_call_inv it md st tc st' :
  tool_inv st -> direct_tool_call it md st tc = Ok st' -> tool_inv st'.
Proof.
  intros Hi H. destruct tc; simpl in H; try (inversion H; subst; exact Hi).
  eapply record_call_inv; eauto.
Qed.

Lemma analyze_message_inv it st msg st' :
  tool_inv st -> analyze_message it st msg = Ok st' -> tool_inv st'.
Proof.
  intros Hi H. destruct msg as [| | | | | md]; simpl in H;
    try (inversion H; subst; exact Hi).
  destruct (py_get _ _ _) as [tcs|e]; simpl in H; [|discriminate].
  destruct tcs as [| | | | [|x l] |];
    try (destruct (dget md "tool_calls" (VList [])) as [| | | | l' |];
         try (inversion H; subst; exact Hi);
         exact (fold_m_invariant tool_inv (direct_tool_call it md)
                  (direct_tool_call_inv it md) l' st st' Hi H)).
  exact (fold_m_invariant tool_inv (kwargs_tool_call it md)
           (kwargs_tool_call_inv it md) _ st st' Hi H).
Qed.

Lemma analyze_item_inv st item st' :
  tool_inv st -> analyze_item st item = Ok st' -> tool_inv st'.
Proof.
  intros Hi H. unfold analyze_item in H.
  destruct (py_get item _ _) as [values|e]; simpl in H; [|discriminate].
  destruct (py_get values _ _) as [msgs|e]; simpl in H; [|discriminate].
  destruct item; try (inversion H; subst; exact Hi).
  destruct msgs; try (inversion H; subst; exact Hi).
  exact (fold_m_invariant tool_inv (analyze_message d) (analyze_message_inv d) l st st' Hi H).
Qed.

Lemma analyze_tool_calling_stats_fold (h : list PyVal) :
  analyze_tool_calling_stats h =
  (st <- fold_m analyze_item h initial_tool_state ;; Ok (to_stats st)).
Proof. destruct h; reflexivity. Qed.

Lemma analyze_tool_calling_stats_inv (h : list PyVal) (s : ToolCallStats) :
  analyze_tool_calling_stats h = Ok s ->
  exists st, tool_inv st /\ s = to_stats st /\
             fold_m analyze_item h initial_tool_state = Ok st.
Proof.
  rewrite analyze_tool_calling_stats_fold. intros H.
  destruct (fold_m analyze_item h initial_tool_state) as [st|e] eqn:E; simpl in H;
    [|discriminate].
  inversion H; subst. exists st. split; [|auto].
  apply (fold_m_invariant tool_inv analyze_item analyze_item_inv h initial_tool_state st);
    [| exact E].
  unfold tool_inv; simpl; repeat split.
Qed.

Lemma record_call_grows f c args it md st st' :
  record_call f c args it md st = Ok st' ->
  incl (processed_call_ids st) (processed_call_ids st').
Proof.
  intros H. unfold record_call in H.
  destruct (truthy f && truthy c); [| inversion H; subst; apply incl_refl].
  unfold set_mem in H. destruct (hashable c); [|discriminate]. simpl in H.
  destruct (existsb _ _); inversion H; subst; simpl; [apply incl_refl|].
  apply incl_appl, incl_refl.
Qed.

(** Once every id a call would add is already present, the call changes
    nothing: the [call_id not in processed_call_ids] guard rejects it. *)
Lemma record_call_absorbs f c args it md st st' s :
  record_call f c args it md st = Ok st' ->
  incl (processed_call_ids st') (processed_call_ids s) ->
  record_call f c args it md s = Ok s.
Proof.
  intros H Hs. unfold record_call in *.
  destruct (truthy f && truthy c); [|reflexivity].
  unfold set_mem in *. destruct (hashable c) eqn:Hhc; [|discriminate]. simpl in *.
  assert (Hin : existsb (py_eq c) (processed_call_ids s) = true).
  { destruct (existsb (py_eq c) (processed_call_ids st)) eqn:He.
    - inversion H; subst st'. apply existsb_exists in He. destruct He as [y [Hy Hcy]].
      apply existsb_exists. exists y. split; [apply Hs; exact Hy | exact Hcy].
    - inversion H; subst st'. simpl in Hs. apply existsb_exists. exists c.
      split; [apply Hs, in_or_app; right; now left | apply py_eq_refl_hashable; exact Hhc]. }
  rewrite Hin. reflexivity.
Qed.

Lemma kwargs_tool_call_grows it md st tc st' :
  kwargs_tool_call it md st tc = Ok st' ->
  incl (processed_call_ids st) (processed_call_ids st').
Proof.
  intros H. destruct tc; simpl in H; try (inversion H; subst; apply incl_refl).
  destruct (py_get _ _ _); simpl in H; [|discriminate].
  eapply record_call_grows; eauto.
Qed.

Lemma kwargs_tool_call_absorbs it md st tc st' s :
  kwargs_tool_call it md st tc = Ok st' ->
  incl (processed_call_ids st') (processed_call_ids s) ->
  kwargs_tool_call it md s tc = Ok s.
Proof.
  intros H Hs. destruct tc; simpl in *; try reflexivity.
  destruct (py_get _ _ _); simpl in *; [|discriminate].
  eapply record_call_absorbs; eauto.
Qed.

Lemma direct_tool_call_grows it md st tc st' :
  direct_tool_call it md st tc = Ok st' ->
  incl (processed_call_ids st) (processed_call_ids st').
Proof.
  intros H. destruct tc; simpl in H; try (inversion H; subst; apply incl_refl).
  eapply record_call_grows; eauto.
Qed.

Lemma direct_tool_call_absorbs it md st tc st' s :
  direct_tool_call it md st tc = Ok st' ->
  incl (processed_call_ids st') (processed_call_ids s) ->
  direct_tool_call it md s tc = Ok s.
Proof.
  intros H Hs. destruct tc; simpl in *; try reflexivity.
  eapply record_call_absorbs; eauto.
Qed.

Lemma analyze_message_grows it st msg st' :
  analyze_message it st msg = Ok st' ->
  incl (processed_call_ids st) (processed_call_ids st').
Proof.
  intros H. destruct msg as [| | | | | md]; simpl in H;
    try (inversion H; subst; apply incl_refl).
  destruct (py_get _ _ _) as [tcs|e]; simpl in H; [|discriminate].
  destruct tcs as [| | | | [|x l] |];
    try (destruct (dget md "tool_calls" (VList [])) as [| | | | l' |];
         try (inversion H; subst; apply incl_refl);
         exact (fold_m_grows processed_call_ids (direct_tool_call it md)
                  (direct_tool_call_grows it md) l' st st' H)).
  exact (fold_m_grows processed_call_ids (kwargs_tool_call it md)
           (kwargs_tool_call_grows it md) _ st st' H).
Qed.

Lemma analyze_message_absorbs it st msg st' s :
  analyze_message it st msg = Ok st' ->
  incl (processed_call_ids st') (processed_call_ids s) ->
  analyze_message it s msg = Ok s.
Proof.
  intros H Hs. destruct msg as [| | | | | md]; simpl in *; try reflexivity.
  destruct (py_get _ _ _) as [tcs|e]; simpl in *; [|discriminate].
  destruct tcs as [| | | | [|x l] |];
    try (destruct (dget md "tool_calls" (VList [])) as [| | | | l' |];
         try reflexivity;
         exact (fold_m_absorbs processed_call_ids (direct_tool_call it md)
                  (direct_tool_call_grows it md) (direct_tool_call_absorbs it md)
                  l' st st' s H Hs)).
  exact (fold_m_absorbs processed_call_ids (kwargs_tool_call it md)
           (kwargs_tool_call_grows it md) (kwargs_tool_call_absorbs it md)
           _ st st' s H Hs).
Qed.

Lemma analyze_item_grows st item st' :
  analyze_item st item = Ok st' ->
  incl (processed_call_ids st) (processed_call_ids st').
Proof.
  intros H. unfold analyze_item in H.
  destruct (py_get item _ _) as [values|e]; simpl in H; [|discriminate].
  destruct (py_get values _ _) as [msgs|e]; simpl in H; [|discriminate].
  destruct item; try (inversion H; subst; apply incl_refl).
  destruct msgs; try (inversion H; subst; apply incl_refl).
  exact (fold_m_grows processed_call_ids (analyze_message d) (analyze_message_grows d)
           l st st' H).
Qed.

Lemma analyze_item_absorbs st item st' s :
  analyze_item st item = Ok st' ->
  incl (processed_call_ids st') (processed_call_ids s) ->
  analyze_item s item = Ok s.
Proof.
  intros H Hs. unfold analyze_item in *.
  destruct (py_get item _ _) as [values|e]; simpl in *; [|discriminate].
  destruct (py_get values _ _) as [msgs|e]; simpl in *; [|discriminate].
  destruct item; try reflexivity.
  destruct msgs; try reflexivity.
  exact (fold_m_absorbs processed_call_ids (analyze_message d) (analyze_message_grows d)
           (analyze_message_absorbs d) l st st' s H Hs).
Qed.

(** Analysing a history list followed by a second copy of itself (every
    item repeated, as with overlapping pages) gives the same result. *)
Lemma analyze_tool_calling_stats_repeat (h : list PyVal) :
  analyze_tool_calling_stats (h ++ h) = analyze_tool_calling_stats h.
Proof.
  rewrite !analyze_tool_calling_stats_fold, fold_m_app.
  destruct (fold_m analyze_item h initial_tool_state) as [st|e] eqn:E; simpl;
    [|reflexivity].
  rewrite (fold_m_absorbs processed_call_ids analyze_item analyze_item_grows
             analyze_item_absorbs h initial_tool_state st st E (incl_refl _)).
  reflexivity.
Qed.

Lemma count_named_lead_mail (l : list ToolDetail) :
  count_named "create_lead" l + count_named "send_html_email" l <= length l.
Proof.
  induction l as [| d r IH]; [unfold count_named; simpl; lia|].
  unfold count_named in *. cbn [filter length].
  destruct (py_eq (td_function_name d) (VStr "create_lead")) eqn:E1;
  destruct (py_eq (td_function_name d) (VStr "send_html_email")) eqn:E2;
    cbn [length]; try lia.
  apply py_eq_VStr in E1. rewrite E1 in E2. discriminate.
Qed.

(** The history item of the spec's tool-call scenario. *)
Definition create_lead_item : PyVal :=
  VDict [("values",
          VDict [("messages",
                  VList [VDict [("type", VStr "ai"); ("id", VStr "m1");
                                ("additional_kwargs",
                                 VDict [("tool_calls",
                                         VList [VDict [("id", VStr "c1");
                                                       ("function",
                                                        VDict [("name", VStr "create_lead");
                                                               ("arguments", VStr "{}")])]])])]])]);
         ("created_at", VStr "2024-01-01T00:00:00")]%string.

(** C6: within one call of [analyze_tool_calling_stats], the accepted calls
    have pairwise distinct [call_id]s (under Python [==]); the total and the
    per-function counters count exactly the entries of the detail list; and
    analysing the history followed by a repeated copy of every item (the
    overlapping-page case) gives the same statistics. *)
Theorem tool_calls_counted_once_per_call_id (history_data : list PyVal) (s : ToolCallStats) :
  analyze_tool_calling_stats history_data = Ok s ->
  distinct_ids (map td_call_id (stats_tool_calls_detail s)) /\
  stats_total_tool_calls s = length (stats_tool_calls_detail s) /\
  stats_create_lead s = count_named "create_lead" (stats_tool_calls_detail s) /\
  stats_send_html_email s = count_named "send_html_email" (stats_tool_calls_detail s) /\
  analyze_tool_calling_stats (history_data ++ history_data) = Ok s.
Proof.
  intros H.
  destruct (analyze_tool_calling_stats_inv history_data s H)
    as [st [[Ht [Hc [Hs [Hm [Hd _]]]]] [-> _]]].
  unfold to_stats; simpl. rewrite Hm.
  repeat split; try assumption.
  rewrite analyze_tool_calling_stats_repeat. exact H.
Qed.

Lemma tool_calls_counted_once_per_call_id_witness :
  exists s,
    analyze_tool_calling_stats [create_lead_item; create_lead_item] = Ok s /\
    stats_create_lead s = 1 /\ stats_total_tool_calls s = 1 /\
    (distinct_ids (map td_call_id (stats_tool_calls_detail s)) /\
     stats_total_tool_calls s = length (stats_tool_calls_detail s) /\
     stats_create_lead s = count_named "create_lead" (stats_tool_calls_detail s) /\
     stats_send_html_email s = count_named "send_html_email" (stats_tool_calls_detail s) /\
     analyze_tool_calling_stats ([create_lead_item; create_lead_item] ++
                                 [create_lead_item; create_lead_item]) = Ok s).
Proof.
  eexists. split; [reflexivity|]. split; [reflexivity|]. split; [reflexivity|].
  apply (tool_calls_counted_once_per_call_id [create_lead_item; create_lead_item]).
  reflexivity.
Defined.

(** C10: every [ToolCallStats] returned by [analyze_tool_calling_stats] has
    [total_tool_calls = len(tool_calls_detail)] and
    [create_lead + send_html_email <= total_tool_calls]. *)
Theorem tool_stats_counters_consistent (history_data : list PyVal) (s : ToolCallStats) :
  analyze_tool_calling_stats history_data = Ok s ->
  stats_total_tool_calls s = length (stats_tool_calls_detail s) /\
  stats_create_lead s + stats_send_html_email s <= stats_total_tool_calls s.
Proof.
  intros H.
  destruct (analyze_tool_calling_stats_inv history_data s H)
    as [st [[Ht [Hc [Hs _]]] [-> _]]].
  unfold to_stats; simpl. rewrite Ht, Hc, Hs.
  split; [reflexivity | apply count_named_lead_mail].
Qed.

Lemma tool_stats_counters_consistent_witness :
  exists s,
    analyze_tool_calling_stats [create_lead_item] = Ok s /\
    (stats_total_tool_calls s = length (stats_tool_calls_detail s) /\
     stats_create_lead s + stats_send_html_email s <= stats_total_tool_calls s).
Proof.
  eexists. split; [reflexivity|].
  apply (tool_stats_counters_consistent [create_lead_item]). reflexivity.
Defined.

(** ** Thread Fetcher *)

Section FetcherProofs.
Variable fetch_threads : Z -> Z -> list PyVal.
Variable iso_date : string -> option Z.
Variable strptime_date : string -> option Z.
Variables date_from date_to : option string.

Lemma filtered_pages_err (j k : nat) (e : exn) :
  j <= k ->
  filtered_pages fetch_threads iso_date strptime_date date_from date_to j = Err e ->
  filtered_pages fetch_threads iso_date strptime_date date_from date_to k = Err e.
Proof.
  intros Hjk H. induction Hjk as [| k Hjk IH]; [exact H|].
  simpl. rewrite IH. reflexivity.
Qed.

Lemma fetch_loop_pages (k : nat) :
  (forall i, i < k -> raw_page fetch_threads i <> []) ->
  raw_page fetch_threads k = [] ->
  forall n j fuel acc,
    j + n = k -> n < fuel ->
    filtered_pages fetch_threads iso_date strptime_date date_from date_to j = Ok acc ->
    fetch_loop fetch_threads iso_date strptime_date date_from date_to fuel
      (Z.of_nat j * page_limit) acc =
    Some (filtered_pages fetch_threads iso_date strptime_date date_from date_to k).
Proof.
  intros Hne Hk n. induction n as [| n IH]; intros j fuel acc Hjn Hfuel Hacc;
    (destruct fuel as [| fuel]; [lia|]).
  - rewrite Nat.add_0_r in Hjn. subst j. simpl.
    unfold raw_page in Hk. rewrite Hk, Hacc. reflexivity.
  - simpl.
    assert (Hj : raw_page fetch_threads j <> []) by (apply Hne; lia).
    unfold raw_page in Hj.
    destruct (fetch_threads page_limit (Z.of_nat j * page_limit)) as [| t ts] eqn:Ep;
      [congruence|].
    assert (Hpage : filtered_page fetch_threads iso_date strptime_date date_from date_to j =
                    (if opt_truthy date_from || opt_truthy date_to
                     then _filter_threads_by_date iso_date strptime_date (t :: ts)
                            date_from date_to
                     else Ok (t :: ts)))
      by (unfold filtered_page, raw_page; rewrite Ep; reflexivity).
    assert (HS : filtered_pages fetch_threads iso_date strptime_date date_from date_to (S j) =
                 (page <- filtered_page fetch_threads iso_date strptime_date
                            date_from date_to j ;; Ok (acc ++ page)))
      by (simpl; rewrite Hacc; reflexivity).
    rewrite <- Hpage.
    destruct (filtered_page fetch_threads iso_date strptime_date date_from date_to j)
      as [page|e] eqn:Ef.
    + replace (Z.of_nat j * page_limit + page_limit)%Z with (Z.of_nat (S j) * page_limit)%Z
        by lia.
      apply (IH (S j) fuel (acc ++ page)); [lia | lia | exact HS].
    + f_equal. symmetry. apply (filtered_pages_err (S j) k e); [lia | exact HS].
Qed.

End FetcherProofs.

(** C9: pagination stops exactly at the first raw page that is empty,
    whatever the date filter removes from the earlier pages, and the result
    is the concatenation, in fetch order, of the filtered pages before it
    (or the first exception the filter raises). *)
Theorem fetch_all_threads_stops_at_first_empty_raw_page
    (fetch_threads : Z -> Z -> list PyVal) (iso_date strptime_date : string -> option Z)
    (date_from date_to : option string) (k fuel : nat) :
  (forall i, i < k -> raw_page fetch_threads i <> []) ->
  raw_page fetch_threads k = [] ->
  k < fuel ->
  fetch_all_threads fetch_threads iso_date strptime_date date_from date_to fuel =
  Some (filtered_pages fetch_threads iso_date strptime_date date_from date_to k).
Proof.
  intros Hne Hk Hfuel. unfold fetch_all_threads.
  apply (fetch_loop_pages fetch_threads iso_date strptime_date date_from date_to k Hne Hk
           k 0 fuel []); [lia | exact Hfuel | reflexivity].
Qed.

(** Two pages: every record of the first is older than [date_from]. *)
Definition two_pages (limit offset : Z) : list PyVal :=
  if Z.eqb offset 0 then [VDict [("updated_at", VStr "old")]%string]
  else if Z.eqb offset 1000 then [VDict [("updated_at", VStr "new")]%string]
  else [].

Definition day_of (s : string) : option Z :=
  if String.eqb s "old" then Some 1%Z else Some 10%Z.

Lemma fetch_all_threads_stops_at_first_empty_raw_page_witness :
  filtered_page two_pages day_of (fun _ => Some 5%Z) (Some "2024-01-05"%string) None 0
    = Ok [] /\
  filtered_pages two_pages day_of (fun _ => Some 5%Z) (Some "2024-01-05"%string) None 2
    = Ok [VDict [("updated_at", VStr "new")]%string] /\
  fetch_all_threads two_pages day_of (fun _ => Some 5%Z) (Some "2024-01-05"%string) None 3 =
  Some (filtered_pages two_pages day_of (fun _ => Some 5%Z) (Some "2024-01-05"%string) None 2).
Proof.
  split; [reflexivity|]. split; [reflexivity|].
  apply fetch_all_threads_stops_at_first_empty_raw_page.
  - intros i Hi. destruct i as [|[|i]]; [discriminate | discriminate | lia].
  - reflexivity.
  - lia.
Defined.

(** ** Engine construction *)

(** C5 (code_bug): the [raise] of [__init__] sits only in the [except]
    branch; when the secrets file has no [THREAD_API_URL], [getattr] returns
    [None] and the engine is built with [base_url = None] (the [base_url]
    argument and the environment are not consulted). *)
Lemma init_without_url_succeeds :
  ThreadAnalytics_init SecretKeyMissing None "reports" 4 true =
  Ok {| base_url := VNone; output_base_dir := "reports"; max_workers := 4 |} /\
  ThreadAnalytics_init SecretKeyMissing (Some "https://api.example"%string) "reports" 4 true =
  Ok {| base_url := VNone; output_base_dir := "reports"; max_workers := 4 |}.
Proof. split; reflexivity. Qed.

(** ** Aggregation Engine *)

(** [thread.get('metadata', {}).get('user_id')] for a well-formed record. *)
Definition record_user_id (t : PyVal) : PyVal :=
  match t with
  | VDict d =>
      match dget d "metadata" (VDict []) with
      | VDict m => dget m "user_id" VNone
      | _ => VNone
      end
  | _ => VNone
  end.

(** [thread.get('thread_id')]. *)
Definition record_thread_id (t : PyVal) : PyVal :=
  match t with
  | VDict d => dget d "thread_id" VNone
  | _ => VNone
  end.

Definition sum_len (ut : list (PyVal * list PyVal)) : nat :=
  sum_nat (map (fun u => length (snd u)) ut).

Lemma sum_nat_app (l1 l2 : list nat) : sum_nat (l1 ++ l2) = sum_nat l1 + sum_nat l2.
Proof. induction l1; simpl; lia. Qed.

Lemma bind_ok {A B} (m : result A) (k : A -> result B) (b : B) :
  bind m k = Ok b -> exists a, m = Ok a /\ k a = Ok b.
Proof. destruct m; simpl; [eauto | discriminate]. Qed.

Lemma assoc_set_sum_len (k : PyVal) (l l' : list PyVal) (d : list (PyVal * list PyVal)) :
  assoc_lookup k d = Some l ->
  sum_len (assoc_set k l' d) + length l = sum_len d + length l'.
Proof.
  induction d as [| [k' v] r IH]; simpl; [discriminate|].
  unfold sum_len in *. destruct (py_eq k k'); simpl.
  - intros H; inversion H; subst; lia.
  - intros H. specialize (IH H). lia.
Qed.

Lemma append_at_sum_len (k x : PyVal) (d : list (PyVal * list PyVal)) :
  sum_len (append_at k x d) = S (sum_len d).
Proof.
  unfold append_at. destruct (assoc_lookup k d) as [l|] eqn:E.
  - pose proof (assoc_set_sum_len k l (l ++ [x]) d E) as H.
    rewrite length_app in H. simpl in H. lia.
  - unfold sum_len. rewrite map_app, sum_nat_app. simpl. lia.
Qed.

Lemma analyze_user_thread_counts (h : PyVal -> list PyVal) (s s' : UsersState) (t : PyVal) :
  truthy (record_user_id t) = true -> truthy (record_thread_id t) = true ->
  analyze_user_thread h s t = Ok s' ->
  sum_len (user_threads s') = S (sum_len (user_threads s)).
Proof.
  intros Hu Ht H. destruct t as [| | | | | d]; try discriminate.
  unfold record_user_id, record_thread_id in *.
  destruct (dget d "metadata" (VDict [])) as [| | | | | m] eqn:Em; try discriminate.
  unfold analyze_user_thread in H. simpl in H. rewrite Em in H. simpl in H.
  rewrite Hu, Ht in H. simpl in H.
  destruct (hashable (dget m "user_id" VNone)); [|discriminate]. simpl in H.
  apply bind_ok in H. destruct H as [ud [_ H]].
  apply bind_ok in H. destruct H as [cd [_ H]].
  destruct (hashable (dget d "thread_id" VNone)); [|discriminate].
  inversion H; subst s'. simpl. apply append_at_sum_len.
Qed.

Lemma analyze_users_fold_counts (h : PyVal -> list PyVal) (threads : list PyVal) :
  (forall t, In t threads ->
     truthy (record_user_id t) = true /\ truthy (record_thread_id t) = true) ->
  forall s s', fold_m (analyze_user_thread h) threads s = Ok s' ->
  sum_len (user_threads s') = sum_len (user_threads s) + length threads.
Proof.
  intros Hall. induction threads as [| t r IH]; intros s s' H; simpl in H.
  - inversion H; subst; simpl; lia.
  - apply bind_ok in H. destruct H as [s1 [H1 H2]].
    destruct (Hall t (or_introl eq_refl)) as [Hu Ht].
    rewrite (IH (fun t' Ht' => Hall t' (or_intror Ht')) s1 s' H2).
    rewrite (analyze_user_thread_counts h s s1 t Hu Ht H1). simpl. lia.
Qed.

(** A thread record with a [user_id] and no [thread_id]. *)
Definition record_without_thread_id : PyVal :=
  VDict [("metadata", VDict [("user_id", VStr "user_A")])]%string.

(** C8 (counterexample): a record with a [user_id] but no [thread_id] is
    counted in [total_threads] and skipped by [analyze_users_comprehensive]. *)
Lemma report_counts_record_without_thread_id :
  truthy (record_user_id record_without_thread_id) = true /\
  match generate_report (fun _ => []) (fun _ => None) [record_without_thread_id] true with
  | Ok r => sum_thread_counts r = 0 /\ summary_total_threads r = 1
  | Err _ => False
  end.
Proof. split; [reflexivity|]. vm_compute. split; reflexivity. Qed.

(** C8 (amended): when every record has a non-empty [user_id] in its
    metadata and a non-empty [thread_id], the [thread_count]s of all users
    of a report returned by [generate_report] sum to [total_threads]. *)
Theorem report_thread_counts_sum_to_total
    (get_thread_history : PyVal -> list PyVal) (iso_day : string -> option string)
    (threads : list PyVal) (include_tool_analysis : bool) (r : Report) :
  (forall t, In t threads ->
     truthy (record_user_id t) = true /\ truthy (record_thread_id t) = true) ->
  generate_report get_thread_history iso_day threads include_tool_analysis = Ok r ->
  sum_thread_counts r = summary_total_threads r.
Proof.
  intros Hall H. unfold generate_report in H.
  apply bind_ok in H. destruct H as [tbd [_ H]].
  apply bind_ok in H. destruct H as [us [Hus H]].
  apply bind_ok in H. destruct H as [tc [_ H]].
  inversion H; subst r; clear H.
  unfold analyze_users_comprehensive in Hus.
  apply bind_ok in Hus. destruct Hus as [s [Hs Hus]]. inversion Hus; subst us.
  pose proof (analyze_users_fold_counts get_thread_history threads Hall _ _ Hs) as Hc.
  simpl in Hc. unfold sum_thread_counts. simpl.
  rewrite map_map. simpl. unfold sum_len in Hc. exact Hc.
Qed.

Definition thread_record (tid uid : string) : PyVal :=
  VDict [("thread_id", VStr tid); ("metadata", VDict [("user_id", VStr uid)])]%string.

Definition round_trip_threads : list PyVal :=
  [thread_record "t1" "user_A"; thread_record "t2" "user_A"; thread_record "t3" "user_B"]%string.

Lemma report_thread_counts_sum_to_total_witness :
  exists r,
    generate_report (fun _ => [hi_item]) (fun _ => None) round_trip_threads true = Ok r /\
    summary_total_threads r = 3 /\ summary_total_users r = 2 /\
    sum_thread_counts r = summary_total_threads r.
Proof.
  eexists. split; [reflexivity|]. split; [reflexivity|]. split; [reflexivity|].
  apply (report_thread_counts_sum_to_total (fun _ => [hi_item]) (fun _ => None)
           round_trip_threads true).
  - intros t Ht. simpl in Ht.
    destruct Ht as [<-|[<-|[<-|[]]]]; split; reflexivity.
  - reflexivity.
Defined.

(** * Further properties of the engine and of the dashboard *)

(** ** Sorting and slicing *)

Inductive subseq {A : Type} : list A -> list A -> Prop :=
| subseq_nil : subseq [] []
| subseq_skip (x : A) (l1 l2 : list A) : subseq l1 l2 -> subseq l1 (x :: l2)
| subseq_take (x : A) (l1 l2 : list A) : subseq l1 l2 -> subseq (x :: l1) (x :: l2).

Lemma subseq_incl {A} (l1 l2 : list A) : subseq l1 l2 -> incl l1 l2.
Proof.
  induction 1; intros y Hy; simpl in *; [contradiction | auto |].
  destruct Hy; auto.
Qed.

Lemma subseq_refl {A} (l : list A) : subseq l l.
Proof. induction l; constructor; assumption. Qed.

Lemma insert_desc_perm {A} (key : A -> Z) (x : A) (l : list A) :
  Permutation (x :: l) (insert_desc key x l).
Proof.
  induction l as [| y r IH]; simpl; [reflexivity|].
  destruct (key y <? key x)%Z; [reflexivity|].
  rewrite perm_swap. constructor. exact IH.
Qed.

Lemma sort_desc_perm_acc {A} (key : A -> Z) (l acc : list A) :
  Permutation (l ++ acc) (fold_left (fun acc x => insert_desc key x acc) l acc).
Proof.
  revert acc. induction l as [| x r IH]; intros acc; simpl; [reflexivity|].
  rewrite <- IH, <- insert_desc_perm.
  apply Permutation_middle.
Qed.

Lemma sort_desc_perm {A} (key : A -> Z) (l : list A) : Permutation l (sort_desc key l).
Proof. unfold sort_desc. rewrite <- sort_desc_perm_acc, app_nil_r. reflexivity. Qed.

Definition key_ge {A} (key : A -> Z) (a b : A) : Prop := (key b <= key a)%Z.

Lemma insert_desc_hd {A} (key : A -> Z) (x y : A) (l : list A) :
  HdRel (key_ge key) y l -> key_ge key y x -> HdRel (key_ge key) y (insert_desc key x l).
Proof.
  intros Hh Hyx. destruct l as [| z r]; simpl; [constructor; exact Hyx|].
  destruct (key z <? key x)%Z; constructor; [exact Hyx|].
  inversion Hh; assumption.
Qed.

Lemma insert_desc_sorted {A} (key : A -> Z) (x : A) (l : list A) :
  Sorted (key_ge key) l -> Sorted (key_ge key) (insert_desc key x l).
Proof.
  induction l as [| y r IH]; intros Hs; simpl; [repeat constructor|].
  destruct (key y <? key x)%Z eqn:E.
  - constructor; [exact Hs|]. constructor. unfold key_ge. apply Z.ltb_lt in E. lia.
  - apply Sorted_inv in Hs as [Hr Hh]. constructor; [apply IH; exact Hr|].
    apply insert_desc_hd; [exact Hh|]. unfold key_ge. apply Z.ltb_ge in E. lia.
Qed.

Lemma sort_desc_sorted {A} (key : A -> Z) (l : list A) :
  StronglySorted (key_ge key) (sort_desc key l).
Proof.
  apply Sorted_StronglySorted; [unfold key_ge; intros a b c; lia|].
  unfold sort_desc.
  assert (H : forall acc, Sorted (key_ge key) acc ->
            Sorted (key_ge key) (fold_left (fun acc x => insert_desc key x acc) l acc)).
  { induction l as [| x r IH]; intros acc Hacc; simpl; [exact Hacc|].
    apply IH. apply insert_desc_sorted. exact Hacc. }
  apply H. constructor.
Qed.

Lemma StronglySorted_app_rel {A} (R : A -> A -> Prop) (l1 l2 : list A) :
  StronglySorted R (l1 ++ l2) -> forall a b, In a l1 -> In b l2 -> R a b.
Proof.
  induction l1 as [| x r IH]; intros H a b Ha Hb; [destruct Ha|].
  simpl in H. apply StronglySorted_inv in H as [H Hx].
  destruct Ha as [<-|Ha].
  - rewrite Forall_forall in Hx. apply Hx, in_or_app. right. exact Hb.
  - exact (IH H a b Ha Hb).
Qed.

Lemma StronglySorted_app_l {A} (R : A -> A -> Prop) (l1 l2 : list A) :
  StronglySorted R (l1 ++ l2) -> StronglySorted R l1.
Proof.
  induction l1 as [| x r IH]; intros H; [constructor|].
  simpl in H. apply StronglySorted_inv in H as [H Hx]. constructor; [exact (IH H)|].
  rewrite Forall_forall in *. intros y Hy. apply Hx, in_or_app. left. exact Hy.
Qed.

Lemma StronglySorted_map {A B} (R : B -> B -> Prop) (f : A -> B) (l : list A) :
  StronglySorted (fun a b => R (f a) (f b)) l -> StronglySorted R (map f l).
Proof.
  induction l as [| x r IH]; intros H; simpl; [constructor|].
  apply StronglySorted_inv in H as [H Hx]. constructor; [exact (IH H)|].
  apply Forall_map. exact Hx.
Qed.

Lemma StronglySorted_weaken {A} (R S : A -> A -> Prop) (l : list A) :
  (forall a b, R a b -> S a b) -> StronglySorted R l -> StronglySorted S l.
Proof.
  intros HRS. induction l as [| x r IH]; intros H; [constructor|].
  apply StronglySorted_inv in H as [H Hx]. constructor; [exact (IH H)|].
  eapply Forall_impl; [| exact Hx]. auto.
Qed.

(** [l[:n] + l[n:] == l]. *)
Lemma py_slice_to_from {A} (n : Z) (l : list A) : py_slice_to n l ++ py_slice_from n l = l.
Proof. unfold py_slice_to, py_slice_from. destruct (0 <=? n)%Z; apply firstn_skipn. Qed.

Lemma py_slice_to_length {A} (n : Z) (l : list A) :
  length (py_slice_to n l) =
  if (0 <=? n)%Z then Nat.min (Z.to_nat n) (length l) else length l - Z.to_nat (- n).
Proof.
  unfold py_slice_to. destruct (0 <=? n)%Z; rewrite length_firstn; lia.
Qed.

(** The list [sort_desc] returns, split at [n] as [get_top_users] does. *)
Lemma top_users_split (users : list (PyVal * UserStat)) (top_n : Z) :
  let s := sort_desc (fun u => Z.of_nat (thread_count (snd u))) users in
  StronglySorted (key_ge (fun u => Z.of_nat (thread_count (snd u)))) s /\
  Permutation users s /\
  get_top_users users top_n = map top_user_entry (py_slice_to top_n s).
Proof.
  split; [apply sort_desc_sorted|]. split; [apply sort_desc_perm | reflexivity].
Qed.

(** X1: [get_top_users] lists users by decreasing [thread_count], and keeps
    [min(top_n, len(users))] of them (for a negative [top_n], all but the
    last [-top_n]). *)
Theorem get_top_users_ordered (users : list (PyVal * UserStat)) (top_n : Z) :
  StronglySorted (fun a b => tu_thread_count b <= tu_thread_count a)
    (get_top_users users top_n) /\
  length (get_top_users users top_n) =
  (if (0 <=? top_n)%Z then Nat.min (Z.to_nat top_n) (length users)
   else length users - Z.to_nat (- top_n)).
Proof.
  destruct (top_users_split users top_n) as [Hs [Hp ->]]. split.
  - apply StronglySorted_map. rewrite <- (py_slice_to_from top_n) in Hs.
    apply StronglySorted_app_l in Hs.
    eapply StronglySorted_weaken; [| exact Hs]. intros a b H. unfold key_ge in H.
    simpl. lia.
  - rewrite length_map, py_slice_to_length, <- (Permutation_length Hp). reflexivity.
Qed.

(** X2: a user of [users] that [get_top_users] leaves out has no more threads
    than any user it lists. *)
Theorem get_top_users_keeps_largest (users : list (PyVal * UserStat)) (top_n : Z)
    (u : PyVal * UserStat) :
  In u users ->
  In (top_user_entry u) (get_top_users users top_n) \/
  Forall (fun t => thread_count (snd u) <= tu_thread_count t) (get_top_users users top_n).
Proof.
  intros Hu. destruct (top_users_split users top_n) as [Hs [Hp ->]].
  set (s := sort_desc _ users) in *.
  assert (Hin : In u s) by (eapply Permutation_in; eauto).
  rewrite <- (py_slice_to_from top_n s) in Hin, Hs. apply in_app_or in Hin as [Hin|Hin].
  - left. apply in_map. exact Hin.
  - right. apply Forall_map, Forall_forall. intros t Ht.
    pose proof (StronglySorted_app_rel _ _ _ Hs t u Ht Hin) as H. unfold key_ge in H.
    simpl. lia.
Qed.

Lemma max_by_count_split (r : list (string * nat)) :
  forall best seen_pre seen_post,
  Forall (fun kv => snd kv < snd best) seen_pre ->
  Forall (fun kv => snd kv <= snd best) seen_post ->
  let b := fold_left (fun best x => if snd best <? snd x then x else best) r best in
  exists pre post,
    seen_pre ++ best :: seen_post ++ r = pre ++ b :: post /\
    Forall (fun kv => snd kv < snd b) pre /\ Forall (fun kv => snd kv <= snd b) post.
Proof.
  induction r as [| x r IH]; intros best seen_pre seen_post Hpre Hpost; simpl.
  - exists seen_pre, seen_post. rewrite app_nil_r. auto.
  - destruct (snd best <? snd x) eqn:E.
    + apply Nat.ltb_lt in E.
      destruct (IH x (seen_pre ++ best :: seen_post) [])
        as [pre [post [Heq [H1 H2]]]]; [| constructor |].
      * apply Forall_app. split.
        -- eapply Forall_impl; [| exact Hpre]. simpl. intros kv H. lia.
        -- constructor; [exact E|]. eapply Forall_impl; [| exact Hpost].
           simpl. intros kv H. lia.
      * exists pre, post. split; [| auto]. rewrite <- Heq.
        rewrite <- app_assoc. reflexivity.
    + apply Nat.ltb_ge in E.
      destruct (IH best seen_pre (seen_post ++ [x]))
        as [pre [post [Heq [H1 H2]]]]; [exact Hpre | |].
      * apply Forall_app. split; [exact Hpost|]. constructor; [exact E | constructor].
      * exists pre, post. split; [| auto]. rewrite <- Heq.
        rewrite <- app_assoc. reflexivity.
Qed.

(** X3: the peak day of [generate_report] is [('', 0)] when there is no day,
    and otherwise the first day with the largest thread count. *)
Theorem peak_of_first_maximum (threads_by_date : list (string * nat)) :
  (threads_by_date = [] -> peak_of threads_by_date = (""%string, 0)) /\
  (threads_by_date <> [] ->
   exists pre post,
     threads_by_date = pre ++ peak_of threads_by_date :: post /\
     Forall (fun kv => snd kv < snd (peak_of threads_by_date)) pre /\
     Forall (fun kv => snd kv <= snd (peak_of threads_by_date)) post).
Proof.
  split; [intros ->; reflexivity|].
  destruct threads_by_date as [| x r]; [intros H; contradiction|]. intros _.
  exact (max_by_count_split r x [] [] (Forall_nil _) (Forall_nil _)).
Qed.

Lemma py_slice_from_all {A} (n : Z) (l : list A) :
  (Z.of_nat (length l) <= n)%Z -> py_slice_from n l = [].
Proof.
  intros H. unfold py_slice_from. destruct (0 <=? n)%Z eqn:E; [| apply Z.leb_gt in E; lia].
  apply skipn_all2. lia.
Qed.

(** X4: [cleanup_output_files] on an existing [base_dir] splits the dated
    directories into the [keep_latest] newest, whose names are reported as
    remaining, and the others, passed to [shutil.rmtree]; no removed
    directory is newer than a kept one. *)
Theorem cleanup_removes_only_oldest (isdir : string -> bool)
    (strptime_day : string -> option Z) (rmtree_ok : string -> bool)
    (keep_latest : Z) (base_dir : string) (listing : list string) (o : CleanupOutcome) :
  cleanup_output_files isdir strptime_day rmtree_ok keep_latest true base_dir listing = Some o ->
  let date_dirs := date_dirs_of isdir strptime_day base_dir listing in
  exists kept removed,
    Permutation date_dirs (kept ++ removed) /\
    remaining o = map (fun d => basename (snd d)) kept /\ rmtree_called o = map snd removed /\
    (forall d k, In d removed -> In k kept -> (fst d <= fst k)%Z) /\
    length kept =
    (if (0 <=? keep_latest)%Z then Nat.min (Z.to_nat keep_latest) (length date_dirs)
     else length date_dirs - Z.to_nat (- keep_latest)).
Proof.
  intros H date_dirs. unfold cleanup_output_files, negb in H.
  inversion H; subst o; clear H. fold date_dirs.
  set (s := sort_desc _ date_dirs).
  pose proof (sort_desc_perm (fun x : Z * string => fst x) date_dirs) as Hp.
  pose proof (sort_desc_sorted (fun x : Z * string => fst x) date_dirs) as Hs.
  fold s in Hp, Hs.
  exists (py_slice_to keep_latest s),
         (if (keep_latest <? Z.of_nat (length s))%Z then py_slice_from keep_latest s else []).
  simpl. split; [| split; [reflexivity | split; [reflexivity | split]]].
  - rewrite Hp. destruct (keep_latest <? Z.of_nat (length s))%Z eqn:E.
    + rewrite py_slice_to_from. reflexivity.
    + apply Z.ltb_ge in E. rewrite <- (py_slice_to_from keep_latest s) at 1.
      rewrite (py_slice_from_all _ _ E). reflexivity.
  - intros d k Hd Hk. destruct (keep_latest <? Z.of_nat (length s))%Z; [|destruct Hd].
    rewrite <- (py_slice_to_from keep_latest s) in Hs.
    exact (StronglySorted_app_rel _ _ _ Hs k d Hk Hd).
  - rewrite py_slice_to_length, (Permutation_length Hp). reflexivity.
Qed.

Definition cleanup_listing : list string :=
  ["2024-01-03"; "2024-01-01"; "notes.txt"; "2024-01-02"]%string.

Definition listing_day (s : string) : option Z :=
  match s with
  | String _ (String _ (String _ (String _ (String _ (String _ (String _ (String _ (String _ (String d EmptyString))))))))) =>
      Some (Z.of_nat (nat_of_ascii d) - 48)%Z
  | _ => None
  end.

Lemma cleanup_removes_only_oldest_witness :
  exists o,
    cleanup_output_files (fun _ => true) listing_day (fun _ => true) 2 true "reports"
      cleanup_listing = Some o /\
    rmtree_called o = ["reports/2024-01-01"]%string /\
    remaining o = ["2024-01-03"; "2024-01-02"]%string /\
    (let date_dirs := date_dirs_of (fun _ => true) listing_day "reports" cleanup_listing in
     exists kept removed,
       Permutation date_dirs (kept ++ removed) /\
       remaining o = map (fun d => basename (snd d)) kept /\ rmtree_called o = map snd removed /\
       (forall d k, In d removed -> In k kept -> (fst d <= fst k)%Z) /\
       length kept =
       (if (0 <=? 2)%Z then Nat.min (Z.to_nat 2) (length date_dirs)
        else length date_dirs - Z.to_nat (- 2))).
Proof.
  eexists. split; [reflexivity|]. split; [reflexivity|]. split; [reflexivity|].
  apply (cleanup_removes_only_oldest (fun _ => true) listing_day (fun _ => true) 2
           "reports" cleanup_listing). reflexivity.
Defined.

(** ** Deduplication in the conversations browser *)

Lemma existsb_eqb_false (k : string) (l : list string) :
  existsb (String.eqb k) l = false -> ~ In k l.
Proof.
  intros H Hin. assert (existsb (String.eqb k) l = true) as H'
    by (apply existsb_exists; exists k; split; [exact Hin | apply String.eqb_refl]).
  congruence.
Qed.

Lemma existsb_eqb_true (k : string) (l : list string) :
  existsb (String.eqb k) l = true -> In k l.
Proof.
  intros H. apply existsb_exists in H as [x [Hx E]]. apply String.eqb_eq in E. subst. exact Hx.
Qed.

Lemma Forall2_in_r {A B} (R : A -> B -> Prop) (l1 : list A) (l2 : list B) (y : B) :
  Forall2 R l1 l2 -> In y l2 -> exists x, In x l1 /\ R x y.
Proof.
  induction 1 as [| a b r1 r2 Hab Hr IH]; intros Hy; [destruct Hy|].
  destruct Hy as [<-|Hy]; [exists a; simpl; auto|].
  destruct (IH Hy) as [x [Hx Rx]]. exists x. simpl. auto.
Qed.

Section DedupProofs.
Variable dict_slice_error : exn.

Lemma dedup_fold (l : list Message) : forall seen acc seen' acc',
  fold_m (StreamlitApp.dedup_step dict_slice_error) l (seen, acc) = Ok (seen', acc') ->
  exists new newk,
    acc' = acc ++ new /\ seen' = seen ++ newk /\ subseq new l /\
    Forall2 (fun m k => StreamlitApp.message_key dict_slice_error m = Ok k) new newk /\
    NoDup newk /\ Forall (fun k => ~ In k seen) newk /\
    Forall (fun m => strip (m_content m) <> EmptyString) new /\
    (forall m, In m l -> strip (m_content m) <> EmptyString ->
       exists k, StreamlitApp.message_key dict_slice_error m = Ok k /\ In k (seen ++ newk)).
Proof.
  induction l as [| m l IH]; intros seen acc seen' acc' H; cbn [fold_m bind] in H.
  - inversion H; subst. exists [], []. rewrite !app_nil_r.
    repeat split; try constructor. intros m [].
  - unfold StreamlitApp.dedup_step at 1 in H.
    destruct (String.eqb (strip (m_content m)) EmptyString) eqn:Eb; cbn [fold_m bind] in H.
    + destruct (IH _ _ _ _ H) as [new [newk [H1 [H2 [H3 [H4 [H5 [H6 [H7 H8]]]]]]]]].
      exists new, newk. repeat split; try assumption.
      * apply subseq_skip. exact H3.
      * intros m' [<-|Hm'] Hne; [apply String.eqb_eq in Eb; contradiction|].
        exact (H8 m' Hm' Hne).
    + apply String.eqb_neq in Eb.
      destruct (StreamlitApp.message_key dict_slice_error m) as [k|e] eqn:Ek;
        cbn [fold_m bind] in H; [|discriminate].
      destruct (existsb (String.eqb k) seen) eqn:Es; cbn [fold_m bind] in H.
      * destruct (IH _ _ _ _ H) as [new [newk [H1 [H2 [H3 [H4 [H5 [H6 [H7 H8]]]]]]]]].
        exists new, newk. repeat split; try assumption.
        -- apply subseq_skip. exact H3.
        -- intros m' [<-|Hm'] Hne; [|exact (H8 m' Hm' Hne)].
           exists k. split; [exact Ek|]. apply in_or_app. left.
           apply existsb_eqb_true. exact Es.
      * apply existsb_eqb_false in Es.
        destruct (IH _ _ _ _ H) as [new [newk [H1 [H2 [H3 [H4 [H5 [H6 [H7 H8]]]]]]]]].
        exists (m :: new), (k :: newk).
        rewrite Forall_forall in H6.
        repeat split.
        -- rewrite H1, <- app_assoc. reflexivity.
        -- rewrite H2, <- app_assoc. reflexivity.
        -- apply subseq_take. exact H3.
        -- constructor; assumption.
        -- constructor; [| exact H5]. intros Hk. apply (H6 k Hk). apply in_or_app.
           right. left. reflexivity.
        -- constructor; [exact Es|]. apply Forall_forall. intros k' Hk' Hin.
           apply (H6 k' Hk'). apply in_or_app. left. exact Hin.
        -- constructor; assumption.
        -- intros m' [<-|Hm'] Hne.
           ++ exists k. split; [exact Ek|]. apply in_or_app. right. left. reflexivity.
           ++ destruct (H8 m' Hm' Hne) as [k' [Ek' Hk']]. exists k'. split; [exact Ek'|].
              rewrite <- app_assoc in Hk'. exact Hk'.
Qed.

Lemma dedup_fold_distinct (l : list Message) : forall seen acc keys,
  Forall2 (fun m k => StreamlitApp.message_key dict_slice_error m = Ok k) l keys ->
  NoDup keys -> Forall (fun k => ~ In k seen) keys ->
  Forall (fun m => strip (m_content m) <> EmptyString) l ->
  fold_m (StreamlitApp.dedup_step dict_slice_error) l (seen, acc) = Ok (seen ++ keys, acc ++ l).
Proof.
  induction l as [| m l IH]; intros seen acc keys Hk Hd Hs Hb.
  - inversion Hk; subst. simpl. rewrite !app_nil_r. reflexivity.
  - inversion Hk as [| m' k l' keys' Ek Hk']; subst.
    inversion Hd as [| k' keys'' Hnin Hd']; subst.
    inversion Hs as [| k' keys'' Hks Hs']; subst.
    inversion Hb as [| m' l' Hbm Hb']; subst.
    simpl. unfold StreamlitApp.dedup_step at 1.
    apply String.eqb_neq in Hbm. rewrite Hbm. simpl. rewrite Ek. simpl.
    destruct (existsb (String.eqb k) seen) eqn:Es;
      [apply existsb_eqb_true in Es; contradiction|].
    simpl. rewrite IH with (keys := keys').
    + rewrite <- !app_assoc. reflexivity.
    + exact Hk'.
    + exact Hd'.
    + apply Forall_forall. intros k'' Hk'' Hin. apply in_app_or in Hin as [Hin|[<-|[]]].
      * rewrite Forall_forall in Hs'. exact (Hs' k'' Hk'' Hin).
      * exact (Hnin Hk'').
    + exact Hb'.
Qed.

End DedupProofs.

(** X5: the messages [display_conversations_browser] shows are a subsequence
    of the conversation, none of them blank, with pairwise distinct
    deduplication keys. *)
Theorem unique_messages_distinct_keys (dict_slice_error : exn) (conversation shown : list Message) :
  StreamlitApp.unique_messages dict_slice_error conversation = Ok shown ->
  subseq shown conversation /\
  Forall (fun m => strip (m_content m) <> EmptyString) shown /\
  exists keys,
    Forall2 (fun m k => StreamlitApp.message_key dict_slice_error m = Ok k) shown keys /\
    NoDup keys.
Proof.
  unfold StreamlitApp.unique_messages. intros H.
  destruct (fold_m _ conversation ([], [])) as [[seen acc]|e] eqn:E; simpl in H; [|discriminate].
  inversion H; subst shown; clear H.
  destruct (dedup_fold dict_slice_error conversation [] [] seen acc E)
    as [new [newk [-> [_ [H3 [H4 [H5 [_ [H7 _]]]]]]]]].
  simpl. split; [exact H3|]. split; [exact H7|]. exists newk. auto.
Qed.

(** X6: every non-blank message of the conversation has a shown message with
    the same deduplication key. *)
Theorem unique_messages_covers_conversation (dict_slice_error : exn)
    (conversation shown : list Message) (m : Message) :
  StreamlitApp.unique_messages dict_slice_error conversation = Ok shown ->
  In m conversation -> strip (m_content m) <> EmptyString ->
  exists m' k,
    In m' shown /\ StreamlitApp.message_key dict_slice_error m = Ok k /\
    StreamlitApp.message_key dict_slice_error m' = Ok k.
Proof.
  unfold StreamlitApp.unique_messages. intros H Hm Hne.
  destruct (fold_m _ conversation ([], [])) as [[seen acc]|e] eqn:E; simpl in H; [|discriminate].
  inversion H; subst shown; clear H.
  destruct (dedup_fold dict_slice_error conversation [] [] seen acc E)
    as [new [newk [-> [_ [_ [H4 [_ [_ [_ H8]]]]]]]]].
  destruct (H8 m Hm Hne) as [k [Ek Hk]]. simpl in Hk.
  destruct (Forall2_in_r _ _ _ k H4 Hk) as [m' [Hm' Em']].
  exists m', k. auto.
Qed.

(** X7: deduplicating the shown messages once more shows them all again. *)
Theorem unique_messages_idempotent (dict_slice_error : exn) (conversation shown : list Message) :
  StreamlitApp.unique_messages dict_slice_error conversation = Ok shown ->
  StreamlitApp.unique_messages dict_slice_error shown = Ok shown.
Proof.
  unfold StreamlitApp.unique_messages. intros H.
  destruct (fold_m _ conversation ([], [])) as [[seen acc]|e] eqn:E; simpl in H; [|discriminate].
  inversion H; subst shown; clear H.
  destruct (dedup_fold dict_slice_error conversation [] [] seen acc E)
    as [new [newk [-> [_ [_ [H4 [H5 [_ [H7 _]]]]]]]]].
  simpl. rewrite (dedup_fold_distinct dict_slice_error new [] [] newk H4 H5); try assumption.
  - reflexivity.
  - apply Forall_forall. intros k _ [].
Qed.

(** ** Strings: [strip] *)

Lemma str_app_assoc (a b c : string) : ((a ++ b) ++ c)%string = (a ++ (b ++ c))%string.
Proof. induction a; simpl; congruence. Qed.

Lemma str_app_nil_r (a : string) : (a ++ EmptyString)%string = a.
Proof. induction a; simpl; congruence. Qed.

Lemma rev_str_acc (s acc : string) : rev_str s acc = (rev_str s EmptyString ++ acc)%string.
Proof.
  revert acc. induction s as [| c r IH]; intros acc; simpl; [reflexivity|].
  rewrite (IH (String c acc)), (IH (String c EmptyString)), str_app_assoc. reflexivity.
Qed.

Lemma rev_str_app (x y acc : string) : rev_str (x ++ y) acc = rev_str y (rev_str x acc).
Proof. revert acc. induction x as [| c r IH]; intros acc; simpl; auto. Qed.

Lemma rev_str_rev_str (s acc : string) :
  rev_str (rev_str s acc) EmptyString = (rev_str acc EmptyString ++ s)%string.
Proof.
  revert acc. induction s as [| c r IH]; intros acc; simpl.
  - rewrite str_app_nil_r. reflexivity.
  - rewrite IH. simpl. rewrite (rev_str_acc acc (String c EmptyString)), str_app_assoc.
    reflexivity.
Qed.

Lemma lstrip_idem (s : string) : lstrip (lstrip s) = lstrip s.
Proof.
  induction s as [| c r IH]; simpl; [reflexivity|].
  destruct (is_space c) eqn:E; [exact IH|]. simpl. rewrite E. reflexivity.
Qed.

Lemma lstrip_app_nonspace (x y : string) (c : ascii) :
  is_space c = false -> lstrip (x ++ String c y) = (lstrip x ++ String c y)%string.
Proof.
  intros Hc. induction x as [| a r IH]; simpl; [rewrite Hc; reflexivity|].
  destruct (is_space a); [exact IH | reflexivity].
Qed.

Lemma rstrip_cons_nonspace (c : ascii) (r : string) :
  is_space c = false -> rstrip (String c r) = String c (rstrip r).
Proof.
  intros Hc. unfold rstrip. simpl.
  rewrite (rev_str_acc r (String c EmptyString)), lstrip_app_nonspace by exact Hc.
  rewrite rev_str_app. reflexivity.
Qed.

Lemma rstrip_idem (s : string) : rstrip (rstrip s) = rstrip s.
Proof.
  unfold rstrip. rewrite rev_str_rev_str. simpl. rewrite lstrip_idem. reflexivity.
Qed.

Lemma lstrip_shape (s : string) :
  lstrip s = EmptyString \/ exists c r, lstrip s = String c r /\ is_space c = false.
Proof.
  induction s as [| c r IH]; simpl; [left; reflexivity|].
  destruct (is_space c) eqn:E; [exact IH|]. right. exists c, r. auto.
Qed.

(** [s.strip().strip() == s.strip()]. *)
Lemma strip_idem (s : string) : strip (strip s) = strip s.
Proof.
  unfold strip. destruct (lstrip_shape s) as [-> | [c [r [-> Hc]]]]; [reflexivity|].
  rewrite (rstrip_cons_nonspace c r Hc). simpl. rewrite Hc.
  rewrite <- (rstrip_cons_nonspace c r Hc). apply rstrip_idem.
Qed.

(** ** Messages of a conversation *)

Definition well_formed_message (m : Message) : Prop :=
  (m_role m = "User"%string \/ m_role m = "AI"%string) /\
  m_content m <> EmptyString /\ strip (m_content m) = m_content m.

Lemma process_message_well_formed (msg ts : PyVal) (m : Message) :
  _process_message msg ts = Some m -> well_formed_message m.
Proof.
  unfold _process_message. destruct msg as [| | | | | d]; try discriminate.
  set (c := match _ with VList _ => _ | _ => _ end).
  destruct (negb (truthy c) || String.eqb (strip (py_str c)) EmptyString
            || negb (list_mem _ valid_types)) eqn:E; [discriminate|].
  intros H. inversion H; subst m; clear H.
  apply orb_false_iff in E as [E _]. apply orb_false_iff in E as [_ E].
  apply String.eqb_neq in E.
  unfold well_formed_message. simpl. split; [|split; [exact E | apply strip_idem]].
  match goal with |- context [if ?b then _ else _] => destruct b end;
    [left|right]; reflexivity.
Qed.

Lemma insert_by_timestamp_perm (m : Message) (l r : list Message) :
  insert_by_timestamp m l = Ok r -> Permutation (m :: l) r.
Proof.
  revert r. induction l as [| x xs IH]; intros r H; simpl in H.
  - inversion H; subst. reflexivity.
  - destruct (py_lt (m_timestamp m) (m_timestamp x)) as [lt|e]; simpl in H; [|discriminate].
    destruct lt.
    + inversion H; subst. reflexivity.
    + destruct (insert_by_timestamp m xs) as [r'|e] eqn:E; simpl in H; [|discriminate].
      inversion H; subst r. rewrite perm_swap. constructor. apply IH. reflexivity.
Qed.

Lemma sort_by_timestamp_perm (l r : list Message) :
  sort_by_timestamp l = Ok r -> Permutation l r.
Proof.
  unfold sort_by_timestamp.
  assert (G : forall acc r, fold_m (fun acc m => insert_by_timestamp m acc) l acc = Ok r ->
              Permutation (l ++ acc) r).
  { induction l as [| m l IH]; intros acc r' H; simpl in H.
    - inversion H; subst. reflexivity.
    - destruct (insert_by_timestamp m acc) as [acc'|e] eqn:E; simpl in H; [|discriminate].
      rewrite <- (IH acc' r' H). simpl. transitivity (l ++ m :: acc).
      + apply Permutation_middle.
      + apply Permutation_app_head. exact (insert_by_timestamp_perm m acc acc' E). }
  intros H. rewrite <- (app_nil_r l). exact (G [] r H).
Qed.

Lemma item_messages_well_formed (d : list (string * PyVal)) :
  Forall well_formed_message (item_messages d).
Proof.
  apply Forall_forall. intros m Hm. unfold item_messages in Hm.
  apply in_flat_map in Hm as [v [_ Hm]]. destruct v; try destruct Hm.
  unfold collect_messages in Hm. apply in_flat_map in Hm as [msg [_ Hm]].
  destruct (_process_message msg _) eqn:E; [|destruct Hm].
  destruct Hm as [<-|[]]. eapply process_message_well_formed. exact E.
Qed.

Lemma extract_well_formed (history_data : list PyVal) (conv : list Message) :
  extract_conversation_from_history history_data = Ok conv ->
  Forall well_formed_message conv.
Proof.
  unfold extract_conversation_from_history. destruct history_data as [| item rest].
  - intros H. inversion H; subst. constructor.
  - unfold conversation_loop. destruct item; intros H; try (inversion H; subst; constructor).
    apply sort_by_timestamp_perm in H. eapply Permutation_Forall; [exact H|].
    apply item_messages_well_formed.
Qed.

(** X8: every message of [extract_conversation_from_history] has role User or
    AI and a non-empty content that is already stripped. *)
Theorem extract_messages_well_formed (history_data : list PyVal) (conv : list Message) :
  extract_conversation_from_history history_data = Ok conv ->
  Forall (fun m => (m_role m = "User"%string \/ m_role m = "AI"%string) /\
                   m_content m <> EmptyString /\ strip (m_content m) = m_content m) conv.
Proof. apply extract_well_formed. Qed.

Lemma count_role_user_ai (conv : list Message) :
  Forall well_formed_message conv ->
  count_role "User" conv + count_role "AI" conv = length conv.
Proof.
  induction conv as [| m r IH]; intros H; [reflexivity|].
  inversion H as [| m' r' [[Hr|Hr] _] Hrest]; subst. 
  - unfold count_role in *. simpl. rewrite Hr. simpl. rewrite <- (IH Hrest). reflexivity.
  - unfold count_role in *. simpl. rewrite Hr. simpl. rewrite <- (IH Hrest). lia.
Qed.

(** X9: the user and AI message counts of [_get_thread_conversation_data] add
    up to its total message count. *)
Theorem thread_conversation_data_split (get_thread_history : PyVal -> list PyVal)
    (thread_id : PyVal) (c : ConvData) :
  _get_thread_conversation_data get_thread_history thread_id = Ok c ->
  cd_user_messages c + cd_ai_messages c = cd_total_messages c.
Proof.
  unfold _get_thread_conversation_data. intros H. apply bind_ok in H as [conv [Hc H]].
  inversion H; subst c. simpl. apply count_role_user_ai. eapply extract_well_formed. exact Hc.
Qed.

(** ** Users and report *)

Lemma count_role_le (r : string) (conv : list Message) : count_role r conv <= length conv.
Proof. unfold count_role. induction conv as [| m c IH]; simpl; [lia|]. destruct (_ =? _)%string; simpl; lia. Qed.

Lemma assoc_set_Forall_snd {A} (Q : A -> Prop) (k : PyVal) (v : A) (d : list (PyVal * A)) :
  Forall (fun p => Q (snd p)) d -> Q v -> Forall (fun p => Q (snd p)) (assoc_set k v d).
Proof.
  induction d as [| [k' v'] r IH]; intros Hd Hv; simpl; [constructor; auto|].
  inversion Hd; subst. destruct (py_eq k k'); constructor; auto.
Qed.

Lemma assoc_lookup_Forall_snd {A} (Q : A -> Prop) (k : PyVal) (v : A) (d : list (PyVal * A)) :
  Forall (fun p => Q (snd p)) d -> assoc_lookup k d = Some v -> Q v.
Proof.
  induction d as [| [k' v'] r IH]; intros Hd H; simpl in H; [discriminate|].
  inversion Hd; subst. destruct (py_eq k k'); [inversion H; subst; auto | auto].
Qed.

Definition conv_ok (c : ConvData) : Prop := cd_user_messages c <= cd_total_messages c.

Lemma analyze_user_thread_conv_ok (h : PyVal -> list PyVal) (s s' : UsersState) (t : PyVal) :
  Forall (fun p => conv_ok (snd p)) (thread_conversations s) ->
  analyze_user_thread h s t = Ok s' ->
  Forall (fun p => conv_ok (snd p)) (thread_conversations s').
Proof.
  intros Hs H. unfold analyze_user_thread in H.
  apply bind_ok in H as [md [_ H]]. apply bind_ok in H as [uid [_ H]].
  apply bind_ok in H as [tid [_ H]].
  destruct (negb (truthy uid) || negb (truthy tid)); [inversion H; subst; exact Hs|].
  destruct (negb (hashable uid)); [discriminate|].
  apply bind_ok in H as [ud [_ H]]. apply bind_ok in H as [cd [Hcd H]].
  destruct (negb (hashable tid)); [discriminate|]. inversion H; subst s'. simpl.
  apply assoc_set_Forall_snd; [exact Hs|].
  unfold _get_thread_conversation_data in Hcd. apply bind_ok in Hcd as [conv [_ Hcd]].
  inversion Hcd; subst cd. unfold conv_ok. simpl. apply count_role_le.
Qed.

Lemma analyze_users_fold_conv_ok (h : PyVal -> list PyVal) (threads : list PyVal) :
  forall s s', Forall (fun p => conv_ok (snd p)) (thread_conversations s) ->
  fold_m (analyze_user_thread h) threads s = Ok s' ->
  Forall (fun p => conv_ok (snd p)) (thread_conversations s').
Proof.
  induction threads as [| t r IH]; intros s s' Hs H; simpl in H.
  - inversion H; subst; exact Hs.
  - apply bind_ok in H as [s1 [H1 H2]].
    exact (IH s1 s' (analyze_user_thread_conv_ok h s s1 t Hs H1) H2).
Qed.

Lemma sum_nat_map_le {A} (f g : A -> nat) (l : list A) :
  (forall x, In x l -> f x <= g x) -> sum_nat (map f l) <= sum_nat (map g l).
Proof.
  induction l as [| x r IH]; intros H; simpl; [lia|].
  pose proof (H x (or_introl eq_refl)). pose proof (IH (fun y Hy => H y (or_intror Hy))). lia.
Qed.

(** X10: the number of user messages in the report of [generate_report] never
    exceeds its number of messages. *)
Theorem report_user_messages_le_total (get_thread_history : PyVal -> list PyVal)
    (iso_day : string -> option string) (threads : list PyVal)
    (include_tool_analysis : bool) (r : Report) :
  generate_report get_thread_history iso_day threads include_tool_analysis = Ok r ->
  summary_user_messages r <= summary_total_messages r.
Proof.
  intros H. unfold generate_report in H.
  apply bind_ok in H as [tbd [_ H]]. apply bind_ok in H as [us [Hus H]].
  apply bind_ok in H as [tc [_ H]]. inversion H; subst r; clear H. simpl.
  unfold analyze_users_comprehensive in Hus. apply bind_ok in Hus as [s [Hs Hus]].
  inversion Hus; subst us; clear Hus.
  pose proof (analyze_users_fold_conv_ok get_thread_history threads empty_users_state s (Forall_nil _) Hs)
    as Hok.
  unfold _build_user_statistics. simpl. rewrite !map_map. simpl.
  apply sum_nat_map_le. intros [uid tids] _. simpl.
  apply sum_nat_map_le. intros tid _. unfold conv_user, conv_total.
  destruct (assoc_lookup tid (thread_conversations s)) as [c|] eqn:E; [|lia].
  exact (assoc_lookup_Forall_snd conv_ok tid c _ Hok E).
Qed.

Lemma assoc_set_keys {A} (k : PyVal) (v : A) (d : list (PyVal * A)) :
  map fst (assoc_set k v d) =
  if existsb (py_eq k) (map fst d) then map fst d else map fst d ++ [k].
Proof.
  induction d as [| [k' v'] r IH]; simpl; [reflexivity|].
  destruct (py_eq k k'); simpl; [reflexivity|]. rewrite IH.
  destruct (existsb (py_eq k) (map fst r)); reflexivity.
Qed.

Lemma assoc_lookup_none {A} (k : PyVal) (d : list (PyVal * A)) :
  assoc_lookup k d = None <-> existsb (py_eq k) (map fst d) = false.
Proof.
  induction d as [| [k' v'] r IH]; simpl; [tauto|].
  destruct (py_eq k k'); simpl; [split; discriminate | exact IH].
Qed.

Lemma append_at_keys (k x : PyVal) (d : list (PyVal * list PyVal)) :
  map fst (append_at k x d) =
  if existsb (py_eq k) (map fst d) then map fst d else map fst d ++ [k].
Proof.
  unfold append_at. destruct (assoc_lookup k d) as [l|] eqn:E.
  - rewrite assoc_set_keys. reflexivity.
  - apply assoc_lookup_none in E. rewrite E, map_app. reflexivity.
Qed.

Definition users_inv (s : UsersState) : Prop :=
  map fst (user_threads s) = total_users_set s /\
  distinct_ids (total_users_set s) /\ forallb hashable (total_users_set s) = true.

Lemma analyze_user_thread_users_inv (h : PyVal -> list PyVal) (s s' : UsersState) (t : PyVal) :
  users_inv s -> analyze_user_thread h s t = Ok s' -> users_inv s'.
Proof.
  intros [Hk [Hd Hh]] H. unfold analyze_user_thread in H.
  apply bind_ok in H as [md [_ H]]. apply bind_ok in H as [uid [_ H]].
  apply bind_ok in H as [tid [_ H]].
  destruct (negb (truthy uid) || negb (truthy tid)); [inversion H; subst; split; auto|].
  destruct (hashable uid) eqn:Hu; [|discriminate]. simpl in H.
  apply bind_ok in H as [ud [_ H]]. apply bind_ok in H as [cd [_ H]].
  destruct (negb (hashable tid)); [discriminate|]. inversion H; subst s'. clear H.
  unfold users_inv. simpl. rewrite append_at_keys, Hk. unfold set_add, list_mem.
  destruct (existsb (py_eq uid) (total_users_set s)) eqn:E; [split; auto|].
  split; [reflexivity|]. split.
  - apply distinct_ids_snoc; assumption.
  - rewrite forallb_app, Hh. simpl. rewrite Hu. reflexivity.
Qed.

(** X11: [total_users] of [analyze_users_comprehensive] is the number of
    entries of [threads_per_user], whose user ids are pairwise distinct. *)
Theorem users_counted_once (get_thread_history : PyVal -> list PyVal)
    (threads : list PyVal) (us : UserStats) :
  analyze_users_comprehensive get_thread_history threads = Ok us ->
  total_users us = length (threads_per_user us) /\
  distinct_ids (map fst (threads_per_user us)).
Proof.
  unfold analyze_users_comprehensive. intros H. apply bind_ok in H as [s [Hs H]].
  inversion H; subst us; clear H.
  assert (G : forall l s0 s1, users_inv s0 ->
            fold_m (analyze_user_thread get_thread_history) l s0 = Ok s1 -> users_inv s1).
  { induction l as [| t r IH]; intros s0 s1 H0 H1; simpl in H1.
    - inversion H1; subst; exact H0.
    - apply bind_ok in H1 as [s2 [H2 H3]].
      exact (IH s2 s1 (analyze_user_thread_users_inv _ _ _ _ H0 H2) H3). }
  destruct (G threads empty_users_state s ltac:(repeat split) Hs) as [Hk [Hd _]].
  unfold _build_user_statistics. simpl. rewrite length_map, map_map. simpl.
  replace (map (fun x : PyVal * list PyVal => fst x) (user_threads s)) with (total_users_set s)
    by (rewrite <- Hk; reflexivity).
  rewrite <- Hk at 1. rewrite length_map. split; [reflexivity | exact Hd].
Qed.

(** ** Tool-call totals *)

Definition totals_inv (t : ToolTotals) : Prop :=
  tt_total_tool_calls t = length (detailed_calls t) /\
  tt_create_lead t + tt_send_html_email t <= tt_total_tool_calls t /\
  threads_with_create_lead t <= tt_create_lead t /\
  threads_with_send_html_email t <= tt_send_html_email t /\
  threads_with_create_lead t <= threads_with_any_tool t /\
  threads_with_send_html_email t <= threads_with_any_tool t /\
  threads_with_any_tool t <= tt_total_tool_calls t.

Lemma analyze_thread_tools_inv (h : PyVal -> list PyVal) (t t' : ToolTotals) (thread : PyVal) :
  totals_inv t -> analyze_thread_tools h t thread = Ok t' ->
  totals_inv t' /\ threads_with_any_tool t' <= S (threads_with_any_tool t).
Proof.
  intros Ht H. unfold analyze_thread_tools in H.
  apply bind_ok in H as [tid [_ H]].
  destruct (negb (truthy tid)); [inversion H; subst; split; [exact Ht | lia]|].
  apply bind_ok in H as [st [Hst H]].
  destruct (negb (hashable tid)); [discriminate|]. inversion H; subst t'; clear H.
  destruct (analyze_tool_calling_stats_inv _ _ Hst) as [s [[H1 [H2 [H3 _]]] [-> _]]].
  pose proof (count_named_lead_mail (tool_calls_detail s)).
  destruct Ht as [T1 [T2 [T3 [T4 [T5 [T6 T7]]]]]].
  unfold totals_inv, to_stats. simpl. rewrite length_app, length_map.
  destruct (Nat.ltb_spec 0 (create_lead s)); destruct (Nat.ltb_spec 0 (send_html_email s));
  destruct (Nat.ltb_spec 0 (total_tool_calls s)); repeat split; lia.
Qed.

(** X12: the totals of [analyze_tool_calling_for_all_threads] are consistent:
    the total is the number of detailed calls, the two named counters add up
    to at most the total, each [threads_with_*] count is at most its call
    counter and at most [threads_with_any_tool], which is at most the total
    and the number of threads. *)
Theorem tool_totals_consistent (get_thread_history : PyVal -> list PyVal)
    (threads : list PyVal) (t : ToolTotals) :
  analyze_tool_calling_for_all_threads get_thread_history threads = Ok t ->
  tt_total_tool_calls t = length (detailed_calls t) /\
  tt_create_lead t + tt_send_html_email t <= tt_total_tool_calls t /\
  threads_with_create_lead t <= tt_create_lead t /\
  threads_with_send_html_email t <= tt_send_html_email t /\
  threads_with_create_lead t <= threads_with_any_tool t /\
  threads_with_send_html_email t <= threads_with_any_tool t /\
  threads_with_any_tool t <= Nat.min (tt_total_tool_calls t) (length threads).
Proof.
  unfold analyze_tool_calling_for_all_threads. intros H.
  assert (G : forall l t0 t1, totals_inv t0 ->
            fold_m (analyze_thread_tools get_thread_history) l t0 = Ok t1 ->
            totals_inv t1 /\ threads_with_any_tool t1 <= threads_with_any_tool t0 + length l).
  { induction l as [| x r IH]; intros t0 t1 H0 H1; simpl in H1.
    - inversion H1; subst. split; [exact H0 | simpl; lia].
    - apply bind_ok in H1 as [t2 [H2 H3]].
      destruct (analyze_thread_tools_inv _ _ _ _ H0 H2) as [I2 L2].
      destruct (IH t2 t1 I2 H3) as [I1 L1]. simpl. split; [exact I1 | lia]. }
  destruct (G threads empty_tool_totals t ltac:(unfold totals_inv; simpl; lia) H)
    as [[T1 [T2 [T3 [T4 [T5 [T6 T7]]]]]] L].
  simpl in L. repeat split; try assumption. lia.
Qed.

(** ** User metadata *)

Lemma dget_truthy_default (m : list (string * PyVal)) (k : string) :
  truthy (dget m k (VStr "")) = truthy (dget m k VNone).
Proof.
  induction m as [| [k' v] r IH]; simpl; [reflexivity|].
  destruct (String.eqb k k'); [reflexivity | exact IH].
Qed.

(** X13: [get_user_metadata] returns either [{}] or a dict with exactly the
    keys username, email, name, phoneNumber and user_id, in this order, whose
    username or email is non-empty. *)
Theorem user_metadata_shape (get_thread_history : PyVal -> list PyVal)
    (thread_id v : PyVal) :
  get_user_metadata get_thread_history thread_id = Ok v ->
  v = VDict [] \/
  exists username email name phone user_id,
    v = VDict [("username", username); ("email", email); ("name", name);
               ("phoneNumber", phone); ("user_id", user_id)]%string /\
    (truthy username || truthy email) = true.
Proof.
  unfold get_user_metadata. generalize (get_thread_history thread_id). intros items.
  induction items as [| item rest IH]; intros H; simpl in H.
  - inversion H; subst. left. reflexivity.
  - apply bind_ok in H as [md [Hmd H]]. apply bind_ok in H as [u [Hu H]].
    apply bind_ok in H as [e [He H]].
    destruct (truthy u || truthy e) eqn:E; [|exact (IH H)].
    destruct md as [| | | | | m]; try (inversion H; subst; left; reflexivity).
    simpl in Hu, He. inversion Hu; inversion He; subst u e. inversion H; subst v.
    right. do 5 eexists. split; [reflexivity|].
    rewrite !dget_truthy_default. exact E.
Qed.

(** ** Date filter *)

Section DateFilter.
Variable iso_date : string -> option Z.
Variable strptime_date : string -> option Z.
Variables date_from date_to : option string.

Definition kept_by_date (t : PyVal) : bool :=
  match t with
  | VDict d =>
      truthy (dget d "updated_at" (VStr "")) &&
      in_date_window iso_date strptime_date date_from date_to (dget d "updated_at" (VStr ""))
  | _ => false
  end.

Lemma filter_fold (threads acc : list PyVal) :
  fold_m (fun filtered_threads thread =>
      updated_at <- py_get thread "updated_at" (VStr "") ;;
      if negb (truthy updated_at) then Ok filtered_threads
      else if in_date_window iso_date strptime_date date_from date_to updated_at
      then Ok (filtered_threads ++ [thread])
      else Ok filtered_threads) threads acc =
  if forallb is_dict threads then Ok (acc ++ filter kept_by_date threads)
  else Err AttributeError.
Proof.
  revert acc. induction threads as [| t r IH]; intros acc; simpl.
  - rewrite app_nil_r. reflexivity.
  - destruct t as [| | | | | d]; simpl; try reflexivity.
    destruct (truthy (dget d "updated_at" (VStr ""))); simpl;
      [destruct (in_date_window _ _ _ _ _); simpl|]; rewrite IH;
      destruct (forallb is_dict r); try reflexivity; rewrite <- ?app_assoc; reflexivity.
Qed.

Lemma filter_threads_by_date_eq (threads : list PyVal) :
  _filter_threads_by_date iso_date strptime_date threads date_from date_to =
  if negb (opt_truthy date_from) && negb (opt_truthy date_to) then Ok threads
  else if forallb is_dict threads then Ok (filter kept_by_date threads)
  else Err AttributeError.
Proof. unfold _filter_threads_by_date. rewrite filter_fold. reflexivity. Qed.

Lemma subseq_filter {A} (f : A -> bool) (l : list A) : subseq (filter f l) l.
Proof.
  induction l as [| x r IH]; simpl; [constructor|].
  destruct (f x); [apply subseq_take | apply subseq_skip]; exact IH.
Qed.

Lemma filter_idem {A} (f : A -> bool) (l : list A) : filter f (filter f l) = filter f l.
Proof.
  induction l as [| x r IH]; simpl; [reflexivity|].
  destruct (f x) eqn:E; simpl; [rewrite E, IH|]; auto.
Qed.

End DateFilter.

(** X14: with a date bound given, [_filter_threads_by_date] raises exactly
    when some thread is not a dict, and then raises [AttributeError]. *)
Theorem filter_threads_by_date_errors (iso_date strptime_date : string -> option Z)
    (threads : list PyVal) (date_from date_to : option string) :
  (opt_truthy date_from || opt_truthy date_to) = true ->
  match _filter_threads_by_date iso_date strptime_date threads date_from date_to with
  | Ok _ => forallb is_dict threads = true
  | Err e => e = AttributeError /\ forallb is_dict threads = false
  end.
Proof.
  intros Hd. rewrite filter_threads_by_date_eq.
  destruct (opt_truthy date_from), (opt_truthy date_to); try discriminate; simpl;
    destruct (forallb is_dict threads) eqn:E; auto.
Qed.

(** X15: the threads kept by [_filter_threads_by_date] are a subsequence of
    the input; with a date bound given, each is a dict whose [updated_at] is
    non-empty and within the bounds. *)
Theorem filter_threads_by_date_selects (iso_date strptime_date : string -> option Z)
    (threads r : list PyVal) (date_from date_to : option string) :
  _filter_threads_by_date iso_date strptime_date threads date_from date_to = Ok r ->
  subseq r threads /\
  ((opt_truthy date_from || opt_truthy date_to) = true ->
   Forall (fun t => exists d, t = VDict d /\
             truthy (dget d "updated_at" (VStr "")) = true /\
             in_date_window iso_date strptime_date date_from date_to
               (dget d "updated_at" (VStr "")) = true) r).
Proof.
  rewrite filter_threads_by_date_eq. intros H.
  destruct (negb (opt_truthy date_from) && negb (opt_truthy date_to)) eqn:Ed.
  - inversion H; subst. split; [apply subseq_refl|].
    intros Hd. destruct (opt_truthy date_from), (opt_truthy date_to); discriminate.
  - destruct (forallb is_dict threads); [|discriminate]. inversion H; subst r; clear H.
    split; [apply subseq_filter|]. intros _. apply Forall_forall. intros t Ht.
    apply filter_In in Ht as [_ Ht]. destruct t as [| | | | | d]; try discriminate.
    apply andb_true_iff in Ht as [H1 H2]. exists d. auto.
Qed.

(** X16: filtering the result of [_filter_threads_by_date] again with the same
    bounds returns it unchanged. *)
Theorem filter_threads_by_date_idempotent (iso_date strptime_date : string -> option Z)
    (threads r : list PyVal) (date_from date_to : option string) :
  _filter_threads_by_date iso_date strptime_date threads date_from date_to = Ok r ->
  _filter_threads_by_date iso_date strptime_date r date_from date_to = Ok r.
Proof.
  rewrite !filter_threads_by_date_eq. intros H.
  destruct (negb (opt_truthy date_from) && negb (opt_truthy date_to)); [inversion H; subst; reflexivity|].
  destruct (forallb is_dict threads) eqn:E; [|discriminate]. inversion H; subst r; clear H.
  assert (Hd : forallb is_dict (filter (kept_by_date iso_date strptime_date date_from date_to) threads) = true).
  { apply forallb_forall. intros t Ht. apply filter_In in Ht as [_ Ht].
    destruct t; try discriminate. reflexivity. }
  rewrite Hd, filter_idem. reflexivity.
Qed.

(** ** Threads per day *)

Lemma string_ltb_total (a b : string) :
  String.ltb a b = false -> a <> b -> String.ltb b a = true.
Proof.
  unfold String.ltb. intros H Hne. rewrite String.compare_antisym.
  destruct (String.compare a b) eqn:E; simpl; try discriminate; try reflexivity.
  apply String.compare_eq_iff in E. contradiction.
Qed.

Definition date_lt (a b : string * nat) : Prop := String.ltb (fst a) (fst b) = true.

Lemma insert_date_perm (kv : string * nat) (l : list (string * nat)) :
  Permutation (insert_date kv l) (kv :: l).
Proof.
  induction l as [| x r IH]; simpl; [auto|].
  destruct (String.ltb (fst kv) (fst x)); [auto|].
  transitivity (x :: kv :: r); [auto | apply perm_swap].
Qed.

Lemma fold_insert_date_perm (l : list (string * nat)) :
  Permutation (fold_right insert_date [] l) l.
Proof.
  induction l as [| x r IH]; simpl; [auto|].
  rewrite insert_date_perm. auto.
Qed.

Lemma insert_date_sorted (kv : string * nat) (l : list (string * nat)) :
  Sorted date_lt l -> ~ In (fst kv) (map fst l) -> Sorted date_lt (insert_date kv l).
Proof.
  induction l as [| x r IH]; intros Hs Hn; simpl; [auto|].
  destruct (String.ltb (fst kv) (fst x)) eqn:E.
  - constructor; [exact Hs | constructor; exact E].
  - apply Sorted_inv in Hs as [Hr Hh]. simpl in Hn.
    assert (Hx : String.ltb (fst x) (fst kv) = true)
      by (apply string_ltb_total; [exact E | intros Heq; apply Hn; left; auto]).
    constructor; [apply IH; auto|].
    destruct r as [| y r']; simpl; [constructor; exact Hx|].
    destruct (String.ltb (fst kv) (fst y)); constructor; [exact Hx|].
    inversion Hh; assumption.
Qed.

Lemma fold_insert_date_sorted (l : list (string * nat)) :
  NoDup (map fst l) -> Sorted date_lt (fold_right insert_date [] l).
Proof.
  induction l as [| x r IH]; intros Hn; simpl; [constructor|].
  inversion Hn; subst. apply insert_date_sorted; [auto|].
  intros Hin. apply H1.
  apply (Permutation_in _ (Permutation_map fst (fold_insert_date_perm r))). exact Hin.
Qed.

Definition str_keys {A} (d : list (PyVal * A)) : Prop :=
  Forall (fun k => exists s, k = VStr s) (map fst d).

Lemma assoc_lookup_str_set {A} (day ds : string) (v : A) (d : list (PyVal * A)) :
  str_keys d ->
  assoc_lookup (VStr day) (assoc_set (VStr ds) v d) =
  if String.eqb ds day then Some v else assoc_lookup (VStr day) d.
Proof.
  unfold str_keys. induction d as [| [k' v'] r IH]; intros Hk; simpl.
  - rewrite (String.eqb_sym day ds). reflexivity.
  - inversion Hk as [| ? ? [x Hx] Hr]; subst k'. simpl.
    destruct (String.eqb ds x) eqn:E1.
    + apply String.eqb_eq in E1. subst x. simpl. rewrite (String.eqb_sym day ds).
      destruct (String.eqb ds day); reflexivity.
    + simpl. destruct (String.eqb day x) eqn:E2.
      * apply String.eqb_eq in E2. subst x. rewrite E1. reflexivity.
      * apply IH. exact Hr.
Qed.

Lemma assoc_lookup_str_in {A} (day : string) (n : A) (d : list (PyVal * A)) :
  str_keys d -> NoDup (map fst d) -> In (VStr day, n) d ->
  assoc_lookup (VStr day) d = Some n.
Proof.
  unfold str_keys. induction d as [| [k' v'] r IH]; intros Hk Hn Hin; [destruct Hin|].
  inversion Hk as [| ? ? [x Hx] Hr]; subst k'. inversion Hn as [| ? ? Hnin Hnd]; subst. simpl.
  destruct Hin as [Heq | Hin].
  - inversion Heq; subst. rewrite String.eqb_refl. reflexivity.
  - destruct (String.eqb day x) eqn:E.
    + apply String.eqb_eq in E. subst x. exfalso. apply Hnin.
      apply (in_map fst) in Hin. exact Hin.
    + apply IH; auto.
Qed.

Lemma assoc_lookup_str_some {A} (day : string) (n : A) (d : list (PyVal * A)) :
  str_keys d -> assoc_lookup (VStr day) d = Some n -> In (VStr day, n) d.
Proof.
  unfold str_keys. induction d as [| [k' v'] r IH]; intros Hk H; [discriminate|].
  inversion Hk as [| ? ? [x Hx] Hr]; subst k'. simpl in H.
  destruct (String.eqb day x) eqn:E.
  - apply String.eqb_eq in E. subst x. inversion H; subst. left. reflexivity.
  - right. apply IH; auto.
Qed.

Section ByDate.
Variable iso_day : string -> option string.

(** The day [analyze_threads_by_date] files a thread under, if any. *)
Definition updated_day (t : PyVal) : option string :=
  match t with
  | VDict d =>
      match dget d "updated_at" VNone with
      | VStr s => if truthy (VStr s) then iso_day s else None
      | _ => None
      end
  | _ => None
  end.

Definition on_day (day : string) (t : PyVal) : bool :=
  match updated_day t with Some s => String.eqb s day | None => false end.

Definition day_count (threads : list PyVal) (day : string) : nat :=
  length (filter (on_day day) threads).

Definition date_acc_inv (acc : list (PyVal * nat)) : Prop :=
  str_keys acc /\ NoDup (map fst acc) /\ Forall (fun kv => 0 < snd kv) acc.

Definition acc_count (acc : list (PyVal * nat)) (day : string) : nat :=
  match assoc_lookup (VStr day) acc with Some n => n | None => 0 end.

Lemma date_fold (threads : list PyVal) (acc acc' : list (PyVal * nat)) :
  date_acc_inv acc ->
  fold_m (fun acc thread =>
      updated_at <- py_get thread "updated_at" VNone ;;
      if truthy updated_at then
        match updated_at with
        | VStr s =>
            match iso_day s with
            | Some date_str =>
                let n := match assoc_lookup (VStr date_str) acc with
                         | Some n => n | None => 0 end in
                Ok (assoc_set (VStr date_str) (S n) acc)
            | None => Ok acc
            end
        | _ => Ok acc
        end
      else Ok acc) threads acc = Ok acc' ->
  date_acc_inv acc' /\
  forall day, acc_count acc' day = acc_count acc day + day_count threads day.
Proof.
  revert acc. induction threads as [| t r IH]; intros acc Hinv H.
  - simpl in H. inversion H; subst. split; [exact Hinv|]. intros. unfold day_count. simpl. lia.
  - cbn [fold_m] in H. apply bind_ok in H as [acc1 [Hstep H]].
    assert (Hs : date_acc_inv acc1 /\ forall day, acc_count acc1 day =
                 acc_count acc day + (if on_day day t then 1 else 0)).
    { destruct t as [| | | | | d]; try discriminate. simpl in Hstep.
      unfold on_day, updated_day.
      destruct (dget d "updated_at" VNone) as [| | | s | |]; simpl in Hstep |- *;
        try (assert (acc1 = acc) as ->
               by (repeat match type of Hstep with context [if ?b then _ else _] => destruct b end;
                   congruence);
             split; [exact Hinv | intros; lia]).
      destruct (String.eqb s "") eqn:Es; simpl in Hstep |- *;
        [inversion Hstep; subst; split; [exact Hinv | intros; lia]|].
      destruct (iso_day s) as [ds|]; [|inversion Hstep; subst; split; [exact Hinv | intros; lia]].
      inversion Hstep; subst acc1. destruct Hinv as [Hk [Hn Hp]]. split.
      - unfold date_acc_inv, str_keys. rewrite assoc_set_keys.
        destruct (existsb (py_eq (VStr ds)) (map fst acc)) eqn:Ex.
        + split; [exact Hk|]. split; [exact Hn|]. apply assoc_set_Forall_snd; [exact Hp | lia].
        + split; [apply Forall_app; split; [exact Hk | constructor; [exists ds; auto | constructor]]|].
          split; [|apply assoc_set_Forall_snd; [exact Hp | lia]].
          apply NoDup_app; [exact Hn | constructor; [intros [] | constructor] |].
          intros k Hin [Heq | []]. subst k.
          assert (existsb (py_eq (VStr ds)) (map fst acc) = true)
            by (apply existsb_exists; exists (VStr ds); split; [exact Hin | apply String.eqb_refl]).
          congruence.
      - intros day. unfold acc_count. rewrite (assoc_lookup_str_set day ds _ acc Hk).
        destruct (String.eqb ds day) eqn:E.
        + apply String.eqb_eq in E. subst. lia.
        + lia. }
    destruct Hs as [Hs1 Hs2]. destruct (IH acc1 Hs1 H) as [Hr1 Hr2].
    split; [exact Hr1|]. intros day. rewrite Hr2, Hs2. unfold day_count. simpl.
    destruct (on_day day t); simpl; lia.
Qed.

Lemma map_py_str_nodup (d : list (PyVal * nat)) :
  str_keys d -> NoDup (map fst d) ->
  NoDup (map fst (map (fun kv => (py_str (fst kv), snd kv)) d)).
Proof.
  unfold str_keys. induction d as [| [k v] r IH]; intros Hk Hn; simpl; [constructor|].
  inversion Hk as [| ? ? [x Hx] Hr]; subst k. inversion Hn as [| ? ? Hnin Hnd]; subst. constructor; [|auto].
  rewrite map_map. simpl. intros Hin. apply in_map_iff in Hin as [[k' v'] [Heq Hin]].
  simpl in Heq. apply Hnin. apply (in_map fst) in Hin. simpl in Hin.
  assert (Hk' : exists s, k' = VStr s)
    by (rewrite Forall_forall in Hr; exact (Hr k' Hin)).
  destruct Hk' as [s Hs]. subst k'. simpl in Heq. subst. exact Hin.
Qed.

End ByDate.

(** X17: [analyze_threads_by_date] lists days in strictly increasing order, each
    with the number of threads whose [updated_at] falls on it (at least one),
    and lists every day on which some thread falls. *)
Theorem threads_by_date_sorted_counts (iso_day : string -> option string)
    (threads : list PyVal) (r : list (string * nat)) :
  analyze_threads_by_date iso_day threads = Ok r ->
  Sorted (fun a b => String.ltb (fst a) (fst b) = true) r /\
  (forall day n, In (day, n) r -> n = day_count iso_day threads day /\ 0 < n) /\
  (forall day, 0 < day_count iso_day threads day -> In (day, day_count iso_day threads day) r).
Proof.
  unfold analyze_threads_by_date. intros H. apply bind_ok in H as [acc [Hf H]].
  inversion H; subst r; clear H.
  assert (H0 : date_acc_inv []) by (repeat split; constructor).
  destruct (date_fold iso_day threads [] acc H0 Hf) as [[Hk [Hn Hp]] Hc].
  set (L := map (fun kv => (py_str (fst kv), snd kv)) acc).
  assert (HP : Permutation (fold_right insert_date [] L) L) by apply fold_insert_date_perm.
  split; [|split].
  - apply fold_insert_date_sorted. apply map_py_str_nodup; assumption.
  - intros day n Hin. apply (Permutation_in _ HP) in Hin. unfold L in Hin.
    apply in_map_iff in Hin as [[k v] [Heq Hin]].
    assert (Hks : exists s, k = VStr s)
      by (unfold str_keys in Hk; rewrite Forall_forall in Hk; apply Hk; apply (in_map fst) in Hin; exact Hin).
    destruct Hks as [s Hs]. subst k. simpl in Heq. inversion Heq; subst s n.
    pose proof (assoc_lookup_str_in day v acc Hk Hn Hin) as Hl.
    specialize (Hc day). unfold acc_count in Hc. rewrite Hl in Hc. simpl in Hc.
    split; [exact Hc|]. rewrite Forall_forall in Hp. exact (Hp _ Hin).
  - intros day Hd. specialize (Hc day). unfold acc_count in Hc. simpl in Hc.
    destruct (assoc_lookup (VStr day) acc) as [n|] eqn:El; [|lia]. subst n.
    apply assoc_lookup_str_some in El; [|exact Hk].
    apply (Permutation_in _ (Permutation_sym HP)). unfold L.
    apply in_map_iff. exists (VStr day, day_count iso_day threads day). auto.
Qed.

(** ** Conversation records *)

Definition record_ok (r : ConvRecord) : Prop :=
  cr_message_count r = length (cr_conversation r) /\ 0 < cr_message_count r /\
  truthy (cr_thread_id r) = true /\ Forall well_formed_message (cr_conversation r).

Lemma process_single_thread_ok (h : PyVal -> list PyVal) (t : PyVal) (r : ConvRecord) :
  _process_single_thread h t = Ok (Some r) -> record_ok r.
Proof.
  destruct t as [| | | | | d]; simpl; try discriminate.
  destruct (truthy (dget d "thread_id" VNone)) eqn:Et; simpl; [|discriminate].
  destruct (h (dget d "thread_id" VNone)) as [| x xs] eqn:Eh; [discriminate|].
  intros H. apply bind_ok in H as [conv [Hc H]]. destruct conv as [| m ms]; [discriminate|].
  inversion H; subst r. unfold record_ok; simpl. repeat split; auto; try lia.
  apply (extract_well_formed _ _ Hc).
Qed.

Lemma collect_completed_ok (h : PyVal -> list PyVal) (l : list PyVal) :
  Forall record_ok (collect_completed h l) /\ length (collect_completed h l) <= length l.
Proof.
  induction l as [| t r [IH1 IH2]]; simpl; [split; auto|].
  destruct (_process_single_thread h t) as [[c|]|] eqn:E; simpl; split; auto; try lia.
  constructor; [exact (process_single_thread_ok h t c E) | exact IH1].
Qed.

(** X18: every outcome of [process_threads_parallel] is a permutation of the
    records [_process_single_thread] gives for the threads in order, has at
    most one record per thread, and each record has a truthy [thread_id] and
    a [message_count] equal to the length, positive, of its conversation of
    well-formed messages. *)
Theorem process_threads_parallel_results (get_thread_history : PyVal -> list PyVal)
    (threads : list PyVal) (results : list ConvRecord) :
  process_threads_parallel get_thread_history threads results ->
  Permutation results (collect_completed get_thread_history threads) /\
  length results <= length threads /\
  Forall record_ok results.
Proof.
  intros [completed [Hp ->]].
  assert (HP : Permutation (collect_completed get_thread_history completed)
                           (collect_completed get_thread_history threads))
    by (unfold collect_completed; apply Permutation_flat_map; symmetry; exact Hp).
  destruct (collect_completed_ok get_thread_history completed) as [H1 H2].
  split; [exact HP|]. split; [|exact H1].
  rewrite (Permutation_length Hp). exact H2.
Qed.

(** ** The dashboard's conversations *)

Lemma root_extract_well_formed (history_data : list PyVal) :
  Forall well_formed_message (RootAnalytics.extract_conversation_from_history history_data).
Proof.
  apply Forall_forall. intros m Hm.
  unfold RootAnalytics.extract_conversation_from_history in Hm.
  destruct history_data as [| item rest]; [destruct Hm|].
  apply in_flat_map in Hm as [item' [_ Hm]].
  unfold RootAnalytics.item_conversation in Hm. destruct item' as [| | | | | d]; try destruct Hm.
  destruct (negb (truthy _)); [destruct Hm|].
  apply in_flat_map in Hm as [v [_ Hm]].
  unfold RootAnalytics.value_messages in Hm. destruct v; try destruct Hm.
  unfold collect_messages in Hm. apply in_flat_map in Hm as [msg [_ Hm]].
  destruct (_process_message msg _) eqn:E; [|destruct Hm].
  destruct Hm as [<-|[]]. eapply process_message_well_formed. exact E.
Qed.

Lemma conversation_step_ok (h : PyVal -> list PyVal) (e : exn) (acc acc' : list ConvRecord)
    (t : PyVal) :
  StreamlitApp.conversation_step h e acc t = Ok acc' ->
  exists l, acc' = acc ++ l /\ length l <= 1 /\ Forall record_ok l.
Proof.
  destruct t as [| | | | | d]; simpl; try discriminate.
  destruct (truthy (dget d "thread_id" VNone)) eqn:Et; simpl.
  2:{ intros H. inversion H; subst. exists []. rewrite app_nil_r. auto. }
  intros H. apply bind_ok in H as [s [_ H]].
  destruct (h (dget d "thread_id" VNone)) as [| x xs] eqn:Eh; cbn [truthy] in H.
  { inversion H; subst. exists []. rewrite app_nil_r. auto. }
  pose proof (root_extract_well_formed (x :: xs)) as Hw.
  destruct (RootAnalytics.extract_conversation_from_history (x :: xs)) as [| m ms].
  { inversion H; subst. exists []. rewrite app_nil_r. auto. }
  inversion H; subst. eexists. split; [reflexivity|]. split; [simpl; lia|].
  constructor; [|constructor]. unfold record_ok; simpl. repeat split; auto; try lia.
Qed.

Lemma conversation_fold_ok (h : PyVal -> list PyVal) (e : exn) (l : list PyVal)
    (acc acc' : list ConvRecord) :
  fold_m (StreamlitApp.conversation_step h e) l acc = Ok acc' ->
  exists l', acc' = acc ++ l' /\ length l' <= length l /\ Forall record_ok l'.
Proof.
  revert acc. induction l as [| t r IH]; intros acc H; simpl in H.
  - inversion H; subst. exists []. rewrite app_nil_r. auto.
  - apply bind_ok in H as [acc1 [Hs H]].
    destruct (conversation_step_ok h e acc acc1 t Hs) as [l1 [-> [Hl1 Hf1]]].
    destruct (IH _ H) as [l2 [-> [Hl2 Hf2]]].
    exists (l1 ++ l2). rewrite app_assoc. split; [reflexivity|].
    rewrite length_app. simpl. split; [lia | apply Forall_app; auto].
Qed.

(** X19: the dashboard's [get_conversations_for_threads] returns at most
    [min(max_conversations, len(threads))] records, each as in X18. *)
Theorem dashboard_conversations_bounded (get_thread_history : PyVal -> list PyVal)
    (analytics_init_ok : bool) (dict_slice_error : exn) (threads : list PyVal)
    (max_conversations : nat) :
  let convs := StreamlitApp.get_conversations_for_threads get_thread_history analytics_init_ok
                 dict_slice_error threads max_conversations in
  length convs <= Nat.min max_conversations (length threads) /\ Forall record_ok convs.
Proof.
  intros convs. unfold convs, StreamlitApp.get_conversations_for_threads.
  destruct analytics_init_ok; simpl; [|split; [lia | constructor]].
  destruct (fold_m _ _ []) as [acc|] eqn:E; [|simpl; split; [lia | constructor]].
  destruct (conversation_fold_ok _ _ _ _ _ E) as [l [-> [Hl Hf]]].
  rewrite length_firstn in Hl. simpl. split; [exact Hl | exact Hf].
Qed.

(** The dashboard loop raises (and so returns [[]]) on a thread that is not
    a dict, or whose truthy [thread_id] cannot be sliced. *)
Definition dashboard_raises (t : PyVal) : Prop :=
  is_dict t = false \/
  exists d, t = VDict d /\ truthy (dget d "thread_id" VNone) = true /\
    (forall s, dget d "thread_id" VNone <> VStr s) /\
    (forall l, dget d "thread_id" VNone <> VList l).

Lemma conversation_fold_err (h : PyVal -> list PyVal) (e : exn) (l : list PyVal) (t : PyVal)
    (acc : list ConvRecord) :
  In t l -> dashboard_raises t ->
  exists e', fold_m (StreamlitApp.conversation_step h e) l acc = Err e'.
Proof.
  revert acc. induction l as [| x r IH]; intros acc Hin Hr; [destruct Hin|].
  simpl. destruct Hin as [-> | Hin].
  - destruct Hr as [Hd | [d [-> [Ht [Hs Hl]]]]].
    + destruct t; try discriminate; eexists; reflexivity.
    + simpl. rewrite Ht. simpl.
      destruct (dget d "thread_id" VNone) eqn:E; simpl;
        try (eexists; reflexivity);
        [exfalso; eapply Hs; reflexivity | exfalso; eapply Hl; reflexivity].
  - destruct (StreamlitApp.conversation_step h e acc x) as [acc1|e1]; simpl;
      [exact (IH acc1 Hin Hr) | eexists; reflexivity].
Qed.

(** X20: one thread among the first [max_conversations] that is not a dict,
    or whose truthy [thread_id] is neither a string nor a list, makes the
    dashboard's [get_conversations_for_threads] return [[]]. *)
Theorem dashboard_conversations_all_or_nothing (get_thread_history : PyVal -> list PyVal)
    (analytics_init_ok : bool) (dict_slice_error : exn) (threads : list PyVal)
    (max_conversations : nat) (t : PyVal) :
  In t (firstn max_conversations threads) -> dashboard_raises t ->
  StreamlitApp.get_conversations_for_threads get_thread_history analytics_init_ok
    dict_slice_error threads max_conversations = [].
Proof.
  intros Hin Hr. unfold StreamlitApp.get_conversations_for_threads.
  destruct analytics_init_ok; simpl; [|reflexivity].
  destruct (conversation_fold_err get_thread_history dict_slice_error _ t [] Hin Hr) as [e' ->].
  reflexivity.
Qed.

(** ** Wrapped content *)

Lemma length_str_app (a b : string) : String.length (a ++ b) = String.length a + String.length b.
Proof. induction a; simpl; auto. Qed.

Lemma length_lstrip (s : string) : String.length (lstrip s) <= String.length s.
Proof. induction s as [| c r IH]; simpl; [lia|]. destruct (is_space c); simpl; lia. Qed.

Lemma length_rev_str (s acc : string) :
  String.length (rev_str s acc) = String.length s + String.length acc.
Proof. revert acc. induction s as [| c r IH]; intros acc; simpl; [reflexivity|]. rewrite IH. simpl. lia. Qed.

Lemma length_rstrip (s : string) : String.length (rstrip s) <= String.length s.
Proof.
  unfold rstrip. rewrite length_rev_str. simpl.
  pose proof (length_lstrip (rev_str s EmptyString)). rewrite length_rev_str in H. simpl in H. lia.
Qed.

Lemma rstrip_app_space (x : string) : rstrip (x ++ " ") = rstrip x.
Proof. unfold rstrip. rewrite rev_str_app. reflexivity. Qed.

Definition wrapped_ok (words : list string) (o : string) : Prop :=
  String.length o <= 74 \/
  exists w, In w words /\ o = rstrip (indent ++ w ++ " ") /\ 70 < 4 + String.length w.

Definition cur_ok (words : list string) (cur : string) : Prop :=
  String.length (rstrip cur) <= 70 \/ exists w, In w words /\ cur = (indent ++ w ++ " ")%string.

Lemma cur_ok_emit (words : list string) (cur : string) :
  cur_ok words cur -> wrapped_ok words (rstrip cur).
Proof.
  intros [H | [w [Hw ->]]]; [left; lia|].
  pose proof (length_rstrip (indent ++ w ++ " ")) as Hl.
  rewrite !length_str_app in Hl. change (String.length indent) with 4 in Hl.
  change (String.length " ") with 1 in Hl.
  destruct (Nat.le_gt_cases (String.length (rstrip (indent ++ w ++ " "))) 74); [left; exact H|].
  right. exists w. split; [exact Hw|]. split; [reflexivity | lia].
Qed.

Lemma wrap_fold_ok (words ws : list string) (out : list string) (cur : string) :
  incl ws words -> Forall (wrapped_ok words) out -> cur_ok words cur ->
  let r := fold_left wrap_step ws (out, cur) in
  Forall (wrapped_ok words) (fst r) /\ cur_ok words (snd r).
Proof.
  revert out cur. induction ws as [| w r IH]; intros out cur Hi Ho Hc; cbn [fold_left wrap_step]; [auto|].
  destruct (String.length (cur ++ w) <=? 70) eqn:E.
  - apply IH; [intros x Hx; apply Hi; right; exact Hx | exact Ho |].
    left. rewrite <- str_app_assoc, rstrip_app_space.
    pose proof (length_rstrip (cur ++ w)). apply Nat.leb_le in E. lia.
  - apply IH; [intros x Hx; apply Hi; right; exact Hx | |].
    + apply Forall_app. split; [exact Ho|]. constructor; [|constructor].
      apply cur_ok_emit. exact Hc.
    + right. exists w. split; [apply Hi; left; reflexivity | reflexivity].
Qed.

Lemma wrap_line_ok (line : string) :
  Forall (wrapped_ok (split_on " " line)) (wrap_line line).
Proof.
  unfold wrap_line, wrap_loop.
  assert (Hi : cur_ok (split_on " " line) indent) by (left; vm_compute; lia).
  destruct (wrap_fold_ok (split_on " " line) (split_on " " line) [] indent
              (incl_refl _) (Forall_nil _) Hi) as [H1 H2].
  destruct (fold_left _ (split_on " " line) ([], indent)) as [out cur]. simpl in H1, H2.
  destruct (String.eqb (strip cur) EmptyString); [exact H1|].
  apply Forall_app. split; [exact H1|]. constructor; [|constructor]. apply cur_ok_emit. exact H2.
Qed.

(** X22: every line written by [_write_wrapped_content] has at most 74
    characters, unless it is the indented, right-stripped form of one word
    of the content longer than 66 characters. *)
Theorem write_wrapped_content_width (content : string) :
  Forall (fun o =>
    String.length o <= 74 \/
    exists line w, In line (split_on (ascii_of_nat 10) content) /\ In w (split_on " " line) /\
      o = rstrip (indent ++ w ++ " ") /\ 70 < 4 + String.length w)
    (_write_wrapped_content content).
Proof.
  unfold _write_wrapped_content. apply Forall_forall. intros o Ho.
  apply in_flat_map in Ho as [line [Hl Ho]].
  destruct (String.length line <=? 70) eqn:E.
  - destruct Ho as [<- | []]. left. rewrite length_str_app.
    change (String.length indent) with 4. apply Nat.leb_le in E. lia.
  - pose proof (wrap_line_ok line) as Hw. rewrite Forall_forall in Hw.
    destruct (Hw o Ho) as [H | [w [Hin [Heq Hlen]]]]; [left; exact H|].
    right. exists line, w. auto.
Qed.

Lemma wrap_fold_prefix (ws : list string) (out : list string) (cur : string) :
  exists more, fst (fold_left wrap_step ws (out, cur))
    = out ++ more.
Proof.
  revert out cur. induction ws as [| w r IH]; intros out cur; cbn [fold_left wrap_step].
  - exists []. rewrite app_nil_r. reflexivity.
  - destruct (String.length (cur ++ w) <=? 70).
    + apply IH.
    + destruct (IH (out ++ [rstrip cur]) (indent ++ w ++ " ")%string) as [m Hm].
      exists ([rstrip cur] ++ m). rewrite Hm, app_assoc. reflexivity.
Qed.

(** X23: when the first line of the content is longer than 70 characters and
    its first word longer than 66, [_write_wrapped_content] first writes an
    empty line. *)
Theorem write_wrapped_content_blank_first_line (content line w : string)
    (lines words : list string) :
  split_on (ascii_of_nat 10) content = line :: lines ->
  70 < String.length line ->
  split_on " " line = w :: words ->
  66 < String.length w ->
  exists rest, _write_wrapped_content content = EmptyString :: rest.
Proof.
  intros Hc Hl Hs Hw. unfold _write_wrapped_content. rewrite Hc. cbn [flat_map].
  replace (String.length line <=? 70) with false by (symmetry; apply Nat.leb_gt; lia).
  unfold wrap_line, wrap_loop. rewrite Hs. cbn [fold_left wrap_step].
  replace (String.length (indent ++ w) <=? 70) with false
    by (symmetry; apply Nat.leb_gt; rewrite length_str_app; change (String.length indent) with 4; lia).
  rewrite app_nil_l.
  destruct (wrap_fold_prefix words [rstrip indent] (indent ++ w ++ " ")%string) as [m Hm].
  destruct (fold_left wrap_step words ([rstrip indent], (indent ++ w ++ " ")%string)) as [out cur].
  simpl in Hm. subst out.
  destruct (String.eqb (strip cur) EmptyString); simpl; eexists; reflexivity.
Qed.

(** ** Witnesses of the further properties *)

Definition user_stat (n : nat) : UserStat :=
  {| thread_count := n; thread_ids := []; user_info := VDict [];
     us_total_messages := 0; us_total_user_messages := 0 |}.

Definition sample_users : list (PyVal * UserStat) :=
  [(VStr "u1", user_stat 3); (VStr "u2", user_stat 1); (VStr "u3", user_stat 2)]%string.

Lemma get_top_users_keeps_largest_witness :
  In (VStr "u2", user_stat 1)%string sample_users /\
  (In (top_user_entry (VStr "u2", user_stat 1)%string) (get_top_users sample_users 2) \/
   Forall (fun t => thread_count (snd (VStr "u2", user_stat 1)%string) <= tu_thread_count t)
     (get_top_users sample_users 2)).
Proof.
  split; [right; left; reflexivity|].
  apply (get_top_users_keeps_largest sample_users 2 (VStr "u2", user_stat 1)%string).
  right; left; reflexivity.
Defined.

Definition blank_message : Message :=
  {| m_timestamp := VNone; m_role := "AI"; m_content := "   " |}%string.

Definition chat : list Message := [hi_message; blank_message; hi_message].

Lemma unique_messages_distinct_keys_witness :
  StreamlitApp.unique_messages TypeError chat = Ok [hi_message] /\
  (subseq [hi_message] chat /\
   Forall (fun m => strip (m_content m) <> EmptyString) [hi_message] /\
   exists keys,
     Forall2 (fun m k => StreamlitApp.message_key TypeError m = Ok k) [hi_message] keys /\
     NoDup keys).
Proof.
  split; [reflexivity|].
  apply (unique_messages_distinct_keys TypeError chat [hi_message]). reflexivity.
Defined.

Lemma unique_messages_covers_conversation_witness :
  (StreamlitApp.unique_messages TypeError chat = Ok [hi_message] /\
   In hi_message chat /\ strip (m_content hi_message) <> EmptyString) /\
  exists m' k,
    In m' [hi_message] /\ StreamlitApp.message_key TypeError hi_message = Ok k /\
    StreamlitApp.message_key TypeError m' = Ok k.
Proof.
  split; [split; [reflexivity | split; [left; reflexivity | vm_compute; discriminate]]|].
  apply (unique_messages_covers_conversation TypeError chat [hi_message] hi_message).
  - reflexivity.
  - left; reflexivity.
  - vm_compute; discriminate.
Defined.

Lemma unique_messages_idempotent_witness :
  StreamlitApp.unique_messages TypeError chat = Ok [hi_message] /\
  StreamlitApp.unique_messages TypeError [hi_message] = Ok [hi_message].
Proof.
  split; [reflexivity|].
  apply (unique_messages_idempotent TypeError chat [hi_message]). reflexivity.
Defined.

Lemma extract_messages_well_formed_witness :
  extract_conversation_from_history [hi_item] = Ok [hi_message] /\
  Forall (fun m => (m_role m = "User"%string \/ m_role m = "AI"%string) /\
                   m_content m <> EmptyString /\ strip (m_content m) = m_content m)
    [hi_message].
Proof.
  split; [reflexivity|].
  apply (extract_messages_well_formed [hi_item] [hi_message]). reflexivity.
Defined.

Lemma thread_conversation_data_split_witness :
  exists c,
    _get_thread_conversation_data (fun _ => [hi_item]) (VStr "t1") = Ok c /\
    cd_total_messages c = 1 /\
    cd_user_messages c + cd_ai_messages c = cd_total_messages c.
Proof.
  eexists. split; [reflexivity|]. split; [reflexivity|].
  apply (thread_conversation_data_split (fun _ => [hi_item]) (VStr "t1")). reflexivity.
Defined.

Lemma report_user_messages_le_total_witness :
  exists r,
    generate_report (fun _ => [hi_item]) (fun _ => None) round_trip_threads true = Ok r /\
    summary_total_messages r = 3 /\
    summary_user_messages r <= summary_total_messages r.
Proof.
  eexists. split; [reflexivity|]. split; [reflexivity|].
  apply (report_user_messages_le_total (fun _ => [hi_item]) (fun _ => None)
           round_trip_threads true). reflexivity.
Defined.

Lemma users_counted_once_witness :
  exists us,
    analyze_users_comprehensive (fun _ => [hi_item]) round_trip_threads = Ok us /\
    total_users us = 2 /\
    (total_users us = length (threads_per_user us) /\
     distinct_ids (map fst (threads_per_user us))).
Proof.
  eexists. split; [reflexivity|]. split; [reflexivity|].
  apply (users_counted_once (fun _ => [hi_item]) round_trip_threads). reflexivity.
Defined.

(** The totals [analyze_tool_calling_for_all_threads] returns for three
    threads whose history holds one [create_lead] call. *)
Definition sample_tool_totals : ToolTotals :=
  Eval vm_compute in
    match analyze_tool_calling_for_all_threads (fun _ => [create_lead_item]) round_trip_threads with
    | Ok t => t
    | Err _ => empty_tool_totals
    end.

Lemma tool_totals_consistent_witness :
  analyze_tool_calling_for_all_threads (fun _ => [create_lead_item]) round_trip_threads
    = Ok sample_tool_totals /\
  tt_create_lead sample_tool_totals = 3 /\
  (tt_total_tool_calls sample_tool_totals = length (detailed_calls sample_tool_totals) /\
   tt_create_lead sample_tool_totals + tt_send_html_email sample_tool_totals
     <= tt_total_tool_calls sample_tool_totals /\
   threads_with_create_lead sample_tool_totals <= tt_create_lead sample_tool_totals /\
   threads_with_send_html_email sample_tool_totals <= tt_send_html_email sample_tool_totals /\
   threads_with_create_lead sample_tool_totals <= threads_with_any_tool sample_tool_totals /\
   threads_with_send_html_email sample_tool_totals <= threads_with_any_tool sample_tool_totals /\
   threads_with_any_tool sample_tool_totals
     <= Nat.min (tt_total_tool_calls sample_tool_totals) (length round_trip_threads)).
Proof.
  split; [vm_compute; reflexivity|]. split; [vm_compute; reflexivity|].
  apply (tool_totals_consistent (fun _ => [create_lead_item]) round_trip_threads
           sample_tool_totals). vm_compute. reflexivity.
Defined.

Definition metadata_item : PyVal :=
  VDict [("metadata", VDict [("email", VStr "a@example.com"); ("user_id", VStr "u1")])]%string.

Lemma user_metadata_shape_witness :
  get_user_metadata (fun _ => [empty_item; metadata_item]) (VStr "t1")
    = Ok (VDict [("username", VStr ""); ("email", VStr "a@example.com"); ("name", VStr "");
                 ("phoneNumber", VStr ""); ("user_id", VStr "u1")])%string /\
  (VDict [("username", VStr ""); ("email", VStr "a@example.com"); ("name", VStr "");
          ("phoneNumber", VStr ""); ("user_id", VStr "u1")]%string = VDict [] \/
   exists username email name phone user_id,
     VDict [("username", VStr ""); ("email", VStr "a@example.com"); ("name", VStr "");
            ("phoneNumber", VStr ""); ("user_id", VStr "u1")]%string =
     VDict [("username", username); ("email", email); ("name", name);
            ("phoneNumber", phone); ("user_id", user_id)]%string /\
     (truthy username || truthy email) = true).
Proof.
  split; [reflexivity|].
  apply (user_metadata_shape (fun _ => [empty_item; metadata_item]) (VStr "t1")). reflexivity.
Defined.

(** The day of the month of ["YYYY-MM-DD..."], from its tenth character. *)
Definition day_digit (s : string) : option Z :=
  match String.get 9 s with
  | Some c => Some (Z.of_nat (nat_of_ascii c) - 48)%Z
  | None => None
  end.

Definition dated_thread (tid updated_at : string) : PyVal :=
  VDict [("thread_id", VStr tid); ("updated_at", VStr updated_at)]%string.

Definition dated_threads : list PyVal :=
  [dated_thread "t1" "2024-01-01T10:00:00"; dated_thread "t2" "2024-01-05T08:00:00";
   dated_thread "t3" "2024-01-03T09:00:00"; dated_thread "t4" "2024-01-05T23:00:00"]%string.

Lemma filter_threads_by_date_errors_witness :
  (opt_truthy (Some "2024-01-02"%string) || opt_truthy None) = true /\
  match _filter_threads_by_date day_digit day_digit (dated_threads ++ [VInt 7])
          (Some "2024-01-02"%string) None with
  | Ok _ => forallb is_dict (dated_threads ++ [VInt 7]) = true
  | Err e => e = AttributeError /\ forallb is_dict (dated_threads ++ [VInt 7]) = false
  end.
Proof.
  split; [reflexivity|].
  apply (filter_threads_by_date_errors day_digit day_digit (dated_threads ++ [VInt 7])
           (Some "2024-01-02"%string) None). reflexivity.
Defined.

Definition dated_threads_after_2nd : list PyVal :=
  [dated_thread "t2" "2024-01-05T08:00:00"; dated_thread "t3" "2024-01-03T09:00:00";
   dated_thread "t4" "2024-01-05T23:00:00"]%string.

Lemma filter_threads_by_date_selects_witness :
  _filter_threads_by_date day_digit day_digit dated_threads (Some "2024-01-02"%string) None
    = Ok dated_threads_after_2nd /\
  (subseq dated_threads_after_2nd dated_threads /\
   ((opt_truthy (Some "2024-01-02"%string) || opt_truthy None) = true ->
    Forall (fun t => exists d, t = VDict d /\
              truthy (dget d "updated_at" (VStr "")) = true /\
              in_date_window day_digit day_digit (Some "2024-01-02"%string) None
                (dget d "updated_at" (VStr "")) = true) dated_threads_after_2nd)).
Proof.
  split; [reflexivity|].
  apply (filter_threads_by_date_selects day_digit day_digit dated_threads
           dated_threads_after_2nd (Some "2024-01-02"%string) None). reflexivity.
Defined.

Lemma filter_threads_by_date_idempotent_witness :
  _filter_threads_by_date day_digit day_digit dated_threads (Some "2024-01-02"%string) None
    = Ok dated_threads_after_2nd /\
  _filter_threads_by_date day_digit day_digit dated_threads_after_2nd
    (Some "2024-01-02"%string) None = Ok dated_threads_after_2nd.
Proof.
  split; [reflexivity|].
  apply (filter_threads_by_date_idempotent day_digit day_digit dated_threads
           dated_threads_after_2nd (Some "2024-01-02"%string) None). reflexivity.
Defined.

(** [fromisoformat(s).strftime('%Y-%m-%d')] on well-formed timestamps. *)
Definition iso_prefix_day (s : string) : option string := Some (substring 0 10 s).

Lemma threads_by_date_sorted_counts_witness :
  analyze_threads_by_date iso_prefix_day dated_threads
    = Ok [("2024-01-01", 1); ("2024-01-03", 1); ("2024-01-05", 2)]%string /\
  (Sorted (fun a b => String.ltb (fst a) (fst b) = true)
     [("2024-01-01", 1); ("2024-01-03", 1); ("2024-01-05", 2)]%string /\
   (forall day n, In (day, n) [("2024-01-01", 1); ("2024-01-03", 1); ("2024-01-05", 2)]%string ->
      n = day_count iso_prefix_day dated_threads day /\ 0 < n) /\
   (forall day, 0 < day_count iso_prefix_day dated_threads day ->
      In (day, day_count iso_prefix_day dated_threads day)
        [("2024-01-01", 1); ("2024-01-03", 1); ("2024-01-05", 2)]%string)).
Proof.
  split; [reflexivity|].
  apply (threads_by_date_sorted_counts iso_prefix_day dated_threads). reflexivity.
Defined.

Definition history_of (thread_id : PyVal) : list PyVal :=
  match thread_id with
  | VStr "t2"%string => []
  | _ => [hi_item]
  end.

Lemma process_threads_parallel_results_witness :
  process_threads_parallel history_of round_trip_threads
    (collect_completed history_of (rev round_trip_threads)) /\
  length (collect_completed history_of (rev round_trip_threads)) = 2 /\
  (Permutation (collect_completed history_of (rev round_trip_threads))
     (collect_completed history_of round_trip_threads) /\
   length (collect_completed history_of (rev round_trip_threads)) <= length round_trip_threads /\
   Forall record_ok (collect_completed history_of (rev round_trip_threads))).
Proof.
  assert (H : process_threads_parallel history_of round_trip_threads
                (collect_completed history_of (rev round_trip_threads)))
    by (exists (rev round_trip_threads); split; [apply Permutation_rev | reflexivity]).
  split; [exact H|]. split; [reflexivity|].
  apply (process_threads_parallel_results history_of round_trip_threads). exact H.
Defined.

Lemma dashboard_conversations_all_or_nothing_witness :
  (In (VInt 7) (firstn 3 (round_trip_threads ++ [VInt 7])) -> False) /\
  (In (VInt 7) (firstn 4 (round_trip_threads ++ [VInt 7])) /\ dashboard_raises (VInt 7)) /\
  StreamlitApp.get_conversations_for_threads history_of true TypeError
    (round_trip_threads ++ [VInt 7]) 3 <> [] /\
  StreamlitApp.get_conversations_for_threads history_of true TypeError
    (round_trip_threads ++ [VInt 7]) 4 = [].
Proof.
  split; [simpl; intros [H|[H|[H|[]]]]; discriminate H|].
  split; [split; [simpl; right; right; right; left; reflexivity | left; reflexivity]|].
  split; [vm_compute; discriminate|].
  apply (dashboard_conversations_all_or_nothing history_of true TypeError
           (round_trip_threads ++ [VInt 7]) 4 (VInt 7)).
  - simpl; right; right; right; left; reflexivity.
  - left; reflexivity.
Defined.

Definition long_word : string :=
  "https://example.com/a/very/long/path/that/keeps/going/and/going/to/the/end"%string.

Lemma write_wrapped_content_blank_first_line_witness :
  (split_on (ascii_of_nat 10) long_word = [long_word] /\
   70 < String.length long_word /\
   split_on " " long_word = [long_word] /\
   66 < String.length long_word) /\
  exists rest, _write_wrapped_content long_word = EmptyString :: rest.
Proof.
  split; [split; [reflexivity | split; [vm_compute; lia | split; [reflexivity | vm_compute; lia]]]|].
  apply (write_wrapped_content_blank_first_line long_word long_word long_word [] []).
  - reflexivity.
  - vm_compute; lia.
  - reflexivity.
  - vm_compute; lia.
Defined.
